(** * farm-vision: the raster analysis core

    A shallow embedding of [utils/advanced_vegetation.py] and
    [utils/histogram_geotiff.py]: the vegetation-index functions, the
    colour mapper, the statistics and histogram code and the GeoTIFF
    writer, followed by the properties of the specification that are
    settled against them.

    Numbers are IEEE-754 binary64 values, computed with the executable
    specification [SpecFloat] of the standard library (round to nearest,
    ties to even).  Arrays are NumPy arrays: a shape and the elements in
    row-major order; bands and index results hold binary64 numbers, the
    element type of the data model, so what is proved of the functions
    that compute with the values of a raster file is stated for float64
    files.  Python exceptions are a [Raise]
    outcome of the [outcome] monad; [try ... except Exception] is
    [try_except].  Log lines and printed messages are left out: they do
    not change what a function returns.  The file system, rasterio and
    matplotlib are parameters of the sections that use them. *)

From Stdlib Require Import ZArith List Bool String Lia SpecFloat.
From stdpp Require Import gmap strings.

Local Open Scope Z_scope.

(** ** Binary64 arithmetic *)

Module F64.

Definition float := spec_float.

Definition prec : Z := 53.
Definition emax : Z := 1024.

Definition add : float -> float -> float := SFadd prec emax.
Definition sub : float -> float -> float := SFsub prec emax.
Definition mul : float -> float -> float := SFmul prec emax.
Definition div : float -> float -> float := SFdiv prec emax.
Definition sqrt : float -> float := SFsqrt prec emax.

Definition ltb : float -> float -> bool := SFltb.
Definition leb : float -> float -> bool := SFleb.
Definition eqb : float -> float -> bool := SFeqb.

(** A Python [int] used in float arithmetic. *)
Definition of_Z (z : Z) : float := binary_normalize prec emax z 0 false.

(** A decimal literal [n / 10^k], rounded once, as Python reads it. *)
Definition decimal (n : Z) (k : Z) : float := div (of_Z n) (of_Z (10 ^ k)).

Definition nan : float := S754_nan.
Definition zero : float := S754_zero false.
Definition one : float := of_Z 1.

Definition is_nan (x : float) : bool :=
  match x with S754_nan => true | _ => false end.

(** [np.isfinite] *)
Definition is_finite (x : float) : bool :=
  match x with
  | S754_zero _ | S754_finite _ _ _ => true
  | S754_infinity _ | S754_nan => false
  end.

(** [np.clip] with scalar bounds, as every call of the code has them.
    For bounds that are not NaN the element loop is
    [if (x < lo) x = lo; if (x > hi) x = hi]: a NaN element fails both
    comparisons and is kept, and so is a zero of either sign at a bound
    that is zero.  With a NaN bound every element becomes that bound. *)
Definition clip (x lo hi : float) : float :=
  if is_nan lo then lo
  else if is_nan hi then hi
  else
    let x := if ltb x lo then lo else x in
    if ltb hi x then hi else x.

(** [lo <= x <= hi], with the comparisons of the floats themselves. *)
Definition within (lo hi x : float) : bool := leb lo x && leb x hi.

(** The invariant of a stored binary64 value. *)
Definition valid (x : float) : bool := valid_binary prec emax x.

End F64.

Import F64.

Declare Scope f64_scope.
Delimit Scope f64_scope with f64.
Infix "+" := F64.add : f64_scope.
Infix "-" := F64.sub : f64_scope.
Infix "*" := F64.mul : f64_scope.
Infix "/" := F64.div : f64_scope.

(** ** Exceptions *)

Inductive exn : Type :=
  | ValueError (msg : string)
  | TypeError (msg : string)
  | IndexError (msg : string)
  | FileNotFoundError (msg : string)
  | OSError (msg : string)
  | ImportError (msg : string).

Inductive outcome (A : Type) : Type :=
  | Ok (a : A)
  | Raise (e : exn).

Arguments Ok {A} a.
Arguments Raise {A} e.

#[global] Instance outcome_bind : MBind outcome :=
  fun A B (k : A -> outcome B) (r : outcome A) =>
    match r with
    | Ok a => k a
    | Raise e => Raise e
    end.

(** [try: body except Exception as e: handler e] *)
Definition try_except {A : Type} (body : outcome A) (handler : exn -> outcome A)
  : outcome A :=
  match body with
  | Ok a => Ok a
  | Raise e => handler e
  end.

(** ** NumPy arrays *)

Record ndarray (A : Type) : Type := mk_array {
  shape : list nat;
  elems : list A
}.

Arguments mk_array {A} shape elems.
Arguments shape {A} n.
Arguments elems {A} n.

Definition numel (s : list nat) : nat := fold_right Nat.mul 1%nat s.

(** [a.size] *)
Definition size {A : Type} (a : ndarray A) : nat := numel (shape a).

(** The elements fill the shape. *)
Definition wf {A : Type} (a : ndarray A) : Prop :=
  length (elems a) = size a.

(** *** Broadcasting *)

(** One axis of [np.broadcast_shapes]. *)
Definition broadcast_dim (n m : nat) : option nat :=
  if Nat.eqb n m then Some n
  else if Nat.eqb n 1 then Some m
  else if Nat.eqb m 1 then Some n
  else None.

(** Shapes are aligned on their last axis: the function runs over the
    reversed shapes. *)
Fixpoint broadcast_rev (s t : list nat) : option (list nat) :=
  match s, t with
  | [], _ => Some t
  | _, [] => Some s
  | n :: s', m :: t' =>
      match broadcast_dim n m, broadcast_rev s' t' with
      | Some d, Some r => Some (d :: r)
      | _, _ => None
      end
  end.

Definition broadcast_shapes (s t : list nat) : option (list nat) :=
  option_map (@rev nat) (broadcast_rev (rev s) (rev t)).

(** [count] consecutive pieces of [k] elements. *)
Fixpoint chunks {A : Type} (k count : nat) (d : list A) : list (list A) :=
  match count with
  | O => []
  | S c => firstn k d :: chunks k c (skipn k d)
  end.

(** The elements of an array of shape [s] seen with shape [t], where the
    shapes have the same rank and every axis of [s] either agrees with
    [t] or has length one. *)
Fixpoint stretch {A : Type} (s t : list nat) (d : list A) : list A :=
  match s, t with
  | n :: s', m :: t' =>
      if Nat.eqb n m
      then concat (map (stretch s' t') (chunks (numel s') n d))
      else concat (repeat (stretch s' t' d) m)
  | _, _ => d
  end.

(** [np.broadcast_to]: missing leading axes count as axes of length one. *)
Definition broadcast_to {A : Type} (s t : list nat) (d : list A) : list A :=
  stretch (repeat 1%nat (length t - length s) ++ s) t d.

(** A binary element-wise operation on two arrays. *)
Definition broadcast2 {A B C : Type} (f : A -> B -> C)
    (a : ndarray A) (b : ndarray B) : outcome (ndarray C) :=
  match broadcast_shapes (shape a) (shape b) with
  | Some s =>
      Ok (mk_array s (zip_with f (broadcast_to (shape a) s (elems a))
                                 (broadcast_to (shape b) s (elems b))))
  | None =>
      Raise (ValueError "operands could not be broadcast together")
  end.

(** An element-wise operation with a Python scalar, or a unary one. *)
Definition map_array {A B : Type} (f : A -> B) (a : ndarray A) : ndarray B :=
  mk_array (shape a) (map f (elems a)).

Definition np_isfinite (a : ndarray float) : ndarray bool :=
  map_array is_finite a.

Definition np_isnan (a : ndarray float) : ndarray bool :=
  map_array is_nan a.

(** [np.clip(a, lo, hi)] with scalar bounds. *)
Definition np_clip (a : ndarray float) (lo hi : float) : ndarray float :=
  map_array (fun x => clip x lo hi) a.

(** [np.where(c, x, y)] with a scalar [y]. *)
Definition np_where_scalar (c : ndarray bool) (x : ndarray float) (y : float)
  : outcome (ndarray float) :=
  broadcast2 (fun (b : bool) v => if b then v else y) c x.

(** [np.where(c, y, x)] with a scalar [y]. *)
Definition np_where_scalar_l (c : ndarray bool) (y : float) (x : ndarray float)
  : outcome (ndarray float) :=
  broadcast2 (fun (b : bool) v => if b then y else v) c x.

(** [np.zeros_like(a, dtype=np.float64)]; [None] is read as a
    zero-dimensional array. *)
Definition np_zeros_like {A : Type} (a : option (ndarray A)) : ndarray float :=
  match a with
  | Some a => mk_array (shape a) (repeat zero (size a))
  | None => mk_array [] [zero]
  end.

(** [a.astype(np.float64)] on an array that already holds binary64. *)
Definition astype_float64 (a : ndarray float) : ndarray float := a.

Definition np_add : ndarray float -> ndarray float -> outcome (ndarray float) :=
  broadcast2 add.
Definition np_sub : ndarray float -> ndarray float -> outcome (ndarray float) :=
  broadcast2 sub.
Definition np_mul : ndarray float -> ndarray float -> outcome (ndarray float) :=
  broadcast2 mul.
Definition np_div : ndarray float -> ndarray float -> outcome (ndarray float) :=
  broadcast2 div.

(** [a + c], [c * a], [a - c], [a / c] and [a * c] for a Python number
    [c]. *)
Definition add_scalar (a : ndarray float) (c : float) : ndarray float :=
  map_array (fun x => (x + c)%f64) a.
Definition scalar_mul (c : float) (a : ndarray float) : ndarray float :=
  map_array (fun x => (c * x)%f64) a.
Definition sub_scalar (a : ndarray float) (c : float) : ndarray float :=
  map_array (fun x => (x - c)%f64) a.
Definition div_scalar (a : ndarray float) (c : float) : ndarray float :=
  map_array (fun x => (x / c)%f64) a.
Definition mul_scalar (a : ndarray float) (c : float) : ndarray float :=
  map_array (fun x => (x * c)%f64) a.

(** ** utils/advanced_vegetation.py: NDVI *)

Definition epsilon : float := decimal 1 10.

(** The body of the [try] block of [calculate_ndvi_advanced]. *)
Definition ndvi_try (red_band nir_band : option (ndarray float))
  : outcome (ndarray float) :=
  match red_band, nir_band with
  | Some red, Some nir =>
      let red_float := astype_float64 red in
      let nir_float := astype_float64 nir in
      s ← np_add nir_float red_float;
      let denominator := add_scalar s epsilon in
      d ← np_sub nir_float red_float;
      ndvi ← np_div d denominator;
      ndvi ← np_where_scalar (np_isfinite ndvi) ndvi (of_Z 0);
      Ok (np_clip ndvi (of_Z (-1)) (of_Z 1))
  | _, _ => Raise (ValueError "Invalid input bands")
  end.

Definition calculate_ndvi_advanced (red_band nir_band : option (ndarray float))
  : outcome (ndarray float) :=
  try_except (ndvi_try red_band nir_band)
             (fun _ => Ok (np_zeros_like red_band)).

(** What the NDVI code computes at one pixel. *)
Definition ndvi_pixel (red nir : float) : float :=
  let q := ((nir - red) / ((nir + red) + epsilon))%f64 in
  clip (if is_finite q then q else of_Z 0) (of_Z (-1)) (of_Z 1).

(** ** utils/advanced_vegetation.py: the other index functions

    None of them has a [try] block: an exception of the arithmetic
    reaches the caller. *)

(** [a == c] for a Python number [c]. *)
Definition eq_scalar (a : ndarray float) (c : float) : ndarray bool :=
  map_array (fun x => eqb x c) a.

(** [np.where(denominator == 0, np.nan, denominator)] *)
Definition nan_where_zero (denominator : ndarray float)
  : outcome (ndarray float) :=
  np_where_scalar_l (eq_scalar denominator (of_Z 0)) nan denominator.

Definition np_sqrt (a : ndarray float) : ndarray float := map_array sqrt a.

(** [a ** 2] *)
Definition np_square (a : ndarray float) : ndarray float :=
  map_array (fun x => (x * x)%f64) a.

Definition calculate_gli_advanced (red_band green_band blue_band : ndarray float)
  : outcome (ndarray float) :=
  s ← np_add (scalar_mul (of_Z 2) green_band) red_band;
  denominator ← np_add s blue_band;
  denominator ← nan_where_zero denominator;
  n ← np_sub (scalar_mul (of_Z 2) green_band) red_band;
  n ← np_sub n blue_band;
  np_div n denominator.

Definition calculate_vari_advanced (red_band green_band blue_band : ndarray float)
  : outcome (ndarray float) :=
  s ← np_add green_band red_band;
  denominator ← np_sub s blue_band;
  denominator ← nan_where_zero denominator;
  n ← np_sub green_band red_band;
  np_div n denominator.

Definition calculate_ndwi_advanced (green_band nir_band : ndarray float)
  : outcome (ndarray float) :=
  denominator ← np_add green_band nir_band;
  denominator ← nan_where_zero denominator;
  n ← np_sub green_band nir_band;
  np_div n denominator.

Definition calculate_savi_advanced (red_band nir_band : ndarray float)
    (l_factor : float) : outcome (ndarray float) :=
  s ← np_add nir_band red_band;
  denominator ← nan_where_zero (add_scalar s l_factor);
  n ← np_sub nir_band red_band;
  np_div (mul_scalar n (of_Z 1 + l_factor)%f64) denominator.

Definition calculate_evi_advanced (red_band nir_band blue_band : ndarray float)
  : outcome (ndarray float) :=
  s ← np_add nir_band (scalar_mul (of_Z 6) red_band);
  s ← np_sub s (scalar_mul (decimal 75 1) blue_band);
  denominator ← nan_where_zero (add_scalar s (of_Z 1));
  n ← np_sub nir_band red_band;
  np_div (scalar_mul (decimal 25 1) n) denominator.

Definition calculate_tgi_advanced (red_band green_band blue_band : ndarray float)
  : outcome (ndarray float) :=
  t ← np_sub green_band (scalar_mul (decimal 39 2) red_band);
  np_sub t (scalar_mul (decimal 61 2) blue_band).

Definition calculate_msavi_advanced (red_band nir_band : ndarray float)
  : outcome (ndarray float) :=
  let b := add_scalar (scalar_mul (of_Z 2) nir_band) (of_Z 1) in
  d ← np_sub nir_band red_band;
  radicand ← np_sub (np_square b) (scalar_mul (of_Z 8) d);
  n ← np_sub b (np_sqrt radicand);
  Ok (div_scalar n (of_Z 2)).

Definition calculate_osavi_advanced (red_band nir_band : ndarray float)
    (y_factor : float) : outcome (ndarray float) :=
  s ← np_add nir_band red_band;
  denominator ← nan_where_zero (add_scalar s y_factor);
  n ← np_sub nir_band red_band;
  np_div n denominator.

Definition calculate_mcari_advanced
    (red_band green_band red_edge_band : ndarray float)
  : outcome (ndarray float) :=
  a ← np_sub red_edge_band red_band;
  b ← np_sub red_edge_band green_band;
  c ← np_sub a (scalar_mul (decimal 2 1) b);
  q ← np_div red_edge_band red_band;
  np_mul c q.

Definition calculate_rdvi_advanced (red_band nir_band : ndarray float)
  : outcome (ndarray float) :=
  s ← np_add nir_band red_band;
  denominator ← nan_where_zero (np_sqrt s);
  n ← np_sub nir_band red_band;
  np_div n denominator.

Definition calculate_gndvi_advanced (green_band nir_band : ndarray float)
  : outcome (ndarray float) :=
  denominator ← np_add nir_band green_band;
  denominator ← nan_where_zero denominator;
  n ← np_sub nir_band green_band;
  np_div n denominator.

Definition calculate_cvi_advanced (red_band green_band nir_band : ndarray float)
  : outcome (ndarray float) :=
  n ← np_mul nir_band red_band;
  np_div n (np_square green_band).

Definition calculate_arvi_advanced (red_band nir_band blue_band : ndarray float)
  : outcome (ndarray float) :=
  s ← np_add nir_band red_band;
  denominator ← np_sub s blue_band;
  denominator ← nan_where_zero denominator;
  n ← np_sub nir_band red_band;
  np_div n denominator.

Definition calculate_gci_advanced (red_band green_band nir_band : ndarray float)
  : outcome (ndarray float) :=
  q ← np_div nir_band green_band;
  Ok (sub_scalar q (of_Z 1)).

(** The values of the dictionary [VEGETATION_ALGORITHMS]: functions of two
    or of three bands (defaults of further parameters filled in). *)
Inductive index_function : Type :=
  | Bands2 (f : ndarray float -> ndarray float -> outcome (ndarray float))
  | Bands3 (f : ndarray float -> ndarray float -> ndarray float ->
                outcome (ndarray float)).

Definition call2 (f : index_function) (a b : ndarray float)
  : outcome (ndarray float) :=
  match f with
  | Bands2 f => f a b
  | Bands3 _ => Raise (TypeError "missing 1 required positional argument")
  end.

Definition call3 (f : index_function) (a b c : ndarray float)
  : outcome (ndarray float) :=
  match f with
  | Bands3 f => f a b c
  | Bands2 _ => Raise (TypeError "takes 2 positional arguments but 3 were given")
  end.

Definition VEGETATION_ALGORITHMS : gmap string index_function :=
  list_to_map
    [ ("ndvi", Bands2 (fun r n => calculate_ndvi_advanced (Some r) (Some n)));
      ("gli", Bands3 calculate_gli_advanced);
      ("vari", Bands3 calculate_vari_advanced);
      ("ndwi", Bands2 calculate_ndwi_advanced);
      ("savi", Bands2 (fun r n => calculate_savi_advanced r n (decimal 5 1)));
      ("evi", Bands3 calculate_evi_advanced);
      ("tgi", Bands3 calculate_tgi_advanced);
      ("msavi", Bands2 calculate_msavi_advanced);
      ("osavi", Bands2 (fun r n => calculate_osavi_advanced r n (decimal 16 2)));
      ("rdvi", Bands2 calculate_rdvi_advanced);
      ("gndvi", Bands2 calculate_gndvi_advanced);
      ("cvi", Bands3 calculate_cvi_advanced);
      ("arvi", Bands3 calculate_arvi_advanced);
      ("gci", Bands3 calculate_gci_advanced) ]%string.

(** ** utils/advanced_vegetation.py: the colour mapper *)

Definition RdYlGn_lut : list (list Z) :=
  [ [165;0;38]; [167;2;38]; [169;4;38]; [171;6;38]; [173;8;38]; [175;9;38];
    [177;11;38]; [179;13;38]; [181;15;38]; [182;17;39]; [184;19;39]; [186;21;39];
    [188;23;39]; [190;25;39]; [192;27;39]; [194;29;40]; [196;31;40]; [197;33;40];
    [199;35;40]; [201;37;41]; [203;39;41]; [204;41;41]; [206;43;42]; [208;45;42];
    [209;47;43]; [211;49;43]; [212;51;44]; [214;53;44]; [215;56;45]; [217;58;46];
    [218;60;46]; [220;62;47]; [221;64;48]; [222;67;49]; [224;69;50]; [225;71;51];
    [226;74;51]; [227;76;52]; [228;78;53]; [229;81;54]; [231;83;55]; [232;85;56];
    [233;88;57]; [234;90;58]; [235;93;60]; [236;95;61]; [237;97;62]; [237;100;63];
    [238;102;64]; [239;105;65]; [240;107;66]; [240;110;68]; [241;112;69]; [242;115;70];
    [242;117;71]; [243;120;73]; [243;122;74]; [244;125;75]; [244;127;77]; [245;130;78];
    [245;132;79]; [246;135;81]; [246;137;82]; [247;140;84]; [247;142;85]; [248;145;87];
    [248;147;88]; [248;150;90]; [249;152;91]; [249;155;93]; [249;158;94]; [250;160;96];
    [250;163;98]; [250;165;99]; [251;168;101]; [251;170;103]; [251;173;104]; [251;175;106];
    [252;178;108]; [252;180;109]; [252;183;111]; [252;186;113]; [252;188;115]; [253;191;116];
    [253;193;118]; [253;196;120]; [253;198;122]; [253;201;124]; [253;203;125]; [254;206;127];
    [254;208;129]; [254;211;131]; [254;214;133]; [254;216;135]; [254;219;137]; [254;221;139];
    [254;224;141]; [254;226;143]; [254;229;145]; [254;231;147]; [254;234;149]; [254;236;151];
    [254;239;153]; [254;241;155]; [254;244;157]; [254;246;160]; [254;249;162]; [254;251;164];
    [254;254;166]; [253;254;168]; [251;254;170]; [250;254;172]; [248;254;175]; [247;254;177];
    [245;254;179]; [244;254;181]; [242;254;183]; [241;254;185]; [239;254;188]; [238;254;190];
    [236;254;192]; [235;254;194]; [233;254;196]; [232;254;199]; [230;254;201]; [229;254;203];
    [227;254;205]; [226;254;207]; [224;254;210]; [223;254;212]; [221;254;214]; [220;254;216] ].

(** [np.array(RdYlGn_lut) / 255.0], read at row [ix] and column [i]. *)
Definition colormap_array (ix : Z) (i : nat) : float :=
  match RdYlGn_lut !! Z.to_nat ix with
  | Some row => (of_Z (nth i row 0) / of_Z 255)%f64
  | None => nan
  end.

(** [np.fmin] and [np.fmax]: a NaN operand is ignored. *)
Definition fmin (a b : float) : float := if leb a b || is_nan b then a else b.
Definition fmax (a b : float) : float := if leb b a || is_nan b then a else b.

(** [np.nanmin] and [np.nanmax] over all elements.  On an array of NaN
    only they give NaN (with a warning); on an empty array they raise. *)
Definition np_nanmin (a : ndarray float) : outcome float :=
  match elems a with
  | [] => Raise (ValueError "zero-size array to reduction operation fmin which has no identity")
  | x :: l => Ok (fold_left fmin l x)
  end.

Definition np_nanmax (a : ndarray float) : outcome float :=
  match elems a with
  | [] => Raise (ValueError "zero-size array to reduction operation fmax which has no identity")
  | x :: l => Ok (fold_left fmax l x)
  end.

Definition int64_min : Z := - 2 ^ 63.

(** [x.astype(int)]: the C conversion to a 64-bit integer, which drops
    the fraction; NaN, the infinities and values out of range give the
    smallest integer (the x86-64 conversion). *)
Definition astype_int (x : float) : Z :=
  match x with
  | S754_zero _ => 0
  | S754_finite s m e =>
      let z := cond_Zopp s (if 0 <=? e then Zpos m * 2 ^ e
                            else Zpos m / 2 ^ (- e)) in
      if (z <? int64_min) || (2 ^ 63 <=? z) then int64_min else z
  | S754_infinity _ | S754_nan => int64_min
  end.

(** [np.clip] on integers. *)
Definition clip_int (x lo hi : Z) : Z := Z.min (Z.max x lo) hi.

(** The pixel value scaled to [0, 1]: [np.full_like(data, 0.0)], filled at
    the positions of [valid_mask], then clipped. *)
Definition normalize (min_val max_val : float) (x : float) : float :=
  clip (if negb (is_nan x) then ((x - min_val) / (max_val - min_val))%f64
        else zero)
       (of_Z 0) (of_Z 1).

(** The index into the table. *)
Definition lut_index (n : float) : Z :=
  let N := Z.of_nat (length RdYlGn_lut) in
  clip_int (astype_int (n * of_Z (N - 1))%f64) 0 (N - 1).

Definition channel (i : nat) (indices : list Z) : list float :=
  map (fun ix => colormap_array ix i) indices.

(** The loop [colored[:, :, i] = colormap_array[indices, i]] over the three
    channels, on [colored], an array of zeros with the shape of [data]
    followed by an axis of length 3.

    For a two-dimensional [data] the slice [colored[:, :, i]] is channel
    [i] of every pixel.  With fewer axes the slice does not exist
    (IndexError).  With more axes, [h × w × d × ...], the slice fixes the
    third axis of [data] and has the shape [h × w × ... × 3]; the three
    assignments go through exactly when every further axis has length 3,
    and then each block of a position [(row, column)] receives the three
    channels of the block one after the other. *)
Definition paint (s : list nat) (indices : list Z) : outcome (list float) :=
  match s with
  | [] | [_] => Raise (IndexError "too many indices for array")
  | [_; _] =>
      Ok (flat_map (fun ix => [colormap_array ix 0; colormap_array ix 1;
                               colormap_array ix 2]) indices)
  | h :: w :: rest =>
      if forallb (Nat.eqb 3) rest
      then Ok (flat_map (fun block => channel 0 block ++ channel 1 block
                                      ++ channel 2 block)
                        (chunks (numel rest) (h * w) indices))
      else Raise (ValueError "could not broadcast input array")
  end.

Section ColorMapper.

(** [plt.cm.get_cmap]: the colour maps matplotlib knows by name, each a
    function from a scaled value to red, green, blue and alpha. *)
Variable get_cmap : string -> option (float -> list float).

(** The body of the [try] block. *)
Definition colormap_try (data : option (ndarray float)) (colormap : string)
    (min_val max_val : option float) : outcome (ndarray float) :=
  match data with
  | None => Raise (ValueError "Invalid input data")
  | Some data =>
      if Nat.eqb (size data) 0 then Raise (ValueError "Invalid input data")
      else
        let valid_mask := map_array negb (np_isnan data) in
        if negb (existsb id (elems valid_mask))
        then Raise (ValueError "All data values are NaN")
        else
          min_val ← match min_val with
                    | None => np_nanmin data
                    | Some v => Ok v
                    end;
          max_val ← match max_val with
                    | None => np_nanmax data
                    | Some v => Ok v
                    end;
          let max_val :=
            if eqb max_val min_val then (min_val + decimal 1 6)%f64
            else max_val in
          let normalized := map_array (normalize min_val max_val) data in
          if String.eqb colormap "rdylgn" then
            let indices := map lut_index (elems normalized) in
            colored ← paint (shape data) indices;
            Ok (mk_array (shape data ++ [3%nat]) colored)
          else
            match get_cmap colormap with
            | Some cmap =>
                Ok (mk_array (shape data ++ [4%nat])
                             (flat_map cmap (elems normalized)))
            | None => Raise (ValueError "unknown colormap name")
            end
  end.

(** The handler: a grey image, [np.stack([gray, gray, gray], axis=-1)]. *)
Definition grayscale_fallback (data : option (ndarray float))
  : outcome (ndarray float) :=
  match data with
  | None => Raise (TypeError "unsupported operand type(s) for -")
  | Some data =>
      lo ← np_nanmin data;
      hi ← np_nanmax data;
      lo' ← np_nanmin data;
      let gray := np_clip (div_scalar (sub_scalar data lo) (hi - lo')%f64)
                          (of_Z 0) (of_Z 1) in
      Ok (mk_array (shape data ++ [3%nat])
                   (flat_map (fun g => [g; g; g]) (elems gray)))
  end.

Definition apply_colormap (data : option (ndarray float)) (colormap : string)
    (min_val max_val : option float) : outcome (ndarray float) :=
  try_except (colormap_try data colormap min_val max_val)
             (fun _ => grayscale_fallback data).

End ColorMapper.

(** ** NumPy reductions used for the statistics *)

(** [np.sum] of a contiguous array of binary64: [np.add.reduce] starts
    from the identity of the addition, +0.0, and adds to it the pairwise
    sum of the elements in memory order.  The pairwise sum adds fewer
    than 8 elements one after the other; up to 128 elements it keeps 8
    running sums, one per position modulo 8, adds these as a balanced
    tree and then adds the elements left over; a longer run is split
    into two parts, the first of a length that is a multiple of 8, which
    are summed separately. *)
Definition neg_zero : float := S754_zero true.

(** The loop [for (i = 8; i < n - n % 8; i += 8) r[j] += a[i + j]]:
    [k] further blocks of 8 elements are added to the 8 running sums. *)
Fixpoint add_blocks (k : nat) (r l : list float) : list float * list float :=
  match k with
  | O => (r, l)
  | S k => add_blocks k (zip_with add r (firstn 8 l)) (skipn 8 l)
  end.

(** The branch for [8 <= n <= 128]. *)
Definition sum_block (l : list float) : float :=
  let '(r, rest) := add_blocks (length l / 8 - 1) (firstn 8 l) (skipn 8 l) in
  match r with
  | [r0; r1; r2; r3; r4; r5; r6; r7] =>
      fold_left add rest
        (((r0 + r1) + (r2 + r3)) + ((r4 + r5) + (r6 + r7)))%f64
  | _ => nan
  end.

(** The recursion halves the length; [fuel] bounds its depth, and the
    length of the list is always enough ([pairwise_sum_fuel]). *)
Fixpoint pairwise_sum (fuel : nat) (l : list float) : float :=
  let n := length l in
  if (n <? 8)%nat then fold_left add l neg_zero
  else if (n <=? 128)%nat then sum_block l
  else
    match fuel with
    | O => nan
    | S fuel =>
        let n2 := (n / 2 - (n / 2) mod 8)%nat in
        (pairwise_sum fuel (firstn n2 l) + pairwise_sum fuel (skipn n2 l))%f64
    end.

Definition np_sum (l : list float) : float :=
  (zero + pairwise_sum (length l) l)%f64.

Definition count_of {A : Type} (l : list A) : float :=
  of_Z (Z.of_nat (length l)).

Definition drop_nan (l : list float) : list float :=
  List.filter (fun x => negb (is_nan x)) l.

(** [_replace_nan(a, 0)] *)
Definition nan_to_zero (l : list float) : list float :=
  map (fun x => if is_nan x then zero else x) l.

(** [np.nanmean]: the sum of the elements that are not NaN over their
    number; NaN (0/0, with a warning) when there is none. *)
Definition np_nanmean (a : ndarray float) : float :=
  (np_sum (nan_to_zero (elems a)) / count_of (drop_nan (elems a)))%f64.

(** [np.nanstd], with the default [ddof = 0]. *)
Definition np_nanstd (a : ndarray float) : float :=
  let cnt := count_of (drop_nan (elems a)) in
  let avg := (np_sum (nan_to_zero (elems a)) / cnt)%f64 in
  let dev := map (fun x => if is_nan x then zero else (x - avg)%f64) (elems a) in
  let sqr := map (fun d => (d * d)%f64) dev in
  let var := if leb cnt zero then nan else (np_sum sqr / cnt)%f64 in
  sqrt var.

Fixpoint insert_sorted (x : float) (l : list float) : list float :=
  match l with
  | [] => [x]
  | y :: r => if leb x y then x :: l else y :: insert_sorted x r
  end.

Definition np_sort (l : list float) : list float :=
  fold_right insert_sorted [] l.

(** [np.mean] of a one-dimensional array: sum over length. *)
Definition np_mean (l : list float) : float := (np_sum l / count_of l)%f64.

(** [np.median] of values without NaN: the mean of the middle element, or
    of the two middle elements, of the sorted values. *)
Definition np_median (l : list float) : float :=
  let sorted := np_sort l in
  let n := length l in
  let mid := (n / 2)%nat in
  if Nat.even n
  then np_mean (firstn 2 (skipn (mid - 1) sorted))
  else np_mean (firstn 1 (skipn mid sorted)).

(** [np.nanmedian]: NaN when no element is left. *)
Definition np_nanmedian (a : ndarray float) : float :=
  match drop_nan (elems a) with
  | [] => nan
  | v => np_median v
  end.

Record Statistics : Type := mk_stats {
  stat_min : float;
  stat_max : float;
  stat_mean : float;
  stat_std : float;
  stat_median : float
}.

(** ** utils/advanced_vegetation.py: the analysis entry point *)

Record Analysis : Type := mk_analysis {
  analysis_data : ndarray float;
  colored_image : ndarray float;
  statistics : Statistics;
  algorithm_name : string;
  colormap_name : string
}.

Section Analysis.

Variable get_cmap : string -> option (float -> list float).

(** The dictionary of statistics built after the colour mapping. *)
Definition index_statistics (result : ndarray float) : outcome Statistics :=
  lo ← np_nanmin result;
  hi ← np_nanmax result;
  Ok (mk_stats lo hi (np_nanmean result) (np_nanstd result)
               (np_nanmedian result)).

(** The body of the [try] block of [analyze_vegetation_comprehensive].
    [image_bands.get(role)] is the lookup in the map: a role that is
    absent and a role bound to [None] both read as [None]. *)
Definition analyze_try (image_bands : gmap string (ndarray float))
    (algorithm colormap : string) : outcome Analysis :=
  match VEGETATION_ALGORITHMS !! algorithm with
  | None => Raise (ValueError "Desteklenmeyen algoritma")
  | Some f =>
      result ←
        (if bool_decide (algorithm ∈ ["ndvi"; "savi"; "msavi"; "osavi";
                                       "rdvi"; "gndvi"]%string) then
           match image_bands !! "red"%string, image_bands !! "nir"%string with
           | Some red_band, Some nir_band => call2 f red_band nir_band
           | _, _ => Raise (ValueError "RED ve NIR bandlari gereklidir")
           end
         else if bool_decide (algorithm ∈ ["gli"; "vari"; "tgi"; "evi";
                                            "arvi"]%string) then
           match image_bands !! "red"%string, image_bands !! "green"%string,
                 image_bands !! "blue"%string with
           | Some red_band, Some green_band, Some blue_band =>
               if String.eqb algorithm "evi" || String.eqb algorithm "arvi"
               then
                 match image_bands !! "nir"%string with
                 | Some nir_band => call3 f red_band nir_band blue_band
                 | None => Raise (ValueError "NIR bandi gereklidir")
                 end
               else call3 f red_band green_band blue_band
           | _, _, _ => Raise (ValueError "RGB bandlari gereklidir")
           end
         else if String.eqb algorithm "ndwi" then
           match image_bands !! "green"%string, image_bands !! "nir"%string with
           | Some green_band, Some nir_band => call2 f green_band nir_band
           | _, _ => Raise (ValueError "GREEN ve NIR bandlari gereklidir")
           end
         else if bool_decide (algorithm ∈ ["cvi"; "gci"]%string) then
           match image_bands !! "red"%string, image_bands !! "green"%string,
                 image_bands !! "nir"%string with
           | Some red_band, Some green_band, Some nir_band =>
               call3 f red_band green_band nir_band
           | _, _, _ => Raise (ValueError "RED, GREEN ve NIR bandlari gereklidir")
           end
         else Raise (ValueError "Desteklenmeyen algoritma"));
      colored_result ← apply_colormap get_cmap (Some result) colormap
                                      None None;
      stats ← index_statistics result;
      Ok (mk_analysis result colored_result stats algorithm colormap)
  end.

(** Any exception of the body is printed and [None] is returned. *)
Definition analyze_vegetation_comprehensive
    (image_bands : gmap string (ndarray float))
    (algorithm colormap : string) : outcome (option Analysis) :=
  try_except (a ← analyze_try image_bands algorithm colormap; Ok (Some a))
             (fun _ => Ok None).

End Analysis.

(** ** utils/histogram_geotiff.py: histograms *)

(** [np.minimum] and [np.maximum] as used by the reductions [np.min] and
    [np.max]. *)
Definition minimum (a b : float) : float := if leb a b || is_nan a then a else b.
Definition maximum (a b : float) : float := if leb b a || is_nan a then a else b.

Definition np_min (l : list float) : outcome float :=
  match l with
  | [] => Raise (ValueError "zero-size array to reduction operation minimum which has no identity")
  | x :: r => Ok (fold_left minimum r x)
  end.

Definition np_max (l : list float) : outcome float :=
  match l with
  | [] => Raise (ValueError "zero-size array to reduction operation maximum which has no identity")
  | x :: r => Ok (fold_left maximum r x)
  end.

(** [np.linspace(start, stop, num)] for [num >= 2], end point included. *)
Definition np_linspace (start stop : float) (num : nat) : list float :=
  let div := of_Z (Z.of_nat (num - 1)) in
  let delta := (stop - start)%f64 in
  let step := (delta / div)%f64 in
  let y (i : nat) : float :=
    let i := of_Z (Z.of_nat i) in
    if eqb step (of_Z 0) then ((i / div) * delta + start)%f64
    else (i * step + start)%f64 in
  map y (seq 0 (num - 1)) ++ [stop].

(** The outer edges of [np.histogram] for a given [range]. *)
Definition get_outer_edges (range : float * float) : outcome (float * float) :=
  let '(first_edge, last_edge) := range in
  if ltb last_edge first_edge
  then Raise (ValueError "max must be larger than min in range parameter.")
  else if negb (is_finite first_edge && is_finite last_edge)
  then Raise (ValueError "supplied range is not finite")
  else if eqb first_edge last_edge
  then Ok ((first_edge - decimal 5 1)%f64, (last_edge + decimal 5 1)%f64)
  else Ok (first_edge, last_edge).

(** The number of values in bin [i]: every bin is closed on the left and
    open on the right, but for the last, which is closed. *)
Definition bin_count (edges : list float) (bins : nat) (a : list float)
    (i : nat) : Z :=
  let lo := nth i edges nan in
  let hi := nth (S i) edges nan in
  Z.of_nat (length (List.filter (fun x => leb lo x
                                     && (ltb x hi
                                         || (Nat.eqb (S i) bins && leb x hi)))
                           a)).

Definition Histogram : Type := (list Z * list float)%type.

(** [np.histogram(a, bins=bins, range=range)] with an integer [bins]:
    bins of equal width; edges that do not increase strictly are refused. *)
Definition np_histogram (a : list float) (bins : Z) (range : float * float)
  : outcome Histogram :=
  if bins <? 1 then Raise (ValueError "`bins` must be positive, when an integer")
  else
    '(first_edge, last_edge) ← get_outer_edges range;
    let n := Z.to_nat bins in
    let bin_edges := np_linspace first_edge last_edge (S n) in
    if existsb (fun p => leb (snd p) (fst p)) (zip bin_edges (tail bin_edges))
    then Raise (ValueError "Too many bins for data range. Cannot create finite-sized bins.")
    else Ok (map (bin_count bin_edges n a) (seq 0 n), bin_edges).

(** [a[mask]] for a boolean [mask] whose shape is that of the leading axes
    of [a]: the selected sub-arrays, one after the other. *)
Definition boolean_index (a : ndarray float) (mask : ndarray bool)
  : outcome (list float) :=
  let r := length (shape mask) in
  if bool_decide (firstn r (shape a) = shape mask) then
    let pieces := chunks (numel (skipn r (shape a))) (size mask) (elems a) in
    Ok (concat (map snd (List.filter (fun p => fst p) (zip (elems mask) pieces))))
  else Raise (IndexError "boolean index did not match indexed array").

(** [band_data[mask]] if a mask is given, [band_data.flatten()] if not. *)
Definition apply_mask (mask : option (ndarray bool)) (band_data : ndarray float)
  : outcome (list float) :=
  match mask with
  | Some mask => boolean_index band_data mask
  | None => Ok (elems band_data)
  end.

(** [image_data[band]] for every [band] of a three-dimensional array. *)
Definition bands_of (image_data : ndarray float) : list (ndarray float) :=
  match shape image_data with
  | n :: rest => map (mk_array rest) (chunks (numel rest) n (elems image_data))
  | [] => []
  end.

(** One turn of the loop over the bands.  The state of the loop is the
    variable [range_values] and the list [histograms]. *)
Definition histogram_band (bins : Z) (mask : option (ndarray bool))
    (state : option (float * float) * list Histogram) (band : ndarray float)
  : outcome (option (float * float) * list Histogram) :=
  let '(range_values, histograms) := state in
  band_data ← apply_mask mask band;
  let band_data := drop_nan band_data in
  range_values ← match range_values with
                 | None =>
                     lo ← np_min band_data;
                     hi ← np_max band_data;
                     Ok (lo, hi)
                 | Some r => Ok r
                 end;
  h ← np_histogram band_data bins range_values;
  Ok (Some range_values, histograms ++ [h]).

Fixpoint for_each {S A : Type} (body : S -> A -> outcome S) (l : list A)
    (s : S) : outcome S :=
  match l with
  | [] => Ok s
  | x :: r => s' ← body s x; for_each body r s'
  end.

Definition histogram_try (image_data : ndarray float) (bins : Z)
    (range_values : option (float * float)) (mask : option (ndarray bool))
  : outcome (list Histogram) :=
  if Nat.eqb (length (shape image_data)) 3 then
    '(_, histograms) ← for_each (histogram_band bins mask)
                                (bands_of image_data) (range_values, []);
    Ok histograms
  else
    '(_, histograms) ← histogram_band bins mask (range_values, []) image_data;
    Ok histograms.

(** Any exception is printed and [None] is returned. *)
Definition calculate_histogram (image_data : ndarray float) (bins : Z)
    (range_values : option (float * float)) (mask : option (ndarray bool))
  : outcome (option (list Histogram)) :=
  try_except (h ← histogram_try image_data bins range_values mask; Ok (Some h))
             (fun _ => Ok None).

(** ** utils/histogram_geotiff.py: raster files *)

Inductive Dtype : Type :=
  | float32 | float64 | uint8 | uint16
  | int8 | int16 | int32 | int64 | uint32 | uint64 | bool_.

#[global] Instance Dtype_eq_dec : EqDecision Dtype.
Proof. solve_decision. Defined.

(** An element of an array of any of these types. *)
Inductive scalar : Type :=
  | Float (x : float)
  | Int (z : Z)
  | Bool (b : bool).

(** An array as [write_geotiff] receives it: [data.dtype] and the
    elements. *)
Record typed_array : Type := mk_typed {
  dtype : Dtype;
  values : ndarray scalar
}.

Definition float32_of_Z (z : Z) : float := binary_normalize 24 128 z 0 false.

(** The conversion of one element by [astype(np.float32)]: rounding to
    binary32. *)
Definition to_float32 (v : scalar) : scalar :=
  match v with
  | Float (S754_finite s m e) =>
      Float (binary_normalize 24 128 (cond_Zopp s (Zpos m)) e s)
  | Float x => Float x
  | Int z => Float (float32_of_Z z)
  | Bool b => Float (float32_of_Z (if b then 1 else 0))
  end.

Definition astype_float32 (a : typed_array) : typed_array :=
  mk_typed float32 (map_array to_float32 (values a)).

(** [np.expand_dims(data, axis=0)] *)
Definition expand_dims0 (a : typed_array) : typed_array :=
  mk_typed (dtype a) (mk_array (1%nat :: shape (values a)) (elems (values a))).

Record Affine : Type := mk_affine {
  af_a : float; af_b : float; af_c : float;
  af_d : float; af_e : float; af_f : float
}.

(** The metadata dictionary; [metadata.get(key)] is the field, [None]
    when the key is absent. *)
Record Metadata : Type := mk_metadata {
  crs : option string;
  transform : option Affine;
  bounds : option (float * float * float * float);
  width : option nat;
  height : option nat;
  count : option nat;
  source_dtype : option Dtype
}.

(** A raster file as [rasterio.open(filename, 'w', ...)] and [dst.write]
    leave it. *)
Record GeoTIFF : Type := mk_geotiff {
  gt_driver : string;
  gt_height : nat;
  gt_width : nat;
  gt_count : nat;
  gt_dtype : Dtype;
  gt_crs : option string;
  gt_transform : option Affine;
  gt_compress : string;
  gt_data : ndarray scalar
}.

(** A dataset opened for reading.  [ds_read] holds the values that
    [src.read()] returns.  The functions below compute with them in
    binary64, which is what the code does on a file whose element type
    is float64; on a file of another element type NumPy computes in that
    type (float32 rounding, integer wrap-around), so the properties of
    the functions that compute with the values of a file are stated for
    float64 files ([float64_file]). *)
Record Dataset : Type := mk_dataset {
  ds_crs : option string;
  ds_transform : option Affine;
  ds_bounds : option (float * float * float * float);
  ds_width : nat;
  ds_height : nat;
  ds_count : nat;
  ds_dtypes : list Dtype;
  ds_read : option (ndarray float)
}.

Record BandStatistics : Type := mk_band_stats {
  band : nat;
  band_min : float;
  band_max : float;
  band_mean : float;
  band_std : float;
  band_median : float;
  band_count : nat
}.

Record HistogramReport : Type := mk_report {
  histogram_data : list Histogram;
  report_statistics : list BandStatistics;
  plot_path : option string;
  report_metadata : Metadata;
  report_bins : Z
}.

(** [np.std] of a one-dimensional array. *)
Definition np_std (l : list float) : float :=
  let avg := np_mean l in
  let sqr := map (fun x => ((x - avg) * (x - avg))%f64) l in
  sqrt (np_sum sqr / count_of l)%f64.

Section RasterFiles.

(** The file system and the libraries behind it. *)
Variable path_exists : string -> bool.
Variable rasterio_open : string -> outcome Dataset.
Variable makedirs : string -> outcome unit.
Variable default_output_dir : string -> string.
Variable histogram_png : string -> string -> string.
Variable savefig : list Histogram -> string -> outcome unit.

(** Writing with rasterio: [creatable filename dataset] tells whether
    [rasterio.open(filename, 'w', ...)] with the profile of [dataset]
    and [dst.write] of its array both succeed; when one of them raises,
    [leftover files filename dataset] are the files after the attempt
    (the file may have been created before the failure). *)
Variable creatable : string -> GeoTIFF -> bool.
Variable leftover : gmap string GeoTIFF -> string -> GeoTIFF ->
                    gmap string GeoTIFF.

(** The body of the [try] block of [read_geotiff]. *)
Definition read_try (filename : string)
  : outcome (ndarray float * Metadata) :=
  if negb (path_exists filename)
  then Raise (FileNotFoundError "GeoTIFF file not found")
  else
    src ← rasterio_open filename;
    if Nat.eqb (ds_count src) 0
    then Raise (ValueError "Invalid GeoTIFF: No bands found")
    else
      match ds_read src with
      | None => Raise (ValueError "Invalid GeoTIFF: Empty data")
      | Some data =>
          if Nat.eqb (size data) 0
          then Raise (ValueError "Invalid GeoTIFF: Empty data")
          else
            dtype ← (if Nat.ltb 0 (ds_count src)
                     then match ds_dtypes src with
                          | d :: _ => Ok (Some d)
                          | [] => Raise (IndexError "tuple index out of range")
                          end
                     else Ok None);
            Ok (data,
                mk_metadata (ds_crs src) (ds_transform src)
                  (ds_bounds src) (Some (ds_width src))
                  (Some (ds_height src)) (Some (ds_count src)) dtype)
      end.

(** [read_geotiff]: an ImportError is raised again, with a message of
    the function's own; any other exception gives [(None, None)]. *)
Definition read_geotiff (filename : string)
  : outcome (option (ndarray float * Metadata)) :=
  match read_try filename with
  | Ok r => Ok (Some r)
  | Raise (ImportError _) =>
      Raise (ImportError "rasterio library not installed. Install with: pip install rasterio")
  | Raise _ => Ok None
  end.

(** What [write_geotiff] asks rasterio for: the profile of the call
    [rasterio.open(filename, 'w', ...)] and the array given to
    [dst.write].  Unpacking [data.shape] fails for an array that has not
    three axes after the promotion, before rasterio is called. *)
Definition write_request (data : typed_array) (metadata : Metadata)
    (compress : string) : outcome GeoTIFF :=
  let data := if Nat.eqb (length (shape (values data))) 2
              then expand_dims0 data else data in
  match shape (values data) with
  | [count; height; width] =>
      let '(dtype, data) :=
        match dtype data with
        | float32 => (float32, data)
        | float64 => (float64, data)
        | uint8 => (uint8, data)
        | uint16 => (uint16, data)
        | _ => (float32, astype_float32 data)
        end in
      Ok (mk_geotiff "GTiff" height width count dtype
                     (crs metadata) (transform metadata) compress
                     (values data))
  | _ => Raise (ValueError "not enough values to unpack")
  end.

(** [write_geotiff]: the value returned and the raster files after the
    call.  When rasterio raises, the files are what the failed attempt
    left. *)
Definition write_geotiff (files : gmap string GeoTIFF) (filename : string)
    (data : typed_array) (metadata : Metadata) (compress : string)
  : bool * gmap string GeoTIFF :=
  match write_request data metadata compress with
  | Ok dataset =>
      if creatable filename dataset
      then (true, <[filename := dataset]> files)
      else (false, leftover files filename dataset)
  | Raise _ => (false, files)
  end.

(** [create_histogram_plot] called with a [save_path]: the drawing and
    saving is matplotlib's. *)
Definition create_histogram_plot (histogram_data : list Histogram)
    (save_path : string) : outcome (option string) :=
  try_except (_ ← savefig histogram_data save_path; Ok (Some save_path))
             (fun _ => Ok None).

(** The dictionary [stats] of band [i]. *)
Definition band_statistics (data : ndarray float) (i : nat)
  : outcome BandStatistics :=
  band_data ←
    (if Nat.eqb (length (shape data)) 3 then
       match bands_of data !! i with
       | Some b => Ok (elems b)
       | None => Raise (IndexError "index is out of bounds for axis 0")
       end
     else Ok (elems data));
  let band_data := drop_nan band_data in
  lo ← np_min band_data;
  hi ← np_max band_data;
  Ok (mk_band_stats (i + 1) lo hi (np_mean band_data) (np_std band_data)
                    (np_median band_data) (length band_data)).

Fixpoint collect {A B : Type} (f : A -> outcome B) (l : list A)
  : outcome (list B) :=
  match l with
  | [] => Ok []
  | x :: r => y ← f x; ys ← collect f r; Ok (y :: ys)
  end.

Definition process_geotiff_histogram (file_path : string)
    (output_dir : option string) (bins : Z)
  : outcome (option HistogramReport) :=
  try_except
    (r ← read_geotiff file_path;
     match r with
     | None => Ok None
     | Some (data, metadata) =>
         h ← calculate_histogram data bins None None;
         match h with
         | None => Ok None
         | Some histogram_data =>
             let output_dir := match output_dir with
                               | None => default_output_dir file_path
                               | Some d => d
                               end in
             _ ← makedirs output_dir;
             let plot_path := histogram_png output_dir file_path in
             plot_file ← create_histogram_plot histogram_data plot_path;
             statistics ← collect (band_statistics data)
                                  (seq 0 (length histogram_data));
             Ok (Some (mk_report histogram_data statistics plot_file
                                 metadata bins))
         end
     end)
    (fun _ => Ok None).

End RasterFiles.

(** ** utils/histogram_geotiff.py: products of a raster file *)

(** [x.astype(np.uint8)]: the C conversion to an integer, kept modulo 256
    (NaN gives 0, as the x86-64 conversion does). *)
Definition astype_uint8 (x : float) : Z := astype_int x mod 256.

(** One band of [extract_rgb_from_geotiff] scaled to 0..255; a band whose
    maximum is not above its minimum becomes zeros. *)
Definition normalize_band (band : ndarray float) : outcome (list Z) :=
  band_min ← np_nanmin band;
  band_max ← np_nanmax band;
  if ltb band_min band_max
  then Ok (map (fun x => astype_uint8 (((x - band_min) / (band_max - band_min))
                                       * of_Z 255)%f64)
               (elems band))
  else Ok (repeat 0 (size band)).

(** [np.stack([r, g, b], axis=-1)] on the elements. *)
Definition stack3 {A : Type} (r g b : list A) : list A :=
  concat (zip_with (fun x yz => [x; fst yz; snd yz]) r (zip g b)).

(** What [extract_rgb_from_geotiff] returns: the path of the saved PNG or
    the image itself. *)
Inductive rgb_result : Type :=
  | RgbPath (path : string)
  | RgbImage (image : ndarray Z).

(** The bands by position: four or more bands are red, green, blue and
    NIR, in this order; three bands are red, green, blue, and NIR is
    [green * 1.2] (a binary64 product, the bands being float64). *)
Definition band_roles (data : ndarray float)
  : outcome (option (gmap string (ndarray float))) :=
  match shape data with
  | [] => Raise (IndexError "tuple index out of range")
  | n :: _ =>
      if Nat.leb 4 n then
        match bands_of data with
        | b0 :: b1 :: b2 :: b3 :: _ =>
            Ok (Some (<["nir"%string := b3]>
                        (<["blue"%string := b2]>
                           (<["green"%string := b1]>
                              (<["red"%string := b0]> ∅)))))
        | _ => Raise (IndexError "index is out of bounds for axis 0")
        end
      else if Nat.eqb n 3 then
        match bands_of data with
        | b0 :: b1 :: b2 :: _ =>
            Ok (Some (<["nir"%string := mul_scalar b1 (decimal 12 1)]>
                        (<["blue"%string := b2]>
                           (<["green"%string := b1]>
                              (<["red"%string := b0]> ∅)))))
        | _ => Raise (IndexError "index is out of bounds for axis 0")
        end
      else Ok None
  end.

(** [colored_image[:, :, :3]] *)
Definition rgb_channels (image : ndarray Z) : ndarray Z :=
  match shape image with
  | [h; w; c] =>
      mk_array [h; w; Nat.min 3 c]
               (concat (map (firstn 3) (chunks c (h * w) (elems image))))
  | _ => image
  end.

Record GeoAnalysis : Type := mk_geo_analysis {
  geo_analysis : Analysis;
  geotiff_path : option string;
  colored_path : option string
}.

Section RasterProducts.

Variable get_cmap : string -> option (float -> list float).
Variable path_exists : string -> bool.
Variable rasterio_open : string -> outcome Dataset.
Variable creatable : string -> GeoTIFF -> bool.
Variable leftover : gmap string GeoTIFF -> string -> GeoTIFF ->
                    gmap string GeoTIFF.
Variable makedirs : string -> outcome unit.

(** [Path(p).stem], [os.path.join] and [Image.fromarray(a).save(p)]. *)
Variable stem : string -> string.
Variable join : string -> string -> string.
Variable save_image : string -> ndarray Z -> outcome unit.

Definition extract_rgb_from_geotiff (file_path : string)
    (output_path : option string) : outcome (option rgb_result) :=
  try_except
    (r ← read_geotiff path_exists rasterio_open file_path;
     match r with
     | None => Ok None
     | Some (data, metadata) =>
         match shape data with
         | [] => Raise (IndexError "tuple index out of range")
         | n :: band_shape =>
             let rgb_data :=
               if Nat.leb 3 n then Some (firstn 3 (bands_of data))
               else if Nat.eqb n 1
                    then Some (flat_map (fun b => [b; b; b]) (bands_of data))
                    else None in
             match rgb_data with
             | None => Ok None
             | Some rgb_data =>
                 rgb_normalized ← collect normalize_band rgb_data;
                 match rgb_normalized with
                 | [r; g; b] =>
                     let rgb_image :=
                       mk_array (band_shape ++ [3%nat]) (stack3 r g b) in
                     match output_path with
                     | Some p =>
                         if String.eqb p "" then Ok (Some (RgbImage rgb_image))
                         else
                           _ ← save_image p rgb_image;
                           Ok (Some (RgbPath p))
                     | None => Ok (Some (RgbImage rgb_image))
                     end
                 | _ => Raise (ValueError "need at least one array to stack")
                 end
             end
         end
     end)
    (fun _ => Ok None).

(** [analyze_vegetation_from_geotiff]: the value returned and the raster
    files after the call.  The result of [write_geotiff] is not looked
    at.  The bands of a float64 file are float64 arrays, and so is the
    index computed from them, which is what is handed to
    [write_geotiff]. *)
Definition analyze_vegetation_from_geotiff (files : gmap string GeoTIFF)
    (file_path algorithm : string) (output_dir : option string)
  : option GeoAnalysis * gmap string GeoTIFF :=
  match read_geotiff path_exists rasterio_open file_path with
  | Ok (Some (data, metadata)) =>
      match band_roles data with
      | Ok (Some image_bands) =>
          match analyze_vegetation_comprehensive get_cmap image_bands
                  algorithm "rdylgn" with
          | Ok (Some analysis_result) =>
              match output_dir with
              | Some dir =>
                  if String.eqb dir ""
                  then (Some (mk_geo_analysis analysis_result None None), files)
                  else
                    match makedirs dir with
                    | Ok _ =>
                        let base_name := stem file_path in
                        let result_path :=
                          join dir (base_name ++ "_" ++ algorithm
                                    ++ "_analysis.tif")%string in
                        let analysis_data :=
                          mk_typed float64
                            (map_array Float (analysis_data analysis_result)) in
                        let files' :=
                          snd (write_geotiff creatable leftover files
                                             result_path analysis_data
                                             metadata "lzw") in
                        let colored_path :=
                          join dir (base_name ++ "_" ++ algorithm
                                    ++ "_colored.png")%string in
                        let colored_image :=
                          map_array (fun x => astype_uint8 (x * of_Z 255)%f64)
                                    (colored_image analysis_result) in
                        let saved :=
                          match shape colored_image with
                          | [_; _; c] =>
                              if Nat.leb 3 c
                              then save_image colored_path
                                              (rgb_channels colored_image)
                              else Ok tt
                          | _ => Ok tt
                          end in
                        match saved with
                        | Ok _ =>
                            (Some (mk_geo_analysis analysis_result
                                     (Some result_path) (Some colored_path)),
                             files')
                        | Raise _ => (None, files')
                        end
                    | Raise _ => (None, files)
                    end
              | None => (Some (mk_geo_analysis analysis_result None None), files)
              end
          | _ => (None, files)
          end
      | _ => (None, files)
      end
  | _ => (None, files)
  end.

End RasterProducts.

(** ** Notions used to state the properties *)

(** The keys of [VEGETATION_ALGORITHMS]. *)
Definition supported_algorithms : list string :=
  ["ndvi"; "gli"; "vari"; "ndwi"; "savi"; "evi"; "tgi"; "msavi"; "osavi";
   "rdvi"; "gndvi"; "cvi"; "arvi"; "gci"]%string.

(** A well-formed array of the shape [s]. *)
Definition has_shape {A : Type} (s : list nat) (a : ndarray A) : Prop :=
  shape a = s /\ length (elems a) = numel s.

(** What the GLI code computes at one pixel: a denominator that is
    exactly zero becomes NaN, and the quotient is returned as it is. *)
Definition gli_pixel (r g b : float) : float :=
  let d := ((of_Z 2 * g + r) + b)%f64 in
  let d := if eqb d (of_Z 0) then nan else d in
  (((of_Z 2 * g - r) - b) / d)%f64.

(** The GLI of the specification: epsilon in the denominator, result
    clamped to [-1, 1]. *)
Definition spec_gli_pixel (r g b : float) : float :=
  clip (((of_Z 2 * g - r) - b) / (((of_Z 2 * g + r) + b) + epsilon))%f64
       (of_Z (-1)) (of_Z 1).

(** A function of three arguments applied position by position. *)
Definition map3 {A B C D : Type} (f : A -> B -> C -> D)
    (l1 : list A) (l2 : list B) (l3 : list C) : list D :=
  zip_with (fun p c => f (fst p) (snd p) c) (zip l1 l2) l3.

(** The element types that are written as they are. *)
Definition written_as_is (d : Dtype) : bool :=
  match d with
  | float32 | float64 | uint8 | uint16 => true
  | _ => false
  end.


(** The shape with which the data reaches [dst.write]. *)
Definition promoted_shape (s : list nat) : list nat :=
  if Nat.eqb (length s) 2 then 1%nat :: s else s.

(** The colour of a pixel: row [ix] of the table. *)
Definition pixel_color (ix : Z) : list float :=
  [colormap_array ix 0; colormap_array ix 1; colormap_array ix 2].

(** The display range of lines 48 to 55: the given bounds or the extremes
    of the data, the upper one widened when both agree. *)
Definition display_range (data : ndarray float) (min_val max_val : option float)
  : outcome (float * float) :=
  lo ← match min_val with None => np_nanmin data | Some v => Ok v end;
  hi ← match max_val with None => np_nanmax data | Some v => Ok v end;
  Ok (lo, if eqb hi lo then (lo + decimal 1 6)%f64 else hi).

(** Rounding to the nearest integer, ties to the even one: the [round] of
    the specification. *)
Definition round_half_even (x : float) : Z :=
  match x with
  | S754_finite s m e =>
      if 0 <=? e then cond_Zopp s (Zpos m * 2 ^ e)
      else
        let q := Zpos m / 2 ^ (- e) in
        let r := Zpos m mod 2 ^ (- e) in
        let half := 2 ^ (- e - 1) in
        cond_Zopp s (if r <? half then q
                     else if half <? r then q + 1
                     else if Z.even q then q else q + 1)
  | _ => 0
  end.

(** The table index as the specification words it. *)
Definition spec_lut_index (n : float) : Z :=
  let N := Z.of_nat (length RdYlGn_lut) in
  clip_int (round_half_even (n * of_Z (N - 1))%f64) 0 (N - 1).

(** Zero of either sign, or NaN. *)
Definition zero_or_nan (x : float) : bool :=
  match x with
  | S754_zero _ | S754_nan => true
  | _ => false
  end.

(** Zero of either sign. *)
Definition is_zero (x : float) : bool :=
  match x with S754_zero _ => true | _ => false end.

(** [x] is the number [v]: the same value, or both are zeros (of any
    sign). *)
Definition agrees (v x : float) : Prop :=
  x = v \/ (is_zero v = true /\ is_zero x = true).

(** The number [v] as a sum that starts from +0.0 gives it: [v] itself,
    and +0.0 when [v] is a zero of either sign. *)
Definition from_zero (v : float) : float := if is_zero v then zero else v.

(** A zero, or the number [v]. *)
Definition zero_or (v x : float) : Prop := is_zero x = true \/ x = v.

(** The number of elements that are not zeros. *)
Definition nonzeros (l : list float) : nat :=
  length (List.filter (fun x => negb (is_zero x)) l).

(** The values of band [i] that the statistics loop of
    [process_geotiff_histogram] takes: [data[i].flatten()] of an array of
    three axes, [data.flatten()] otherwise. *)
Definition band_values (data : ndarray float) (i : nat) : option (list float) :=
  if Nat.eqb (length (shape data)) 3
  then match bands_of data !! i with
       | Some b => Some (elems b)
       | None => None
       end
  else Some (elems data).

(** ** Notions used to state the further properties *)

(** The element type that [read_geotiff] records for a file is float64:
    the arrays read from it are float64 arrays. *)
Definition float64_file (metadata : Metadata) : Prop :=
  source_dtype metadata = Some float64.


(** The band roles that [analyze_vegetation_comprehensive] reads and
    checks for an algorithm before it calls the index function. *)
Definition required_bands (algorithm : string) : list string :=
  if bool_decide (algorithm ∈ ["ndvi"; "savi"; "msavi"; "osavi"; "rdvi";
                                "gndvi"]%string)
  then ["red"; "nir"]%string
  else if bool_decide (algorithm ∈ ["gli"; "vari"; "tgi"]%string)
  then ["red"; "green"; "blue"]%string
  else if bool_decide (algorithm ∈ ["evi"; "arvi"]%string)
  then ["red"; "green"; "blue"; "nir"]%string
  else if bool_decide (algorithm = "ndwi"%string)
  then ["green"; "nir"]%string
  else if bool_decide (algorithm ∈ ["cvi"; "gci"]%string)
  then ["red"; "green"; "nir"]%string
  else [].

(** What the NDWI, GCI and MSAVI code computes at one pixel. *)
Definition ndwi_pixel (g n : float) : float :=
  let d := (g + n)%f64 in
  ((g - n) / (if eqb d (of_Z 0) then nan else d))%f64.

Definition gci_pixel (g n : float) : float := (n / g - of_Z 1)%f64.

Definition msavi_radicand (r n : float) : float :=
  let b := (of_Z 2 * n + of_Z 1)%f64 in
  (b * b - of_Z 8 * (n - r))%f64.

Definition msavi_pixel (r n : float) : float :=
  let b := (of_Z 2 * n + of_Z 1)%f64 in
  ((b - sqrt (msavi_radicand r n)) / of_Z 2)%f64.

(** A number below zero: negative and finite, or minus infinity. *)
Definition is_negative (x : float) : bool :=
  match x with
  | S754_finite true _ _ | S754_infinity true => true
  | _ => false
  end.

(** The grey level of the fallback image. *)
Definition gray_level (lo hi x : float) : float :=
  clip ((x - lo) / (hi - lo))%f64 (of_Z 0) (of_Z 1).

(** * Properties *)

(** ** Comparison of binary64 values *)

Lemma SFcompare_antisym (x y : float) :
  SFcompare x y = option_map CompOpp (SFcompare y x).
Proof.
  destruct x as [sx|sx| |sx mx ex], y as [sy|sy| |sy my ey]; simpl;
    try reflexivity;
    try (destruct sx; reflexivity);
    try (destruct sy; reflexivity);
    try (destruct sx, sy; reflexivity).
  rewrite (Z.compare_antisym ey ex).
  change (Pos.compare_cont Eq mx my) with (Pos.compare mx my).
  change (Pos.compare_cont Eq my mx) with (Pos.compare my mx).
  rewrite (Pos.compare_antisym my mx).
  destruct sx, sy; simpl; try reflexivity;
    destruct (ey ?= ex); simpl; try reflexivity;
    destruct (my ?= mx)%positive; reflexivity.
Qed.

Lemma not_ltb_leb (x y : float) :
  is_nan x = false -> is_nan y = false -> ltb x y = false -> leb y x = true.
Proof.
  unfold ltb, leb, SFltb, SFleb. intros Hx Hy.
  rewrite (SFcompare_antisym y x).
  destruct (SFcompare x y) as [[]|] eqn:E; simpl; try easy.
  destruct x, y; simpl in *; discriminate.
Qed.

Lemma ltb_leb (x y : float) : ltb x y = true -> leb x y = true.
Proof.
  unfold ltb, leb, SFltb, SFleb.
  destruct (SFcompare x y) as [[]|]; easy.
Qed.

Lemma leb_refl (x : float) : is_nan x = false -> leb x x = true.
Proof.
  intros Hx. apply not_ltb_leb; try assumption.
  unfold ltb, SFltb.
  destruct (SFcompare x x) as [[]|] eqn:E; try reflexivity.
  pose proof (SFcompare_antisym x x) as H. rewrite E in H. discriminate.
Qed.

Lemma leb_not_ltb (x y : float) : leb x y = true -> ltb y x = false.
Proof.
  unfold ltb, leb, SFltb, SFleb. rewrite (SFcompare_antisym y x).
  destruct (SFcompare x y) as [[]|]; simpl; congruence.
Qed.

(** [np.clip] of a number that is not NaN lands between the bounds. *)
Lemma clip_within (x lo hi : float) :
  is_nan x = false -> is_nan lo = false -> is_nan hi = false ->
  leb lo hi = true ->
  within lo hi (clip x lo hi) = true.
Proof.
  intros Hx Hlo Hhi Hlh. unfold within, clip. rewrite Hlo, Hhi.
  destruct (ltb x lo) eqn:E1.
  - rewrite (leb_not_ltb _ _ Hlh), (leb_refl lo Hlo), Hlh. reflexivity.
  - destruct (ltb hi x) eqn:E2.
    + rewrite Hlh, (leb_refl hi Hhi). reflexivity.
    + rewrite (not_ltb_leb x lo), (not_ltb_leb hi x) by assumption.
      reflexivity.
Qed.

(** ** Broadcasting of equal shapes *)

Lemma broadcast_dim_refl (n : nat) : broadcast_dim n n = Some n.
Proof. unfold broadcast_dim. rewrite Nat.eqb_refl. reflexivity. Qed.

Lemma broadcast_rev_refl (s : list nat) : broadcast_rev s s = Some s.
Proof.
  induction s as [|n s IH]; simpl; [reflexivity|].
  rewrite broadcast_dim_refl, IH. reflexivity.
Qed.

Lemma broadcast_shapes_refl (s : list nat) : broadcast_shapes s s = Some s.
Proof.
  unfold broadcast_shapes. rewrite broadcast_rev_refl. simpl.
  rewrite rev_involutive. reflexivity.
Qed.

Lemma chunks_stretch_id {A : Type} (f : list A -> list A) (k : nat) :
  (forall d : list A, length d = k -> f d = d) ->
  forall (n : nat) (d : list A), length d = (n * k)%nat ->
    concat (map f (chunks k n d)) = d.
Proof.
  intros Hf n. induction n as [|n IH]; intros d Hd; simpl in *.
  - destruct d; [reflexivity | discriminate].
  - rewrite Hf by (rewrite length_firstn; lia).
    rewrite IH by (rewrite length_skipn; lia).
    apply firstn_skipn.
Qed.

Lemma stretch_refl {A : Type} (s : list nat) :
  forall d : list A, length d = numel s -> stretch s s d = d.
Proof.
  induction s as [|n s IH]; intros d Hd; simpl; [reflexivity|].
  rewrite Nat.eqb_refl. apply chunks_stretch_id; assumption.
Qed.

Lemma broadcast_to_refl {A : Type} (s : list nat) (d : list A) :
  length d = numel s -> broadcast_to s s d = d.
Proof.
  intros Hd. unfold broadcast_to. rewrite Nat.sub_diag. simpl.
  apply stretch_refl, Hd.
Qed.

Lemma broadcast2_same_shape {A B C : Type} (f : A -> B -> C)
    (a : ndarray A) (b : ndarray B) :
  wf a -> wf b -> shape a = shape b ->
  broadcast2 f a b = Ok (mk_array (shape a) (zip_with f (elems a) (elems b))).
Proof.
  unfold wf, size, broadcast2. intros Ha Hb Hs.
  rewrite <- Hs, broadcast_shapes_refl.
  rewrite !broadcast_to_refl by congruence.
  reflexivity.
Qed.

Lemma wf_zip_with {A B C : Type} (f : A -> B -> C) (s : list nat)
    (a : ndarray A) (b : ndarray B) :
  wf a -> wf b -> shape a = s -> shape b = s ->
  wf (mk_array s (zip_with f (elems a) (elems b))).
Proof.
  unfold wf, size. simpl. intros Ha Hb <- Hs.
  rewrite length_zip_with. rewrite Hs in Hb. lia.
Qed.

Lemma wf_map_array {A B : Type} (f : A -> B) (a : ndarray A) :
  wf a -> wf (map_array f a).
Proof. unfold wf, size, map_array. simpl. rewrite length_map. trivial. Qed.

(** ** NDVI *)

Lemma ndvi_pixel_within (r n : float) :
  within (of_Z (-1)) (of_Z 1) (ndvi_pixel r n) = true.
Proof.
  unfold ndvi_pixel. apply clip_within; try reflexivity.
  destruct (is_finite _) eqn:E; [|reflexivity].
  destruct ((n - r) / (n + r + epsilon))%f64; simpl in *; congruence.
Qed.

(** On bands of one shape the array code is the pixel formula applied
    position by position. *)
Lemma ndvi_try_same_shape (red nir : ndarray float) :
  wf red -> wf nir -> shape red = shape nir ->
  ndvi_try (Some red) (Some nir)
  = Ok (mk_array (shape red) (zip_with ndvi_pixel (elems red) (elems nir))).
Proof.
  intros Hr Hn Hs. unfold ndvi_try, astype_float64, np_add, np_sub, np_div,
    np_where_scalar.
  rewrite (broadcast2_same_shape add nir red) by (auto; congruence).
  cbn [mbind outcome_bind].
  rewrite (broadcast2_same_shape sub nir red) by (auto; congruence).
  cbn [mbind outcome_bind].
  rewrite broadcast2_same_shape; cbn [shape elems add_scalar map_array];
    [ | apply (wf_zip_with sub (shape nir) nir red); auto
      | apply (wf_map_array _ (mk_array (shape nir) _)),
          (wf_zip_with add (shape nir) nir red); auto
      | reflexivity ].
  cbn [mbind outcome_bind].
  rewrite broadcast2_same_shape; cbn [shape elems np_isfinite map_array];
    [ | apply (wf_map_array is_finite (mk_array (shape nir) _)) | | reflexivity ];
    [ | unfold wf, size; cbn [shape elems];
        rewrite !length_zip_with, length_map, length_zip_with;
        unfold wf, size in Hr, Hn; rewrite Hs in Hr; lia .. ].
  cbn [mbind outcome_bind]. unfold np_clip, map_array. cbn [shape elems].
  rewrite Hs. f_equal. f_equal.
  apply list_eq. intros i.
  rewrite list_lookup_fmap, !lookup_zip_with, !list_lookup_fmap,
    !lookup_zip_with, list_lookup_fmap, !lookup_zip_with.
  destruct (elems nir !! i) as [n|], (elems red !! i) as [r|]; reflexivity.
Qed.

(** C1. For red and NIR bands of equal shape, [calculate_ndvi_advanced]
    returns an array of that shape whose element at every position is the
    quotient (nir - red) / (nir + red + 1e-10), replaced by 0 when it is
    not finite and then clamped to [-1, 1]; every element of the outcome
    lies in [-1, 1].  Finite, non-negative inputs are a special case: the
    values of the bands are not constrained. *)
Theorem ndvi_in_unit_interval (red nir : ndarray float) :
  wf red -> wf nir -> shape red = shape nir ->
  exists out : ndarray float,
    calculate_ndvi_advanced (Some red) (Some nir) = Ok out /\
    shape out = shape red /\
    elems out = zip_with ndvi_pixel (elems red) (elems nir) /\
    Forall (fun x => within (of_Z (-1)) (of_Z 1) x = true) (elems out).
Proof.
  intros Hr Hn Hs. eexists. unfold calculate_ndvi_advanced.
  rewrite ndvi_try_same_shape by assumption.
  repeat split. cbn [elems].
  apply Forall_lookup_2. intros i x Hi.
  rewrite lookup_zip_with in Hi.
  destruct (elems red !! i), (elems nir !! i); simpl in Hi; try discriminate.
  injection Hi as <-. apply ndvi_pixel_within.
Qed.

Lemma ndvi_in_unit_interval_witness :
  let red := mk_array [1%nat; 2%nat] [of_Z 100; of_Z 0] in
  let nir := mk_array [1%nat; 2%nat] [of_Z 150; of_Z 65535] in
  exists out : ndarray float,
    calculate_ndvi_advanced (Some red) (Some nir) = Ok out /\
    shape out = shape red /\
    elems out = zip_with ndvi_pixel (elems red) (elems nir) /\
    Forall (fun x => within (of_Z (-1)) (of_Z 1) x = true) (elems out).
Proof.
  intros red nir.
  apply (ndvi_in_unit_interval red nir); reflexivity.
Defined.







(** ** The analysis entry point and unknown algorithm names *)

Lemma supported_algorithms_count : length supported_algorithms = 14%nat.
Proof. reflexivity. Qed.

Lemma unsupported_lookup (algorithm : string) :
  algorithm ∉ supported_algorithms ->
  VEGETATION_ALGORITHMS !! algorithm = None.
Proof.
  intros H. unfold VEGETATION_ALGORITHMS.
  apply not_elem_of_list_to_map_1. exact H.
Qed.

Lemma analyze_without_function
    (get_cmap : string -> option (float -> list float))
    (image_bands : gmap string (ndarray float)) (algorithm colormap : string) :
  VEGETATION_ALGORITHMS !! algorithm = None ->
  analyze_try get_cmap image_bands algorithm colormap
  = Raise (ValueError "Desteklenmeyen algoritma") /\
  analyze_vegetation_comprehensive get_cmap image_bands algorithm colormap
  = Ok None.
Proof.
  intros H. unfold analyze_vegetation_comprehensive, analyze_try.
  rewrite H. split; reflexivity.
Qed.

(** C4, as the code has it.  For every band set and every algorithm name
    outside the fourteen supported ones, the [ValueError] raised in the
    body is caught by the function's own handler: the caller receives
    [None], and no error. *)
Theorem unknown_algorithm_returns_none
    (get_cmap : string -> option (float -> list float))
    (image_bands : gmap string (ndarray float)) (algorithm colormap : string) :
  algorithm ∉ supported_algorithms ->
  analyze_vegetation_comprehensive get_cmap image_bands algorithm colormap
  = Ok None.
Proof.
  intros H. apply analyze_without_function, unsupported_lookup, H.
Qed.

Lemma unknown_algorithm_returns_none_witness :
  analyze_vegetation_comprehensive (fun _ => None) ∅ "lai" "rdylgn" = Ok None.
Proof.
  apply unknown_algorithm_returns_none.
  unfold supported_algorithms. intros H.
  repeat (apply elem_of_cons in H; destruct H as [H|H]; [discriminate|]).
  inversion H.
Defined.

(** C4 as stated fails: the call with the unknown name "lai" ends
    normally, with the value [None]. *)
Lemma unknown_algorithm_no_error_reaches_caller :
  analyze_vegetation_comprehensive (fun _ => None) ∅ "lai" "rdylgn" = Ok None
  /\ forall e : exn,
       analyze_vegetation_comprehensive (fun _ => None) ∅ "lai" "rdylgn"
       <> Raise e.
Proof.
  assert (H : analyze_vegetation_comprehensive (fun _ => None) ∅ "lai" "rdylgn"
              = Ok None).
  { apply analyze_without_function. vm_compute. reflexivity. }
  split; [exact H|]. intros e. rewrite H. discriminate.
Qed.

(** The entry point never raises, whatever the inputs. *)
Lemma analyze_never_raises
    (get_cmap : string -> option (float -> list float))
    (image_bands : gmap string (ndarray float)) (algorithm colormap : string) :
  exists r, analyze_vegetation_comprehensive get_cmap image_bands algorithm
                                             colormap = Ok r.
Proof.
  unfold analyze_vegetation_comprehensive, try_except.
  destruct (analyze_try _ _ _ _); simpl; eauto.
Qed.

(** ** The colour mapper on arrays of NaN *)

Lemma fold_fmin_nan (l : list float) (x : float) :
  Forall (fun y => is_nan y = true) l -> fold_left fmin l x = x.
Proof.
  intros H. revert x. induction H as [|y l Hy _ IH]; intros x; simpl.
  - reflexivity.
  - rewrite IH. unfold fmin. rewrite Hy, orb_true_r. reflexivity.
Qed.

Lemma fold_fmax_nan (l : list float) (x : float) :
  Forall (fun y => is_nan y = true) l -> fold_left fmax l x = x.
Proof.
  intros H. revert x. induction H as [|y l Hy _ IH]; intros x; simpl.
  - reflexivity.
  - rewrite IH. unfold fmax. rewrite Hy, orb_true_r. reflexivity.
Qed.

Lemma is_nan_eq (x : float) : is_nan x = true -> x = nan.
Proof. destruct x; simpl; intros H; try discriminate H; reflexivity. Qed.

Lemma no_valid_pixel (l : list float) :
  Forall (fun y => is_nan y = true) l ->
  existsb id (map negb (map is_nan l)) = false.
Proof.
  induction 1 as [|y l Hy _ IH]; simpl; [reflexivity|].
  rewrite Hy, IH. reflexivity.
Qed.

Lemma nanmin_all_nan (a : ndarray float) :
  elems a <> [] -> Forall (fun y => is_nan y = true) (elems a) ->
  np_nanmin a = Ok nan /\ np_nanmax a = Ok nan.
Proof.
  unfold np_nanmin, np_nanmax. intros Hne H.
  destruct (elems a) as [|x l]; [congruence|].
  inversion H as [|? ? Hx Hl]; subst.
  rewrite fold_fmin_nan, fold_fmax_nan by assumption.
  rewrite (is_nan_eq x Hx). split; reflexivity.
Qed.

Lemma gray_of_nan (l : list float) (lo d : float) :
  Forall (fun y => is_nan y = true) l ->
  flat_map (fun g => [g; g; g])
           (map (fun x => clip x (of_Z 0) (of_Z 1))
                (map (fun x => (x / d)%f64) (map (fun x => (x - lo)%f64) l)))
  = repeat nan (3 * length l).
Proof.
  induction 1 as [|y l Hy _ IH]; [reflexivity|].
  cbn [map flat_map length]. rewrite IH, (is_nan_eq y Hy).
  replace (3 * S (length l))%nat with (3 + 3 * length l)%nat by lia.
  reflexivity.
Qed.

Lemma wf_nonempty {A : Type} (a : ndarray A) :
  wf a -> size a <> 0%nat -> elems a <> [].
Proof.
  unfold wf. intros Hw Hs E. rewrite E in Hw. simpl in Hw. congruence.
Qed.

Lemma colormap_all_nan
    (get_cmap : string -> option (float -> list float))
    (data : ndarray float) (colormap : string) (min_val max_val : option float) :
  wf data -> size data <> 0%nat ->
  Forall (fun x => is_nan x = true) (elems data) ->
  colormap_try get_cmap (Some data) colormap min_val max_val
  = Raise (ValueError "All data values are NaN") /\
  apply_colormap get_cmap (Some data) colormap min_val max_val
  = Ok (mk_array (shape data ++ [3%nat]) (repeat nan (3 * length (elems data)))).
Proof.
  intros Hw Hs Hn.
  assert (Ht : colormap_try get_cmap (Some data) colormap min_val max_val
               = Raise (ValueError "All data values are NaN")).
  { unfold colormap_try. destruct (Nat.eqb_spec (size data) 0) as [E|_];
      [contradiction|].
    cbn [map_array np_isnan elems]. rewrite no_valid_pixel by assumption.
    reflexivity. }
  split; [exact Ht|].
  unfold apply_colormap, try_except. rewrite Ht.
  unfold grayscale_fallback.
  destruct (nanmin_all_nan data (wf_nonempty data Hw Hs) Hn) as [-> ->].
  cbn [mbind outcome_bind]. unfold np_clip, div_scalar, sub_scalar, map_array.
  cbn [shape elems]. rewrite gray_of_nan by assumption. reflexivity.
Qed.

(** C5, as the code has it.  On a non-empty array whose elements are all
    NaN, with [min]/[max] omitted or given and for any palette,
    [apply_colormap] raises nothing: the [ValueError] of its body is caught
    by its own handler, which returns the grey image, here with NaN in all
    three channels of every pixel. *)
Theorem colormap_all_nan_returns_gray
    (get_cmap : string -> option (float -> list float))
    (data : ndarray float) (colormap : string) (min_val max_val : option float) :
  wf data -> size data <> 0%nat ->
  Forall (fun x => is_nan x = true) (elems data) ->
  apply_colormap get_cmap (Some data) colormap min_val max_val
  = Ok (mk_array (shape data ++ [3%nat]) (repeat nan (3 * length (elems data)))).
Proof. intros Hw Hs Hn. apply colormap_all_nan; assumption. Qed.

Lemma colormap_all_nan_returns_gray_witness :
  apply_colormap (fun _ => None) (Some (mk_array [1%nat; 2%nat] [nan; nan]))
                 "rdylgn" None None
  = Ok (mk_array [1%nat; 2%nat; 3%nat] [nan; nan; nan; nan; nan; nan]).
Proof.
  apply (colormap_all_nan_returns_gray (fun _ => None)
           (mk_array [1%nat; 2%nat] [nan; nan]) "rdylgn" None None).
  - reflexivity.
  - discriminate.
  - repeat constructor.
Defined.

(** C5 as stated fails: on the 1 x 2 array of NaN the call returns an
    image, and no error. *)
Lemma colormap_all_nan_no_error :
  exists image : ndarray float,
    apply_colormap (fun _ => None) (Some (mk_array [1%nat; 2%nat] [nan; nan]))
                   "rdylgn" None None = Ok image /\
    shape image = [1%nat; 2%nat; 3%nat].
Proof. eexists. split; reflexivity. Qed.

(** On an empty array the handler itself fails: [np.nanmin] raises, and
    this error does reach the caller. *)
Lemma colormap_empty_array_raises
    (get_cmap : string -> option (float -> list float))
    (s : list nat) (colormap : string) (min_val max_val : option float) :
  numel s = 0%nat ->
  exists msg,
    apply_colormap get_cmap (Some (mk_array s [])) colormap min_val max_val
    = Raise (ValueError msg).
Proof.
  intros Hs. unfold apply_colormap, colormap_try, size. cbn [shape].
  rewrite Hs. simpl. eexists. reflexivity.
Qed.

(** ** Arrays of one shape *)

Lemma has_shape_wf {A : Type} (a : ndarray A) : wf a -> has_shape (shape a) a.
Proof. unfold wf, size, has_shape. auto. Qed.

Lemma has_shape_eq {A B : Type} (a : ndarray A) (b : ndarray B) :
  wf b -> shape a = shape b -> has_shape (shape a) b.
Proof. unfold wf, size, has_shape. intros Hb ->. auto. Qed.

Lemma has_shape_zip_with {A B C : Type} (f : A -> B -> C) (s : list nat)
    (a : ndarray A) (b : ndarray B) :
  has_shape s a -> has_shape s b ->
  has_shape s (mk_array s (zip_with f (elems a) (elems b))).
Proof.
  unfold has_shape. intros [_ Ha] [_ Hb]. cbn [shape elems].
  rewrite length_zip_with. split; [reflexivity | lia].
Qed.

Lemma has_shape_map_array {A B : Type} (f : A -> B) (s : list nat)
    (a : ndarray A) :
  has_shape s a -> has_shape s (map_array f a).
Proof.
  unfold has_shape, map_array. intros [Hs Ha]. cbn [shape elems].
  rewrite length_map. auto.
Qed.

Lemma broadcast2_has_shape {A B C : Type} (f : A -> B -> C) (s : list nat)
    (a : ndarray A) (b : ndarray B) :
  has_shape s a -> has_shape s b ->
  broadcast2 f a b = Ok (mk_array s (zip_with f (elems a) (elems b))).
Proof.
  intros [Hsa Ha] [Hsb Hb].
  rewrite broadcast2_same_shape; unfold wf, size; congruence.
Qed.

Create HintDb shapes.
#[export] Hint Resolve has_shape_wf has_shape_eq has_shape_zip_with
  has_shape_map_array : shapes.
#[export] Hint Unfold add_scalar scalar_mul sub_scalar div_scalar mul_scalar
  eq_scalar np_sqrt np_square np_isfinite np_isnan : shapes.

(** One array operation on operands of the shape [s]. *)
Ltac array_step s :=
  rewrite (broadcast2_has_shape _ s) by (autounfold with shapes; auto 10 with shapes);
  cbn [mbind outcome_bind].

Lemma lookup_zip_with_match {A B C : Type} (f : A -> B -> C)
    (l : list A) (k : list B) (i : nat) :
  zip_with f l k !! i
  = match l !! i, k !! i with
    | Some x, Some y => Some (f x y)
    | _, _ => None
    end.
Proof.
  rewrite lookup_zip_with. destruct (l !! i), (k !! i); reflexivity.
Qed.

(** Both sides are built from [zip_with] and [map] over the same lists. *)
Ltac pointwise :=
  apply list_eq; intros ?i;
  repeat (rewrite lookup_zip_with_match || rewrite list_lookup_fmap);
  repeat match goal with
         | |- context [?l !! ?i] => destruct (l !! i)
         end;
  try reflexivity.

(** ** GLI *)

Lemma gli_same_shape (red green blue : ndarray float) :
  wf red -> wf green -> wf blue ->
  shape red = shape green -> shape red = shape blue ->
  calculate_gli_advanced red green blue
  = Ok (mk_array (shape red)
                 (map3 gli_pixel (elems red) (elems green) (elems blue))).
Proof.
  intros Hr Hg Hb Hrg Hrb. unfold calculate_gli_advanced, np_add, np_sub,
    np_div, nan_where_zero, np_where_scalar_l.
  do 6 array_step (shape red).
  f_equal. f_equal. unfold map3. cbn [elems scalar_mul eq_scalar map_array].
  pointwise.
Qed.

(** C3, as the code has it.  For red, green and blue bands of one shape,
    [calculate_gli_advanced] adds no epsilon: a denominator 2g + r + b
    that is exactly zero is replaced by NaN, so the index is NaN there,
    and the quotient (2g - r - b) / denominator is returned without any
    clamping. *)
Theorem gli_nan_substitution_unclamped (red green blue : ndarray float) :
  wf red -> wf green -> wf blue ->
  shape red = shape green -> shape red = shape blue ->
  calculate_gli_advanced red green blue
  = Ok (mk_array (shape red)
                 (map3 gli_pixel (elems red) (elems green) (elems blue))) /\
  (forall r g b : float,
     eqb ((of_Z 2 * g + r) + b)%f64 (of_Z 0) = true -> gli_pixel r g b = nan).
Proof.
  intros Hr Hg Hb Hrg Hrb. split.
  - apply gli_same_shape; assumption.
  - intros r g b H. unfold gli_pixel. rewrite H.
    destruct (of_Z 2 * g - r - b)%f64; reflexivity.
Qed.

Lemma gli_nan_substitution_unclamped_witness :
  let red := mk_array [1%nat; 2%nat] [of_Z 0; of_Z (-1)] in
  let green := mk_array [1%nat; 2%nat] [of_Z 0; of_Z 1] in
  let blue := mk_array [1%nat; 2%nat] [of_Z 0; of_Z 0] in
  calculate_gli_advanced red green blue
  = Ok (mk_array (shape red)
                 (map3 gli_pixel (elems red) (elems green) (elems blue))) /\
  (forall r g b : float,
     eqb ((of_Z 2 * g + r) + b)%f64 (of_Z 0) = true -> gli_pixel r g b = nan).
Proof.
  intros red green blue.
  apply (gli_nan_substitution_unclamped red green blue); reflexivity.
Defined.

(** C3 as stated fails.  Where all three bands are 0 the code returns
    NaN, while the formula with epsilon gives 0; at red = -1, green = 1,
    blue = 0 it returns 3, outside [-1, 1]. *)
Lemma gli_not_epsilon_not_clamped :
  let red := mk_array [1%nat; 2%nat] [of_Z 0; of_Z (-1)] in
  let green := mk_array [1%nat; 2%nat] [of_Z 0; of_Z 1] in
  let blue := mk_array [1%nat; 2%nat] [of_Z 0; of_Z 0] in
  calculate_gli_advanced red green blue
  = Ok (mk_array [1%nat; 2%nat] [nan; of_Z 3]) /\
  spec_gli_pixel (of_Z 0) (of_Z 0) (of_Z 0) = of_Z 0 /\
  within (of_Z (-1)) (of_Z 1) nan = false /\
  within (of_Z (-1)) (of_Z 1) (of_Z 3) = false.
Proof. repeat split; vm_compute; reflexivity. Qed.

(** ** Histograms of a multi-band array *)

Lemma histogram_band_with_range (bins : Z) (mask : option (ndarray bool))
    (r : float * float) (hs : list Histogram) (b : ndarray float)
    (st : option (float * float) * list Histogram) :
  histogram_band bins mask (Some r, hs) b = Ok st ->
  exists d h, apply_mask mask b = Ok d /\
              np_histogram (drop_nan d) bins r = Ok h /\
              st = (Some r, hs ++ [h]).
Proof.
  unfold histogram_band.
  destruct (apply_mask mask b) as [d|e] eqn:Ed;
    cbn [mbind outcome_bind]; [|discriminate].
  destruct (np_histogram (drop_nan d) bins r) as [h|e] eqn:Eh;
    cbn [mbind outcome_bind]; [|discriminate].
  intros [= <-].
  exists d, h. repeat split; assumption || reflexivity.
Qed.

Lemma histogram_band_without_range (bins : Z) (mask : option (ndarray bool))
    (hs : list Histogram) (b : ndarray float)
    (st : option (float * float) * list Histogram) :
  histogram_band bins mask (None, hs) b = Ok st ->
  exists d lo hi h,
    apply_mask mask b = Ok d /\
    np_min (drop_nan d) = Ok lo /\ np_max (drop_nan d) = Ok hi /\
    np_histogram (drop_nan d) bins (lo, hi) = Ok h /\
    st = (Some (lo, hi), hs ++ [h]).
Proof.
  unfold histogram_band.
  destruct (apply_mask mask b) as [d|e] eqn:Ed;
    cbn [mbind outcome_bind]; [|discriminate].
  destruct (np_min (drop_nan d)) as [lo|e] eqn:Elo;
    cbn [mbind outcome_bind]; [|discriminate].
  destruct (np_max (drop_nan d)) as [hi|e] eqn:Ehi;
    cbn [mbind outcome_bind]; [|discriminate].
  destruct (np_histogram (drop_nan d) bins (lo, hi)) as [h|e] eqn:Eh;
    cbn [mbind outcome_bind]; [|discriminate].
  intros [= <-].
  exists d, lo, hi, h. repeat split; assumption || reflexivity.
Qed.

Lemma for_each_with_range (bins : Z) (mask : option (ndarray bool))
    (r : float * float) (bands : list (ndarray float)) :
  forall (hs : list Histogram) (st : option (float * float) * list Histogram),
    for_each (histogram_band bins mask) bands (Some r, hs) = Ok st ->
    exists new,
      st = (Some r, hs ++ new) /\
      Forall2 (fun b h => exists d, apply_mask mask b = Ok d /\
                                    np_histogram (drop_nan d) bins r = Ok h)
              bands new.
Proof.
  induction bands as [|b bands IH]; intros hs st; cbn [for_each].
  - intros [= <-]. exists []. rewrite app_nil_r. split; [reflexivity|constructor].
  - destruct (histogram_band bins mask (Some r, hs) b) as [st1|e] eqn:E;
      cbn [mbind outcome_bind]; [|discriminate].
    intros H.
    apply histogram_band_with_range in E. destruct E as (d & h & Hd & Hh & ->).
    apply IH in H. destruct H as (new & -> & HF).
    exists (h :: new). rewrite <- app_assoc. split; [reflexivity|].
    constructor; eauto.
Qed.

(** With [range] omitted, every band of a multi-band array is binned over
    the minimum and maximum of the first band: the variable [range_values]
    is assigned in the first turn of the loop and is no longer [None] in
    the later ones. *)
Lemma histogram_range_of_first_band (image_data : ndarray float) (bins : Z)
    (mask : option (ndarray bool)) (b0 : ndarray float)
    (rest : list (ndarray float)) (hs : list Histogram) :
  length (shape image_data) = 3%nat ->
  bands_of image_data = b0 :: rest ->
  histogram_try image_data bins None mask = Ok hs ->
  exists d0 lo hi,
    apply_mask mask b0 = Ok d0 /\
    np_min (drop_nan d0) = Ok lo /\ np_max (drop_nan d0) = Ok hi /\
    Forall2 (fun b h => exists d, apply_mask mask b = Ok d /\
                                  np_histogram (drop_nan d) bins (lo, hi) = Ok h)
            (b0 :: rest) hs.
Proof.
  intros Hrank Hb. unfold histogram_try. rewrite Hrank, Hb. cbn [Nat.eqb for_each].
  destruct (histogram_band bins mask (None, []) b0) as [st0|e] eqn:E0;
    cbn [mbind outcome_bind]; [|discriminate].
  apply histogram_band_without_range in E0.
  destruct E0 as (d0 & lo & hi & h0 & Ed & Elo & Ehi & Eh & ->).
  destruct (for_each _ rest _) as [st|e] eqn:E;
    cbn [mbind outcome_bind]; [|discriminate].
  apply for_each_with_range in E. destruct E as (new & -> & HF).
  intros [= <-].
  exists d0, lo, hi. repeat split; try assumption.
  constructor; eauto.
Qed.

(** C2 fails on the code.  A 2-band array with the band [[0, 1]] and the
    band [[5, 9]], two bins, no range: the bin edges of the second band
    are 0, 0.5, 1, those of the first band, and both its values fall
    outside; the band alone gets the edges 5, 7, 9. *)
Theorem histogram_second_band_uses_first_range :
  let image_data := mk_array [2%nat; 1%nat; 2%nat]
                             [of_Z 0; of_Z 1; of_Z 5; of_Z 9] in
  let second_band := mk_array [1%nat; 1%nat; 2%nat] [of_Z 5; of_Z 9] in
  calculate_histogram image_data 2 None None
  = Ok (Some [ ([1; 1], [of_Z 0; decimal 5 1; of_Z 1]);
               ([0; 0], [of_Z 0; decimal 5 1; of_Z 1]) ]) /\
  calculate_histogram second_band 2 None None
  = Ok (Some [ ([1; 1], [of_Z 5; of_Z 7; of_Z 9]) ]).
Proof. split; vm_compute; reflexivity. Qed.


(** ** Rounding to a binary format gives a number of the format *)










(** Shifting the mantissa to the exponent of the format. *)
Section Rounding.

Variables prec emax : Z.
Hypothesis prec_pos : 0 < prec.










End Rounding.

(** Numbers of the format are not changed by rounding. *)
Section Exact.

Variables prec emax : Z.




End Exact.


(** ** The raster writer *)




(** What is asked of rasterio for an array of two or three axes. *)
Lemma write_request_profile (data : typed_array) (metadata : Metadata)
    (compress : string) :
  length (shape (values data)) = 2%nat \/ length (shape (values data)) = 3%nat ->
  exists count height width : nat,
    promoted_shape (shape (values data)) = [count; height; width] /\
    write_request data metadata compress
    = Ok (mk_geotiff "GTiff" height width count
            (if written_as_is (dtype data) then dtype data else float32)
            (crs metadata) (transform metadata) compress
            (mk_array (promoted_shape (shape (values data)))
               (if written_as_is (dtype data) then elems (values data)
                else map to_float32 (elems (values data))))).
Proof.
  intros Hrank. destruct data as [dt [s l]]. cbn [values dtype shape elems] in *.
  unfold write_request, promoted_shape.
  destruct Hrank as [H|H].
  - destruct s as [|h [|w [|? ?]]]; try discriminate H.
    exists 1%nat, h, w. split; [reflexivity|].
    cbn [values dtype shape elems length Nat.eqb expand_dims0].
    destruct dt; reflexivity.
  - destruct s as [|c [|h [|w [|? ?]]]]; try discriminate H.
    exists c, h, w. split; [reflexivity|].
    cbn [values dtype shape elems length Nat.eqb].
    destruct dt; reflexivity.
Qed.

(** With any other number of axes nothing is asked of rasterio. *)
Lemma write_request_raises (data : typed_array) (metadata : Metadata)
    (compress : string) :
  length (shape (values data)) <> 2%nat ->
  length (shape (values data)) <> 3%nat ->
  exists e : exn, write_request data metadata compress = Raise e.
Proof.
  destruct data as [dt [s l]]. cbn [values dtype shape elems].
  unfold write_request. intros H2 H3.
  destruct s as [|a [|b [|c [|d ?]]]]; cbn in *; eauto; congruence.
Qed.



(** The file of an int32 array: 7 and -3 are kept; 2^24 + 1 and
    2^24 + 3 lie half way between two numbers of the format and are
    rounded to the even ones, 2^24 and 2^24 + 4. *)
Lemma write_geotiff_int32_example :
  write_geotiff (fun _ _ => true) (fun files _ _ => files) ∅ "out.tif"
    (mk_typed int32
       (mk_array [1%nat; 4%nat]
                 [Int 7; Int (-3); Int 16777217; Int 16777219]))
    (mk_metadata (Some "EPSG:4326"%string) None None None None None None) "lzw"
  = (true,
     {[ "out.tif"%string :=
          mk_geotiff "GTiff" 1 4 1 float32 (Some "EPSG:4326"%string) None "lzw"
            (mk_array [1%nat; 1%nat; 4%nat]
               [Float (S754_finite false 14680064 (-21));
                Float (S754_finite true 12582912 (-22));
                Float (S754_finite false 8388608 1);
                Float (S754_finite false 8388610 1)]) ]}) /\
  map astype_int [S754_finite false 14680064 (-21);
                  S754_finite true 12582912 (-22);
                  S754_finite false 8388608 1;
                  S754_finite false 8388610 1]
  = [7; -3; 16777216; 16777220].
Proof. split; reflexivity. Qed.

(** With any other number of axes nothing is written and [False] is
    returned; when rasterio raises, [False] is returned and the files are
    what the failed attempt left. *)
Lemma write_geotiff_failure (creatable : string -> GeoTIFF -> bool)
    (leftover : gmap string GeoTIFF -> string -> GeoTIFF -> gmap string GeoTIFF)
    (files : gmap string GeoTIFF) (filename : string) (data : typed_array)
    (metadata : Metadata) (compress : string) :
  (length (shape (values data)) <> 2%nat ->
   length (shape (values data)) <> 3%nat ->
   write_geotiff creatable leftover files filename data metadata compress
   = (false, files)) /\
  (forall dataset : GeoTIFF,
     write_request data metadata compress = Ok dataset ->
     creatable filename dataset = false ->
     write_geotiff creatable leftover files filename data metadata compress
     = (false, leftover files filename dataset)).
Proof.
  split.
  - destruct data as [dt [s l]]. cbn [values dtype shape elems].
    unfold write_geotiff, write_request. intros H2 H3.
    destruct s as [|a [|b [|c [|d ?]]]]; cbn in *; try reflexivity; congruence.
  - intros dataset Hreq Hc. unfold write_geotiff. rewrite Hreq, Hc. reflexivity.
Qed.

(** ** The fixed palette *)

Lemma flat_map_map {A B C : Type} (f : B -> list C) (g : A -> B) (l : list A) :
  flat_map f (map g l) = flat_map (fun x => f (g x)) l.
Proof. induction l as [|x l IH]; simpl; [reflexivity | now rewrite IH]. Qed.

Lemma some_valid_pixel (l : list float) :
  Exists (fun x => is_nan x = false) l ->
  existsb id (map negb (map is_nan l)) = true.
Proof.
  induction 1 as [x l Hx | x l _ IH]; simpl.
  - rewrite Hx. reflexivity.
  - rewrite IH. apply orb_true_r.
Qed.

Lemma nanmin_defined (a : ndarray float) :
  elems a <> [] -> exists lo hi, np_nanmin a = Ok lo /\ np_nanmax a = Ok hi.
Proof.
  unfold np_nanmin, np_nanmax. destruct (elems a); [congruence|]. eauto.
Qed.

Lemma display_range_defined (data : ndarray float)
    (min_val max_val : option float) :
  elems data <> [] ->
  exists lo hi, display_range data min_val max_val = Ok (lo, hi).
Proof.
  intros H. destruct (nanmin_defined data H) as (lo & hi & Hlo & Hhi).
  unfold display_range.
  destruct min_val, max_val; rewrite ?Hlo, ?Hhi; cbn; eauto.
Qed.

(** The image of a two-dimensional array under the palette 'rdylgn'. *)
Lemma colormap_rdylgn_image
    (get_cmap : string -> option (float -> list float))
    (data : ndarray float) (h w : nat) (min_val max_val : option float)
    (lo hi : float) :
  wf data -> shape data = [h; w] ->
  Exists (fun x => is_nan x = false) (elems data) ->
  display_range data min_val max_val = Ok (lo, hi) ->
  apply_colormap get_cmap (Some data) "rdylgn" min_val max_val
  = Ok (mk_array [h; w; 3%nat]
          (flat_map (fun x => pixel_color (lut_index (normalize lo hi x)))
                    (elems data))).
Proof.
  intros Hw Hs Hv Hr.
  assert (Hne : size data <> 0%nat).
  { unfold wf in Hw. rewrite <- Hw. destruct Hv; simpl; lia. }
  unfold apply_colormap, colormap_try.
  destruct (Nat.eqb_spec (size data) 0) as [E|_]; [contradiction|].
  cbn [map_array np_isnan elems]. rewrite some_valid_pixel by assumption.
  cbn [negb]. unfold display_range in Hr.
  destruct (match min_val with None => np_nanmin data | Some v => Ok v end)
    as [lo'|e]; cbn [mbind outcome_bind] in *; [|discriminate].
  destruct (match max_val with None => np_nanmax data | Some v => Ok v end)
    as [hi'|e]; cbn [mbind outcome_bind] in *; [|discriminate].
  injection Hr as <- <-.
  cbn [String.eqb Ascii.eqb Bool.eqb]. rewrite Hs. cbn [paint mbind outcome_bind
    try_except app elems shape].
  rewrite !flat_map_map. reflexivity.
Qed.

Lemma clip_int_range (x lo hi : Z) : lo <= hi -> lo <= clip_int x lo hi <= hi.
Proof. unfold clip_int. lia. Qed.

Lemma lut_index_range (n : float) : 0 <= lut_index n <= 131.
Proof. unfold lut_index. apply clip_int_range. cbn. lia. Qed.

(** C7, as the code has it.  On the path of the fixed palette, for a
    two-dimensional array with a pixel that is not NaN, each pixel is
    painted with the row of the table whose index is the scaled value
    n * (N - 1) converted to an integer by dropping its fraction (not by
    rounding), clipped to [0, N - 1]; the table has N = 132 rows. *)
Theorem colormap_index_truncates
    (get_cmap : string -> option (float -> list float))
    (data : ndarray float) (h w : nat) (min_val max_val : option float) :
  wf data -> shape data = [h; w] ->
  Exists (fun x => is_nan x = false) (elems data) ->
  exists lo hi,
    display_range data min_val max_val = Ok (lo, hi) /\
    apply_colormap get_cmap (Some data) "rdylgn" min_val max_val
    = Ok (mk_array [h; w; 3%nat]
            (flat_map (fun x => pixel_color (lut_index (normalize lo hi x)))
                      (elems data))) /\
    (forall n : float,
       lut_index n = clip_int (astype_int (n * of_Z 131)%f64) 0 131 /\
       0 <= lut_index n <= Z.of_nat (length RdYlGn_lut) - 1) /\
    (128 <= length RdYlGn_lut)%nat.
Proof.
  intros Hw Hs Hv.
  destruct (display_range_defined data min_val max_val) as (lo & hi & Hr).
  { destruct Hv; discriminate. }
  exists lo, hi. split; [exact Hr|]. split.
  - apply colormap_rdylgn_image; assumption.
  - split; [|cbn; lia]. intros n. split; [reflexivity|]. apply lut_index_range.
Qed.

Lemma colormap_index_truncates_witness :
  let data := mk_array [1%nat; 3%nat] [of_Z 0; of_Z 1; of_Z 4] in
  exists lo hi,
    display_range data None None = Ok (lo, hi) /\
    apply_colormap (fun _ => None) (Some data) "rdylgn" None None
    = Ok (mk_array [1%nat; 3%nat; 3%nat]
            (flat_map (fun x => pixel_color (lut_index (normalize lo hi x)))
                      (elems data))) /\
    (forall n : float,
       lut_index n = clip_int (astype_int (n * of_Z 131)%f64) 0 131 /\
       0 <= lut_index n <= Z.of_nat (length RdYlGn_lut) - 1) /\
    (128 <= length RdYlGn_lut)%nat.
Proof.
  intros data.
  apply (colormap_index_truncates (fun _ => None) data 1 3 None None).
  - reflexivity.
  - reflexivity.
  - apply Exists_cons_hd. reflexivity.
Defined.

(** C7 as stated fails.  The scaled value 0.25 gives 0.25 * 131 = 32.75:
    the code takes row 32, rounding takes row 33.  In the image of the
    array [[0, 1, 4]] the middle pixel, whose scaled value is 0.25, has
    the colour of row 32. *)
Lemma colormap_index_is_not_rounded :
  within (of_Z 0) (of_Z 1) (decimal 25 2) = true /\
  lut_index (decimal 25 2) = 32 /\
  spec_lut_index (decimal 25 2) = 33 /\
  normalize (of_Z 0) (of_Z 4) (of_Z 1) = decimal 25 2 /\
  apply_colormap (fun _ => None)
    (Some (mk_array [1%nat; 3%nat] [of_Z 0; of_Z 1; of_Z 4])) "rdylgn" None None
  = Ok (mk_array [1%nat; 3%nat; 3%nat]
          (pixel_color 0 ++ pixel_color 32 ++ pixel_color 131)) /\
  pixel_color 32 <> pixel_color 33.
Proof.
  repeat split; try (vm_compute; reflexivity).
  vm_compute. discriminate.
Qed.

(** ** NaN pixels and pixels at the display minimum *)

Lemma eqb_finite_inv (s1 s2 : bool) (m1 m2 : positive) (e1 e2 : Z) :
  eqb (S754_finite s1 m1 e1) (S754_finite s2 m2 e2) = true ->
  s1 = s2 /\ m1 = m2 /\ e1 = e2.
Proof.
  unfold eqb, SFeqb, SFcompare.
  change (Pos.compare_cont Eq m1 m2) with (Pos.compare m1 m2).
  destruct s1, s2; try discriminate;
    destruct (Z.compare_spec e1 e2); try discriminate;
    destruct (Pos.compare_spec m1 m2); try discriminate; auto.
Qed.

Lemma sub_self (s : bool) (m : positive) (e : Z) :
  (S754_finite s m e - S754_finite s m e)%f64 = zero.
Proof.
  unfold sub, SFsub. rewrite Z.min_id. unfold shl_align.
  rewrite Z.sub_diag. reflexivity.
Qed.

Lemma sub_equal_zero_or_nan (x lo : float) :
  eqb x lo = true -> zero_or_nan (x - lo)%f64 = true.
Proof.
  intros H.
  destruct x as [[]|[]| |sx mx ex], lo as [[]|[]| |sl ml el];
    try reflexivity; try discriminate H;
    try (destruct sx; discriminate H); try (destruct sl; discriminate H).
  apply eqb_finite_inv in H. destruct H as (-> & -> & ->).
  rewrite sub_self. reflexivity.
Qed.

Lemma div_zero_or_nan (q d : float) :
  zero_or_nan q = true -> zero_or_nan (q / d)%f64 = true.
Proof. destruct q, d; cbn; try discriminate; reflexivity. Qed.

Lemma lut_index_zero_or_nan (q : float) :
  zero_or_nan q = true -> lut_index (clip q (of_Z 0) (of_Z 1)) = 0.
Proof. destruct q as [[]|[]| |]; try discriminate; intros _; reflexivity. Qed.

Lemma normalize_nan (lo hi x : float) :
  is_nan x = true -> normalize lo hi x = of_Z 0.
Proof. unfold normalize. intros ->. reflexivity. Qed.


Lemma lut_index_min_pixel (lo hi x : float) :
  eqb x lo = true -> lut_index (normalize lo hi x) = 0.
Proof.
  intros H. unfold normalize.
  destruct (is_nan x) eqn:Hx; [destruct x; discriminate|].
  cbn [negb]. apply lut_index_zero_or_nan, div_zero_or_nan,
    sub_equal_zero_or_nan, H.
Qed.

Lemma colormap_try_unknown_palette
    (get_cmap : string -> option (float -> list float))
    (data : ndarray float) (colormap : string) (min_val max_val : option float) :
  elems data <> [] ->
  (String.eqb colormap "rdylgn" = false /\ get_cmap colormap = None) \/
  (colormap = "rdylgn"%string /\ (length (shape data) < 2)%nat) ->
  exists e : exn,
    colormap_try get_cmap (Some data) colormap min_val max_val = Raise e.
Proof.
  intros Hne Ht. unfold colormap_try.
  destruct (size data =? 0)%nat; [eauto|].
  destruct (negb _); [eauto|].
  destruct (nanmin_defined data Hne) as (lo & hi & -> & ->).
  destruct min_val, max_val; cbn [mbind outcome_bind];
    (destruct Ht as [[-> ->]|[-> Hl]];
     [ eauto
     | change (String.eqb "rdylgn" "rdylgn") with true; cbv iota;
       destruct (shape data) as [|? [|? ?]];
       [ | | simpl in Hl; lia ]; cbn [paint mbind outcome_bind]; eauto ]).
Qed.

(** The image of the handler. *)
Lemma colormap_fallback_image
    (get_cmap : string -> option (float -> list float))
    (data : ndarray float) (colormap : string) (min_val max_val : option float) :
  elems data <> [] ->
  (String.eqb colormap "rdylgn" = false /\ get_cmap colormap = None) \/
  (colormap = "rdylgn"%string /\ (length (shape data) < 2)%nat) ->
  exists lo hi : float,
    np_nanmin data = Ok lo /\ np_nanmax data = Ok hi /\
    apply_colormap get_cmap (Some data) colormap min_val max_val
    = Ok (mk_array (shape data ++ [3%nat])
            (flat_map (fun x => [gray_level lo hi x; gray_level lo hi x;
                                 gray_level lo hi x])
                      (elems data))).
Proof.
  intros Hne Ht.
  destruct (colormap_try_unknown_palette get_cmap data colormap min_val max_val
              Hne Ht) as [e He].
  destruct (nanmin_defined data Hne) as (lo & hi & Hlo & Hhi).
  exists lo, hi. repeat split; try assumption.
  unfold apply_colormap. rewrite He. cbn [try_except grayscale_fallback].
  rewrite Hlo, Hhi. cbn [mbind outcome_bind].
  f_equal. f_equal.
  unfold np_clip, div_scalar, sub_scalar, map_array. cbn [elems].
  rewrite !map_map. rewrite flat_map_map. reflexivity.
Qed.





(** ** Division by one *)

Lemma div_eucl_div_mod (a b : Z) : Z.div_eucl a b = (a / b, a mod b).
Proof. unfold Z.div, Z.modulo. destruct (Z.div_eucl a b). reflexivity. Qed.

(** A stored mantissa is either that of a subnormal number, at the least
    exponent, or has all 53 digits. *)
Lemma canonical_cases (m : positive) (e : Z) :
  canonical_mantissa prec emax m e = true ->
  (e = -1074 /\ Zpos (digits2_pos m) <= 53) \/
  (-1074 < e /\ Zpos (digits2_pos m) = 53).
Proof.
  unfold canonical_mantissa, fexp, emin, prec, emax. intros H.
  apply Z.eqb_eq in H. lia.
Qed.

Lemma shr_fexp_canonical (m : positive) (e : Z) :
  canonical_mantissa prec emax m e = true ->
  shr_fexp prec emax (Zpos m) e loc_Exact
  = (Build_shr_record (Zpos m) false false, e).
Proof.
  unfold canonical_mantissa, shr_fexp. intros Hc. apply Z.eqb_eq in Hc.
  cbn [Zdigits2 shr_record_of_loc]. rewrite Hc, Z.sub_diag. reflexivity.
Qed.

Lemma shr_fexp_double (m : positive) (e : Z) :
  canonical_mantissa prec emax m e = true -> -1074 < e ->
  shr_fexp prec emax (Zpos m~0) (e - 1) loc_Exact
  = (Build_shr_record (Zpos m) false false, e).
Proof.
  intros Hc He.
  destruct (canonical_cases m e Hc) as [[? _]|[_ Hd]]; [lia|].
  unfold shr_fexp. cbn [Zdigits2 shr_record_of_loc digits2_pos].
  rewrite Pos2Z.inj_succ, Hd.
  replace (fexp prec emax (Z.succ 53 + (e - 1)) - (e - 1)) with 1
    by (unfold fexp, emin, prec, emax; lia).
  cbn [shr iter_pos shr_1 orb]. f_equal. lia.
Qed.

Lemma round_exact_canonical (s : bool) (m : positive) (e : Z) :
  bounded prec emax m e = true ->
  binary_round_aux prec emax s (Zpos m) e loc_Exact = S754_finite s m e.
Proof.
  unfold bounded. intros H. apply andb_true_iff in H. destruct H as [Hc He].
  unfold binary_round_aux. rewrite (shr_fexp_canonical m e Hc).
  cbn [shr_m loc_of_shr_record round_nearest_even].
  rewrite (shr_fexp_canonical m e Hc). cbn [shr_m]. rewrite He. reflexivity.
Qed.

Lemma round_exact_double (s : bool) (m : positive) (e : Z) :
  bounded prec emax m e = true -> -1074 < e ->
  binary_round_aux prec emax s (Zpos m~0) (e - 1) loc_Exact = S754_finite s m e.
Proof.
  intros Hb He. unfold bounded in Hb.
  apply andb_true_iff in Hb. destruct Hb as [Hc Hle].
  unfold binary_round_aux. rewrite (shr_fexp_double m e Hc He).
  cbn [shr_m loc_of_shr_record round_nearest_even].
  rewrite (shr_fexp_canonical m e Hc). cbn [shr_m]. rewrite Hle. reflexivity.
Qed.

(** The quotient of a stored finite number by 1 is the number itself:
    the division is exact and nothing is rounded away. *)
Lemma div_one_finite (s : bool) (m : positive) (e : Z) :
  valid (S754_finite s m e) = true ->
  (S754_finite s m e / of_Z 1)%f64 = S754_finite s m e.
Proof.
  unfold valid, valid_binary. intros Hb. pose proof Hb as Hb'.
  unfold bounded in Hb'. apply andb_true_iff in Hb'. destruct Hb' as [Hc Hle].
  change (of_Z 1) with (S754_finite false 4503599627370496 (-52)).
  unfold div, SFdiv, SFdiv_core_binary.
  change (Zdigits2 (Z.pos 4503599627370496)) with 53.
  cbn [Zdigits2]. rewrite div_eucl_div_mod.
  destruct (canonical_cases m e Hc) as [[-> Hd]|[He Hd]].
  - replace (fexp prec emax (Z.pos (digits2_pos m) + -1074 - (53 + -52)))
      with (-1074) by (unfold fexp, emin, prec, emax; lia).
    change (-1074 - -52 - Z.min (-1074) (-1074 - -52)) with 52.
    change (Z.min (-1074) (-1074 - -52)) with (-1074).
    cbv iota. rewrite Z.shiftl_mul_pow2 by lia.
    change (2 ^ 52) with 4503599627370496.
    rewrite Z.div_mul, Z.mod_mul by lia.
    change (new_location 4503599627370496 0) with loc_Exact.
    rewrite xorb_false_r. apply round_exact_canonical, Hb.
  - rewrite Hd.
    replace (fexp prec emax (53 + e - (53 + -52))) with (e - 1)
      by (unfold fexp, emin, prec, emax; lia).
    replace (Z.min (e - 1) (e - -52)) with (e - 1) by lia.
    replace (e - -52 - (e - 1)) with 53 by lia.
    cbv iota. rewrite Z.shiftl_mul_pow2 by lia.
    replace (Z.pos m * 2 ^ 53) with (Z.pos m~0 * 4503599627370496) by lia.
    rewrite Z.div_mul, Z.mod_mul by lia.
    change (new_location 4503599627370496 0) with loc_Exact.
    rewrite xorb_false_r. apply round_exact_double; assumption.
Qed.

Lemma div_one (v : float) :
  valid v = true -> (v / of_Z 1)%f64 = v.
Proof.
  destruct v as [[]|[]| |s m e]; intros H; try reflexivity.
  apply div_one_finite, H.
Qed.

(** ** Sums of zeros and one number *)

Lemma nonzeros_cons (x : float) (l : list float) :
  nonzeros (x :: l) = (nonzeros [x] + nonzeros l)%nat.
Proof. unfold nonzeros. cbn. destruct (is_zero x); reflexivity. Qed.

Lemma nonzeros_app (l k : list float) :
  nonzeros (l ++ k) = (nonzeros l + nonzeros k)%nat.
Proof. unfold nonzeros. rewrite List.filter_app, length_app. reflexivity. Qed.

Lemma nonzeros_firstn_skipn (n : nat) (l : list float) :
  (nonzeros (firstn n l) + nonzeros (skipn n l))%nat = nonzeros l.
Proof. rewrite <- nonzeros_app, firstn_skipn. reflexivity. Qed.

(** Adding two partial sums of which at most one is not a zero. *)
Lemma add_zero_or (v x y : float) :
  is_nan v = false -> zero_or v x -> zero_or v y ->
  (nonzeros [x] + nonzeros [y] <= 1)%nat ->
  zero_or v (x + y)%f64 /\
  nonzeros [(x + y)%f64] = (nonzeros [x] + nonzeros [y])%nat.
Proof.
  unfold zero_or, nonzeros. intros Hv Hx Hy. cbn.
  destruct (is_zero x) eqn:Zx, (is_zero y) eqn:Zy; cbn; intros Hc; try lia.
  - destruct x as [[]| | |], y as [[]| | |]; try discriminate; cbn; auto.
  - destruct Hy as [Hy| ->]; [discriminate|].
    destruct x as [sx| | |]; try discriminate.
    destruct v as [sv|sv| |sv m e]; try discriminate; cbn; auto.
  - destruct Hx as [Hx| ->]; [discriminate|].
    destruct y as [sy| | |]; try discriminate.
    destruct v as [sv|sv| |sv m e]; try discriminate; cbn; auto.
Qed.

Lemma fold_add_zero_or (v : float) (l : list float) :
  is_nan v = false -> Forall (zero_or v) l ->
  forall x : float,
    zero_or v x -> (nonzeros [x] + nonzeros l <= 1)%nat ->
    zero_or v (fold_left add l x) /\
    nonzeros [fold_left add l x] = (nonzeros [x] + nonzeros l)%nat.
Proof.
  intros Hv H. induction H as [|y l Hy _ IH]; intros x Hx Hc; cbn [fold_left].
  - split; [exact Hx|]. change (nonzeros []) with 0%nat. lia.
  - rewrite (nonzeros_cons y l) in Hc.
    destruct (add_zero_or v x y Hv Hx Hy) as [Hs Hn]; [lia|].
    destruct (IH (x + y)%f64 Hs) as [Hr Hm]; [lia|].
    split; [exact Hr|]. rewrite Hm, Hn, (nonzeros_cons y l). lia.
Qed.

Lemma zip_add_zero_or (v : float) (r : list float) :
  is_nan v = false -> Forall (zero_or v) r ->
  forall b : list float,
    Forall (zero_or v) b -> length b = length r ->
    (nonzeros r + nonzeros b <= 1)%nat ->
    Forall (zero_or v) (zip_with add r b) /\
    length (zip_with add r b) = length r /\
    nonzeros (zip_with add r b) = (nonzeros r + nonzeros b)%nat.
Proof.
  intros Hv H. induction H as [|x r Hx _ IH]; intros b Hb Hl Hc.
  - destruct b; [|discriminate Hl]. cbn. repeat split; constructor.
  - destruct b as [|y b]; [discriminate Hl|].
    apply Forall_cons_1 in Hb. destruct Hb as [Hy Hb].
    rewrite (nonzeros_cons x r), (nonzeros_cons y b) in Hc.
    destruct (add_zero_or v x y Hv Hx Hy) as [Hs Hn]; [lia|].
    destruct (IH b Hb) as (Hf & Hlen & Hm); [cbn in Hl; lia | lia |].
    cbn [zip_with]. split; [constructor; assumption|]. split; [cbn; lia|].
    rewrite (nonzeros_cons (x + y)%f64), Hn, Hm,
      (nonzeros_cons x r), (nonzeros_cons y b). lia.
Qed.

Lemma Forall_firstn_ {A : Type} (P : A -> Prop) (n : nat) (l : list A) :
  Forall P l -> Forall P (firstn n l).
Proof.
  intros H. rewrite <- (firstn_skipn n l) in H. apply Forall_app in H. tauto.
Qed.

Lemma Forall_skipn_ {A : Type} (P : A -> Prop) (n : nat) (l : list A) :
  Forall P l -> Forall P (skipn n l).
Proof.
  intros H. rewrite <- (firstn_skipn n l) in H. apply Forall_app in H. tauto.
Qed.

(** The 8 running sums after [k] further blocks. *)
Lemma add_blocks_zero_or (v : float) (k : nat) :
  is_nan v = false ->
  forall r l : list float,
    length r = 8%nat -> (8 * k <= length l)%nat ->
    Forall (zero_or v) r -> Forall (zero_or v) l ->
    (nonzeros r + nonzeros l <= 1)%nat ->
    let '(r', rest) := add_blocks k r l in
    length r' = 8%nat /\ Forall (zero_or v) r' /\ Forall (zero_or v) rest /\
    (nonzeros r' + nonzeros rest)%nat = (nonzeros r + nonzeros l)%nat.
Proof.
  intros Hv. induction k as [|k IH]; intros r l Hr Hl Fr Fl Hc; cbn [add_blocks].
  - auto.
  - pose proof (nonzeros_firstn_skipn 8 l) as Hsplit.
    destruct (zip_add_zero_or v r Hv Fr (firstn 8 l)) as (Fz & Lz & Nz).
    { apply Forall_firstn_, Fl. }
    { rewrite length_firstn. lia. }
    { lia. }
    specialize (IH (zip_with add r (firstn 8 l)) (skipn 8 l)).
    destruct (add_blocks k (zip_with add r (firstn 8 l)) (skipn 8 l))
      as [r' rest].
    destruct IH as (L' & F' & Frest & N').
    { lia. }
    { rewrite length_skipn. lia. }
    { exact Fz. }
    { apply Forall_skipn_, Fl. }
    { lia. }
    repeat split; try assumption. lia.
Qed.

Lemma sum_block_zero_or (v : float) (l : list float) :
  is_nan v = false -> (8 <= length l)%nat ->
  Forall (zero_or v) l -> (nonzeros l <= 1)%nat ->
  zero_or v (sum_block l) /\ nonzeros [sum_block l] = nonzeros l.
Proof.
  intros Hv Hlen Fl Hc. unfold sum_block.
  pose proof (nonzeros_firstn_skipn 8 l) as Hsplit.
  pose proof (Nat.Div0.mul_div_le (length l) 8) as Hdiv.
  pose proof (add_blocks_zero_or v (length l / 8 - 1) Hv
                (firstn 8 l) (skipn 8 l)) as H.
  destruct (add_blocks (length l / 8 - 1) (firstn 8 l) (skipn 8 l))
    as [r rest].
  destruct H as (Lr & Fr & Frest & Nr).
  { rewrite length_firstn. lia. }
  { rewrite length_skipn. lia. }
  { apply Forall_firstn_, Fl. }
  { apply Forall_skipn_, Fl. }
  { lia. }
  destruct r as [|r0 [|r1 [|r2 [|r3 [|r4 [|r5 [|r6 [|r7 [|? ?]]]]]]]]];
    try discriminate Lr.
  repeat match goal with
         | H : Forall _ (_ :: _) |- _ =>
             apply Forall_cons_1 in H; destruct H as [? H]
         end.
  rewrite !(nonzeros_cons _ (_ :: _)) in Nr.
  change (nonzeros []) with 0%nat in Nr.
  destruct (add_zero_or v r0 r1) as [H01 N01]; try assumption; [lia|].
  destruct (add_zero_or v r2 r3) as [H23 N23]; try assumption; [lia|].
  destruct (add_zero_or v r4 r5) as [H45 N45]; try assumption; [lia|].
  destruct (add_zero_or v r6 r7) as [H67 N67]; try assumption; [lia|].
  destruct (add_zero_or v _ _ Hv H01 H23) as [H03 N03]; [lia|].
  destruct (add_zero_or v _ _ Hv H45 H67) as [H47 N47]; [lia|].
  destruct (add_zero_or v _ _ Hv H03 H47) as [H07 N07]; [lia|].
  destruct (fold_add_zero_or v rest Hv Frest _ H07) as [Hres Nres]; [lia|].
  split; [exact Hres|]. lia.
Qed.

Lemma halves_shorter (n : nat) :
  (128 < n)%nat ->
  let n2 := (n / 2 - (n / 2) mod 8)%nat in (0 < n2 < n)%nat.
Proof.
  intros Hn n2. subst n2.
  pose proof (Nat.div_mod_eq n 2) as H1.
  pose proof (Nat.mod_upper_bound n 2 ltac:(lia)) as H2.
  pose proof (Nat.mod_upper_bound (n / 2) 8 ltac:(lia)) as H3.
  lia.
Qed.

Lemma pairwise_sum_zero_or (v : float) (fuel : nat) :
  is_nan v = false ->
  forall l : list float,
    (length l <= fuel)%nat ->
    Forall (zero_or v) l -> (nonzeros l <= 1)%nat ->
    zero_or v (pairwise_sum fuel l) /\
    nonzeros [pairwise_sum fuel l] = nonzeros l.
Proof.
  intros Hv. induction fuel as [|fuel IH]; intros l Hlen Fl Hc.
  - destruct l; [|cbn in Hlen; lia]. cbn. split; [left|]; reflexivity.
  - cbn [pairwise_sum].
    destruct (Nat.ltb_spec (length l) 8) as [H8|H8].
    + destruct (fold_add_zero_or v l Hv Fl neg_zero) as [Hr Hn];
        [left; reflexivity | cbn; lia |].
      split; [exact Hr|]. rewrite Hn. reflexivity.
    + destruct (Nat.leb_spec (length l) 128) as [H128|H128].
      * apply sum_block_zero_or; assumption.
      * pose proof (halves_shorter (length l) H128) as Hn2. cbv zeta in Hn2.
        set (n2 := (length l / 2 - (length l / 2) mod 8)%nat) in *.
        pose proof (nonzeros_firstn_skipn n2 l) as Hsplit.
        destruct (IH (firstn n2 l)) as [Ha Na].
        { rewrite length_firstn. lia. }
        { apply Forall_firstn_, Fl. }
        { lia. }
        destruct (IH (skipn n2 l)) as [Hb Nb].
        { rewrite length_skipn. lia. }
        { apply Forall_skipn_, Fl. }
        { lia. }
        destruct (add_zero_or v _ _ Hv Ha Hb) as [Hs Ns]; [lia|].
        split; [exact Hs|]. lia.
Qed.

(** More fuel than the length of the list changes nothing. *)
Lemma pairwise_sum_fuel (fuel : nat) :
  forall l : list float,
    (length l <= fuel)%nat ->
    pairwise_sum fuel l = pairwise_sum (length l) l.
Proof.
  assert (H : forall f1 f2 (l : list float),
             (length l <= f1)%nat -> (length l <= f2)%nat ->
             pairwise_sum f1 l = pairwise_sum f2 l).
  { induction f1 as [|f1 IH]; intros f2 l H1 H2.
    - destruct l; [|cbn in H1; lia]. destruct f2; reflexivity.
    - destruct f2 as [|f2].
      + destruct l; [|cbn in H2; lia]. reflexivity.
      + cbn [pairwise_sum].
        destruct (Nat.ltb_spec (length l) 8) as [H8|H8]; [reflexivity|].
        destruct (Nat.leb_spec (length l) 128) as [H128|H128]; [reflexivity|].
        pose proof (halves_shorter (length l) H128) as Hn2. cbv zeta in Hn2.
        set (n2 := (length l / 2 - (length l / 2) mod 8)%nat) in *.
        rewrite (IH f2 (firstn n2 l)), (IH f2 (skipn n2 l));
          rewrite ?length_firstn, ?length_skipn; try lia.
        reflexivity. }
  intros l Hl. apply H; [exact Hl | lia].
Qed.

(** [np.sum] of zeros and at most one other number: +0.0, or that
    number. *)
Lemma np_sum_zero_or (v : float) (l : list float) :
  is_nan v = false -> Forall (zero_or v) l -> (nonzeros l <= 1)%nat ->
  np_sum l = if Nat.eqb (nonzeros l) 0 then zero else v.
Proof.
  intros Hv Fl Hc. unfold np_sum.
  destruct (pairwise_sum_zero_or v (length l) Hv l) as [Hs Hn];
    [lia | exact Fl | exact Hc |].
  rewrite <- Hn. unfold nonzeros. cbn.
  destruct (pairwise_sum (length l) l) as [[]| | |] eqn:E; cbn; try reflexivity.
  all: destruct Hs as [Hs|Hs]; [discriminate Hs|]; subst v;
    try discriminate Hv; reflexivity.
Qed.

Lemma np_sum_zeros (l : list float) :
  Forall (fun x => x = zero) l -> np_sum l = zero.
Proof.
  intros H.
  assert (Hn : nonzeros l = 0%nat).
  { unfold nonzeros. induction H as [|x l -> _ IH]; [reflexivity|exact IH]. }
  assert (Fl : Forall (zero_or zero) l).
  { eapply Forall_impl; [exact H|]. intros x ->. left. reflexivity. }
  rewrite (np_sum_zero_or zero l eq_refl Fl) by lia. rewrite Hn. reflexivity.
Qed.

(** ** Statistics of an index array *)

Lemma agrees_refl (v : float) : agrees v v.
Proof. left. reflexivity. Qed.

Lemma agrees_eqb (v x : float) :
  is_nan v = false -> agrees v x -> eqb x v = true.
Proof.
  intros Hv [->|[Hz Hx]].
  - destruct v as [s|[]| |[] m e]; try reflexivity; try discriminate Hv;
      unfold eqb, SFeqb, SFcompare; rewrite Z.compare_refl,
        Pos.compare_cont_refl; reflexivity.
  - destruct v, x; try discriminate; reflexivity.
Qed.

Lemma agrees_from_zero (v : float) : agrees v (from_zero v).
Proof.
  unfold from_zero. destruct (is_zero v) eqn:E; [right|left]; auto.
Qed.

Lemma nan_to_zero_app (l k : list float) :
  nan_to_zero (l ++ k) = nan_to_zero l ++ nan_to_zero k.
Proof. apply map_app. Qed.

Lemma nan_to_zero_all (l : list float) :
  Forall (fun y => is_nan y = true) l ->
  forall v : float,
    Forall (zero_or v) (nan_to_zero l) /\ nonzeros (nan_to_zero l) = 0%nat.
Proof.
  intros H v. induction H as [|y l Hy _ [IH1 IH2]]; cbn; [split; [constructor|reflexivity]|].
  rewrite Hy. split; [constructor; [left; reflexivity|exact IH1]|exact IH2].
Qed.

(** The sum over an array with one element [v] that is not NaN. *)
Lemma nansum_single (pre post : list float) (v : float) :
  Forall (fun y => is_nan y = true) pre ->
  Forall (fun y => is_nan y = true) post ->
  is_nan v = false ->
  np_sum (nan_to_zero (pre ++ v :: post)) = from_zero v.
Proof.
  intros Hpre Hpost Hv. rewrite nan_to_zero_app. cbn [nan_to_zero map].
  rewrite Hv. fold (nan_to_zero post).
  destruct (nan_to_zero_all pre Hpre v) as [F1 N1].
  destruct (nan_to_zero_all post Hpost v) as [F2 N2].
  assert (Hn : nonzeros (nan_to_zero pre ++ v :: nan_to_zero post)
               = if is_zero v then 0%nat else 1%nat).
  { rewrite nonzeros_app, nonzeros_cons, N1, N2. unfold nonzeros. cbn.
    destruct (is_zero v); reflexivity. }
  rewrite (np_sum_zero_or v); [| exact Hv | | rewrite Hn; destruct (is_zero v); lia].
  - rewrite Hn. unfold from_zero. destruct (is_zero v); reflexivity.
  - apply Forall_app. split; [exact F1|].
    constructor; [right; reflexivity | exact F2].
Qed.

(** The sum of the one element. *)
Lemma np_sum_one (v : float) : is_nan v = false -> np_sum [v] = from_zero v.
Proof.
  intros Hv. rewrite (np_sum_zero_or v [v] Hv).
  - unfold nonzeros, from_zero. cbn. destruct (is_zero v); reflexivity.
  - constructor; [right; reflexivity | constructor].
  - unfold nonzeros. cbn. destruct (is_zero v); cbn; lia.
Qed.

Lemma drop_nan_all (l : list float) :
  Forall (fun y => is_nan y = true) l -> drop_nan l = [].
Proof.
  induction 1 as [|y l Hy _ IH]; cbn; [reflexivity|]. rewrite Hy. exact IH.
Qed.

Lemma drop_nan_single (pre post : list float) (v : float) :
  Forall (fun y => is_nan y = true) pre ->
  Forall (fun y => is_nan y = true) post ->
  is_nan v = false ->
  drop_nan (pre ++ v :: post) = [v].
Proof.
  intros Hpre Hpost Hv. unfold drop_nan. rewrite List.filter_app. cbn.
  rewrite Hv. cbn.
  fold (drop_nan pre). fold (drop_nan post).
  rewrite !drop_nan_all by assumption. reflexivity.
Qed.

Lemma fmin_nan_l (x v : float) :
  is_nan x = true -> is_nan v = false -> fmin x v = v.
Proof. intros Hx Hv. destruct x; try discriminate Hx. unfold fmin. cbn. now rewrite Hv. Qed.

Lemma fmax_nan_l (x v : float) :
  is_nan x = true -> is_nan v = false -> fmax x v = v.
Proof.
  intros Hx Hv. destruct x; try discriminate Hx. unfold fmax, leb, SFleb.
  destruct v; try discriminate Hv; reflexivity.
Qed.

Lemma nanmin_single (a : ndarray float) (pre post : list float) (v : float) :
  elems a = pre ++ v :: post ->
  Forall (fun y => is_nan y = true) pre ->
  Forall (fun y => is_nan y = true) post ->
  is_nan v = false ->
  np_nanmin a = Ok v /\ np_nanmax a = Ok v.
Proof.
  intros He Hpre Hpost Hv. unfold np_nanmin, np_nanmax. rewrite He.
  destruct Hpre as [|p pre Hp Hpre]; cbn [app].
  - rewrite fold_fmin_nan, fold_fmax_nan by assumption. split; reflexivity.
  - rewrite !fold_left_app. cbn [fold_left].
    rewrite (fold_fmin_nan pre), (fold_fmax_nan pre) by assumption.
    rewrite fmin_nan_l, fmax_nan_l by assumption.
    rewrite fold_fmin_nan, fold_fmax_nan by assumption. split; reflexivity.
Qed.

Lemma from_zero_valid (v : float) : valid v = true -> valid (from_zero v) = true.
Proof. unfold from_zero. destruct (is_zero v); auto. Qed.

(** The mean of one number. *)
Lemma div_one_from_zero (v : float) :
  valid v = true -> (from_zero v / of_Z 1)%f64 = from_zero v.
Proof. intros Hv. apply div_one, from_zero_valid, Hv. Qed.

Lemma sub_agrees_zero (v a : float) :
  is_finite v = true -> agrees v a -> is_zero (v - a)%f64 = true.
Proof.
  intros Hv [->|[Hz Ha]].
  - destruct v as [[]|s| |s m e]; try discriminate Hv; try reflexivity.
    rewrite sub_self. reflexivity.
  - destruct v as [[]| | |], a as [[]| | |]; try discriminate; reflexivity.
Qed.

Lemma square_zero (d : float) : is_zero d = true -> (d * d)%f64 = zero.
Proof. destruct d as [[]| | |]; try discriminate; reflexivity. Qed.

(** The squared deviations are all zero. *)
Lemma squares_single (pre post : list float) (v avg : float) :
  Forall (fun y => is_nan y = true) pre ->
  Forall (fun y => is_nan y = true) post ->
  is_finite v = true -> agrees v avg ->
  Forall (fun x => x = zero)
    (map (fun d => (d * d)%f64)
       (map (fun x => if is_nan x then zero else (x - avg)%f64)
            (pre ++ v :: post))).
Proof.
  intros Hpre Hpost Hv Ha. rewrite !map_app. cbn [map].
  assert (Hn : forall l, Forall (fun y => is_nan y = true) l ->
    Forall (fun x => x = zero)
      (map (fun d => (d * d)%f64)
         (map (fun x => if is_nan x then zero else (x - avg)%f64) l))).
  { induction 1 as [|y l Hy _ IH]; cbn; constructor; auto.
    rewrite Hy. reflexivity. }
  apply Forall_app. split; [apply Hn, Hpre|].
  constructor; [|apply Hn, Hpost].
  replace (is_nan v) with false by (destruct v; try discriminate; reflexivity).
  apply square_zero, sub_agrees_zero; assumption.
Qed.

Lemma nan_to_zero_zeros (l : list float) :
  Forall (fun y => is_nan y = true) l ->
  Forall (fun x => x = zero) (nan_to_zero l).
Proof.
  induction 1 as [|y l Hy _ IH]; cbn; constructor; auto.
  rewrite Hy. reflexivity.
Qed.

Lemma statistics_all_nan (data : ndarray float) :
  elems data <> [] -> Forall (fun x => is_nan x = true) (elems data) ->
  index_statistics data = Ok (mk_stats nan nan nan nan nan).
Proof.
  intros Hne Hn. unfold index_statistics.
  destruct (nanmin_all_nan data Hne Hn) as [-> ->]. cbn [mbind outcome_bind].
  unfold np_nanmean, np_nanstd, np_nanmedian.
  rewrite drop_nan_all by assumption.
  change (count_of []) with zero.
  rewrite (np_sum_zeros _ (nan_to_zero_zeros _ Hn)). reflexivity.
Qed.

(** The mean, the deviation and the median of one number. *)
Lemma mean_std_median_one (v : float) :
  is_finite v = true -> valid v = true ->
  np_mean [v] = from_zero v /\ np_std [v] = zero /\
  np_median [v] = from_zero v.
Proof.
  intros Hf Hv.
  assert (Hnn : is_nan v = false) by (destruct v; try discriminate; reflexivity).
  assert (Hmean : np_mean [v] = from_zero v).
  { unfold np_mean. rewrite (np_sum_one v Hnn). apply div_one_from_zero, Hv. }
  split; [exact Hmean|]. split; [|exact Hmean].
  unfold np_std. rewrite Hmean. cbn [map].
  rewrite (square_zero (v - from_zero v)%f64)
    by (apply sub_agrees_zero; [exact Hf | apply agrees_from_zero]).
  rewrite (np_sum_zeros [zero]) by (repeat constructor). reflexivity.
Qed.

Lemma statistics_single (data : ndarray float) (pre post : list float)
    (v : float) :
  elems data = pre ++ v :: post ->
  Forall (fun x => is_nan x = true) pre ->
  Forall (fun x => is_nan x = true) post ->
  is_finite v = true -> valid v = true ->
  index_statistics data
  = Ok (mk_stats v v (from_zero v) zero (from_zero v)).
Proof.
  intros He Hpre Hpost Hf Hv.
  assert (Hnn : is_nan v = false) by (destruct v; try discriminate; reflexivity).
  unfold index_statistics.
  destruct (nanmin_single data pre post v He Hpre Hpost Hnn) as [-> ->].
  cbn [mbind outcome_bind].
  assert (Hmean : np_nanmean data = from_zero v).
  { unfold np_nanmean. rewrite He, drop_nan_single by assumption.
    rewrite nansum_single by assumption. apply div_one_from_zero, Hv. }
  assert (Hstd : np_nanstd data = zero).
  { unfold np_nanstd. rewrite He, drop_nan_single by assumption.
    change (count_of [v]) with (of_Z 1).
    change (leb (of_Z 1) zero) with false. cbv iota.
    rewrite np_sum_zeros; [reflexivity|].
    apply squares_single; try assumption.
    rewrite nansum_single, div_one_from_zero by assumption.
    apply agrees_from_zero. }
  assert (Hmed : np_nanmedian data = from_zero v).
  { unfold np_nanmedian. rewrite He, drop_nan_single by assumption.
    apply (mean_std_median_one v Hf Hv). }
  rewrite Hmean, Hstd, Hmed. reflexivity.
Qed.

(** The statistics of the histogram path on a band with one valid
    element. *)
Lemma band_statistics_single (data : ndarray float) (i : nat)
    (pre post : list float) (v : float) :
  band_values data i = Some (pre ++ v :: post) ->
  Forall (fun x => is_nan x = true) pre ->
  Forall (fun x => is_nan x = true) post ->
  is_finite v = true -> valid v = true ->
  band_statistics data i
  = Ok (mk_band_stats (i + 1) v v (from_zero v) zero (from_zero v) 1).
Proof.
  intros Hb Hpre Hpost Hf Hv.
  assert (Hnn : is_nan v = false) by (destruct v; try discriminate; reflexivity).
  assert (Hband :
    (if Nat.eqb (length (shape data)) 3 then
       match bands_of data !! i with
       | Some b => Ok (elems b)
       | None => Raise (IndexError "index is out of bounds for axis 0")
       end
     else Ok (elems data)) = Ok (pre ++ v :: post)).
  { unfold band_values in Hb.
    destruct (Nat.eqb (length (shape data)) 3);
      [destruct (bands_of data !! i)|]; congruence. }
  unfold band_statistics. rewrite Hband. cbn [mbind outcome_bind].
  rewrite drop_nan_single by assumption.
  cbn [np_min np_max fold_left mbind outcome_bind length].
  destruct (mean_std_median_one v Hf Hv) as (-> & -> & ->). reflexivity.
Qed.

(** On the same path an entirely-NaN band stops at [np.min]: the error
    is a [ValueError], which the caller's handler turns into [None]. *)
Lemma band_statistics_all_nan (data : ndarray float) (i : nat)
    (l : list float) :
  band_values data i = Some l ->
  Forall (fun x => is_nan x = true) l ->
  exists msg, band_statistics data i = Raise (ValueError msg).
Proof.
  intros Hb Hn.
  assert (Hband :
    (if Nat.eqb (length (shape data)) 3 then
       match bands_of data !! i with
       | Some b => Ok (elems b)
       | None => Raise (IndexError "index is out of bounds for axis 0")
       end
     else Ok (elems data)) = Ok l).
  { unfold band_values in Hb.
    destruct (Nat.eqb (length (shape data)) 3);
      [destruct (bands_of data !! i)|]; congruence. }
  unfold band_statistics. rewrite Hband. cbn [mbind outcome_bind].
  rewrite drop_nan_all by assumption.
  eexists. reflexivity.
Qed.

Lemma process_geotiff_histogram_never_raises
    (path_exists : string -> bool) (rasterio_open : string -> outcome Dataset)
    (makedirs : string -> outcome unit) (default_output_dir : string -> string)
    (histogram_png : string -> string -> string)
    (savefig : list Histogram -> string -> outcome unit)
    (file_path : string) (output_dir : option string) (bins : Z) :
  exists r,
    process_geotiff_histogram path_exists rasterio_open makedirs
      default_output_dir histogram_png savefig file_path output_dir bins
    = Ok r.
Proof.
  unfold process_geotiff_histogram, try_except.
  match goal with |- context [match ?b with Ok _ => _ | Raise _ => _ end] =>
    destruct b end; eauto.
Qed.

(** C6, as the code has it.  The statistics of an index result raise
    nothing on a non-empty array that is entirely NaN: minimum, maximum,
    mean, standard deviation and median are all NaN.  On an array with
    exactly one element [v] that is not NaN, [v] being finite, the minimum
    and the maximum are [v], the mean and the median are [v] as a sum
    that starts from +0.0 gives it ([v] itself, and +0.0 when [v] is a
    zero of either sign), and the standard deviation is 0.  On the
    histogram path the statistics of a band that is entirely NaN raise a
    ValueError, those of a band with exactly one such element [v] are the
    same numbers with a count of 1, and no exception leaves
    [process_geotiff_histogram]. *)
Theorem statistics_of_nan_and_single_pixel :
  (forall data : ndarray float,
     elems data <> [] -> Forall (fun x => is_nan x = true) (elems data) ->
     index_statistics data = Ok (mk_stats nan nan nan nan nan)) /\
  (forall (data : ndarray float) (pre post : list float) (v : float),
     elems data = pre ++ v :: post ->
     Forall (fun x => is_nan x = true) pre ->
     Forall (fun x => is_nan x = true) post ->
     is_finite v = true -> valid v = true ->
     index_statistics data
     = Ok (mk_stats v v (from_zero v) zero (from_zero v))) /\
  (forall (data : ndarray float) (i : nat) (l : list float),
     band_values data i = Some l ->
     Forall (fun x => is_nan x = true) l ->
     exists msg, band_statistics data i = Raise (ValueError msg)) /\
  (forall (data : ndarray float) (i : nat) (pre post : list float) (v : float),
     band_values data i = Some (pre ++ v :: post) ->
     Forall (fun x => is_nan x = true) pre ->
     Forall (fun x => is_nan x = true) post ->
     is_finite v = true -> valid v = true ->
     band_statistics data i
     = Ok (mk_band_stats (i + 1) v v (from_zero v) zero (from_zero v) 1)) /\
  (forall (path_exists : string -> bool)
          (rasterio_open : string -> outcome Dataset)
          (makedirs : string -> outcome unit)
          (default_output_dir : string -> string)
          (histogram_png : string -> string -> string)
          (savefig : list Histogram -> string -> outcome unit)
          (file_path : string) (output_dir : option string) (bins : Z),
     exists r,
       process_geotiff_histogram path_exists rasterio_open makedirs
         default_output_dir histogram_png savefig file_path output_dir bins
       = Ok r).
Proof.
  split; [exact statistics_all_nan|]. split; [exact statistics_single|].
  split; [exact band_statistics_all_nan|].
  split; [exact band_statistics_single|].
  exact process_geotiff_histogram_never_raises.
Qed.

Lemma statistics_of_nan_and_single_pixel_witness :
  index_statistics (mk_array [1%nat; 2%nat] [nan; nan])
  = Ok (mk_stats nan nan nan nan nan) /\
  index_statistics (mk_array [1%nat; 3%nat] [nan; of_Z 7; nan])
  = Ok (mk_stats (of_Z 7) (of_Z 7) (of_Z 7) zero (of_Z 7)) /\
  index_statistics (mk_array [1%nat; 3%nat] [nan; neg_zero; nan])
  = Ok (mk_stats neg_zero neg_zero zero zero zero) /\
  band_statistics (mk_array [2%nat; 1%nat; 2%nat] [of_Z 1; of_Z 2; nan; of_Z 7])
    1
  = Ok (mk_band_stats 2 (of_Z 7) (of_Z 7) (of_Z 7) zero (of_Z 7) 1).
Proof.
  destruct statistics_of_nan_and_single_pixel
    as (Hnan & Hone & _ & Hband & _).
  split; [|split; [|split]].
  - apply Hnan; [discriminate | repeat constructor].
  - apply (Hone (mk_array [1%nat; 3%nat] [nan; of_Z 7; nan]) [nan] [nan]);
      try reflexivity; repeat constructor.
  - apply (Hone (mk_array [1%nat; 3%nat] [nan; neg_zero; nan]) [nan] [nan]);
      try reflexivity; repeat constructor.
  - apply (Hband (mk_array [2%nat; 1%nat; 2%nat]
                    [of_Z 1; of_Z 2; nan; of_Z 7]) 1%nat [nan] []);
      try reflexivity; repeat constructor.
Defined.

(** C6 as stated fails.  On an array of NaN the statistics are returned,
    all NaN, and the analysis entry point returns its dictionary; on the
    histogram path an all-NaN raster makes [process_geotiff_histogram]
    return [None].  No error reaches the caller.  With the one valid
    element infinite, the standard deviation is NaN, not 0; with the one
    valid element -0.0, the mean and the median are +0.0. *)
Lemma statistics_no_empty_data_error :
  index_statistics (mk_array [1%nat; 2%nat] [nan; nan])
  = Ok (mk_stats nan nan nan nan nan) /\
  (exists a : Analysis,
     analyze_vegetation_comprehensive (fun _ => None)
       (<["red" := mk_array [1%nat; 2%nat] [nan; nan]]>
          (<["nir" := mk_array [1%nat; 2%nat] [nan; nan]]> ∅))
       "msavi" "rdylgn" = Ok (Some a) /\
     statistics a = mk_stats nan nan nan nan nan) /\
  process_geotiff_histogram (fun _ => true)
    (fun _ => Ok (mk_dataset None None None 2 1 1 [float64]
                    (Some (mk_array [1%nat; 1%nat; 2%nat] [nan; nan]))))
    (fun _ => Ok tt) (fun p => p) (fun d _ => d) (fun _ _ => Ok tt)
    "field.tif" None 256 = Ok None /\
  index_statistics (mk_array [1%nat; 2%nat] [nan; S754_infinity false])
  = Ok (mk_stats (S754_infinity false) (S754_infinity false)
                 (S754_infinity false) nan (S754_infinity false)) /\
  index_statistics (mk_array [1%nat; 2%nat] [nan; neg_zero])
  = Ok (mk_stats neg_zero neg_zero zero zero zero).
Proof.
  split; [reflexivity|]. split; [|repeat split; vm_compute; reflexivity].
  eexists. split; vm_compute; reflexivity.
Qed.

(** ** Named palettes *)

(** With a palette that matplotlib knows, every pixel gets the colour of
    its scaled value; a NaN pixel gets the colour of 0. *)
Lemma colormap_named_image
    (get_cmap : string -> option (float -> list float))
    (data : ndarray float) (colormap : string) (cmap : float -> list float)
    (min_val max_val : option float) (lo hi : float) :
  wf data -> String.eqb colormap "rdylgn" = false ->
  get_cmap colormap = Some cmap ->
  Exists (fun x => is_nan x = false) (elems data) ->
  display_range data min_val max_val = Ok (lo, hi) ->
  apply_colormap get_cmap (Some data) colormap min_val max_val
  = Ok (mk_array (shape data ++ [4%nat])
          (flat_map (fun x => cmap (normalize lo hi x)) (elems data))) /\
  (forall x, is_nan x = true -> cmap (normalize lo hi x) = cmap (of_Z 0)).
Proof.
  intros Hw Hname Hc Hv Hr. split.
  - assert (Hne : size data <> 0%nat).
    { unfold wf in Hw. rewrite <- Hw. destruct Hv; simpl; lia. }
    unfold apply_colormap, colormap_try.
    destruct (Nat.eqb_spec (size data) 0) as [E|_]; [contradiction|].
    cbn [map_array np_isnan elems]. rewrite some_valid_pixel by assumption.
    cbn [negb]. unfold display_range in Hr.
    destruct (match min_val with None => np_nanmin data | Some v => Ok v end)
      as [lo'|e]; cbn [mbind outcome_bind] in *; [|discriminate].
    destruct (match max_val with None => np_nanmax data | Some v => Ok v end)
      as [hi'|e]; cbn [mbind outcome_bind] in *; [|discriminate].
    injection Hr as <- <-. rewrite Hname, Hc. cbn [try_except].
    rewrite flat_map_map. reflexivity.
  - intros x Hx. rewrite normalize_nan by assumption. reflexivity.
Qed.

(** ** The literals of the source *)

Example epsilon_value : epsilon = S754_finite false 7737125245533627 (-86).
Proof. reflexivity. Qed.

Example widening_value :
  decimal 1 6 = S754_finite false 4722366482869645 (-72).
Proof. reflexivity. Qed.

Example one_value : of_Z 1 = S754_finite false 4503599627370496 (-52).
Proof. reflexivity. Qed.

(** ** The conversion to an integer *)

(** [astype(int)] of a positive number below 2^63 with a fraction: the
    integer [z] with [z <= x < z + 1], the value of [x] being
    [m / 2^(-e)]. *)
Lemma astype_int_drops_fraction (m : positive) (e : Z) :
  e < 0 -> Zpos m / 2 ^ (- e) < 2 ^ 63 ->
  let z := astype_int (S754_finite false m e) in
  z = Zpos m / 2 ^ (- e) /\
  z * 2 ^ (- e) <= Zpos m < (z + 1) * 2 ^ (- e).
Proof.
  intros He Hlt z. subst z. unfold astype_int, cond_Zopp.
  assert (Hpow : 0 < 2 ^ (- e)) by (apply Z.pow_pos_nonneg; lia).
  assert (Hq : 0 <= Zpos m / 2 ^ (- e)) by (apply Z.div_pos; lia).
  destruct (Z.leb_spec 0 e) as [H|_]; [lia|].
  replace (Zpos m / 2 ^ (- e) <? int64_min) with false
    by (symmetry; apply Z.ltb_ge; unfold int64_min; lia).
  replace (2 ^ 63 <=? Zpos m / 2 ^ (- e)) with false
    by (symmetry; apply Z.leb_gt; exact Hlt).
  cbn [orb]. split; [reflexivity|].
  pose proof (Z.mul_div_le (Zpos m) (2 ^ (- e)) Hpow).
  pose proof (Z.mul_succ_div_gt (Zpos m) (2 ^ (- e)) Hpow).
  lia.
Qed.

(** * Further properties of the code *)

(** ** NDVI of a band with itself *)

Lemma sub_diag_zero_or_nan (r : float) : zero_or_nan (r - r)%f64 = true.
Proof.
  destruct r as [[]|[]| |s m e]; try reflexivity.
  rewrite sub_self. reflexivity.
Qed.

Lemma ndvi_pixel_diag (r : float) : is_zero (ndvi_pixel r r) = true.
Proof.
  unfold ndvi_pixel.
  pose proof (div_zero_or_nan (r - r)%f64 (r + r + epsilon)%f64
                (sub_diag_zero_or_nan r)) as H.
  destruct ((r - r) / (r + r + epsilon))%f64 as [[]| | |]; try discriminate H;
    reflexivity.
Qed.

(** X1. The NDVI of a band with itself is zero at every pixel, whatever
    the pixel holds (also NaN and the infinities, which the code replaces
    by 0). *)
Theorem ndvi_of_equal_bands_is_zero (band : ndarray float) :
  wf band ->
  exists out : ndarray float,
    calculate_ndvi_advanced (Some band) (Some band) = Ok out /\
    shape out = shape band /\
    length (elems out) = length (elems band) /\
    Forall (fun x => is_zero x = true) (elems out).
Proof.
  intros Hw. eexists. unfold calculate_ndvi_advanced.
  rewrite ndvi_try_same_shape by auto. cbn [try_except shape elems].
  repeat split; cbn [elems].
  - rewrite length_zip_with. lia.
  - apply Forall_lookup_2. intros i x Hi.
    rewrite lookup_zip_with_match in Hi.
    destruct (elems band !! i); [|discriminate].
    injection Hi as <-. apply ndvi_pixel_diag.
Qed.

Lemma ndvi_of_equal_bands_is_zero_witness :
  exists out : ndarray float,
    calculate_ndvi_advanced
      (Some (mk_array [1%nat; 3%nat] [of_Z 7; nan; S754_infinity false]))
      (Some (mk_array [1%nat; 3%nat] [of_Z 7; nan; S754_infinity false]))
    = Ok out /\
    Forall (fun x => is_zero x = true) (elems out).
Proof.
  destruct (ndvi_of_equal_bands_is_zero
              (mk_array [1%nat; 3%nat] [of_Z 7; nan; S754_infinity false]))
    as (out & H & _ & _ & HF); [reflexivity|].
  exists out. split; assumption.
Defined.

(** ** The analysis entry point: bands *)

(** The conditions on a concrete algorithm name. *)
Ltac eval_conditions :=
  repeat match goal with
         | |- context [bool_decide ?P] =>
             let b := eval vm_compute in (bool_decide P) in
             change (bool_decide P) with b
         | |- context [String.eqb ?a ?b] =>
             let c := eval vm_compute in (String.eqb a b) in
             change (String.eqb a b) with c
         end;
  cbv iota; cbn [orb].

Lemma supported_cases (algorithm : string) :
  algorithm ∈ supported_algorithms ->
  Exists (fun a => algorithm = a) supported_algorithms.
Proof. intros H. apply Exists_exists. exists algorithm. auto. Qed.

(** X2. When a band role that the algorithm requires is absent from the
    band set (or bound to [None]), the analysis returns [None].  EVI and
    ARVI require the green band although their formulas do not use it. *)
Theorem analyze_missing_band_returns_none
    (get_cmap : string -> option (float -> list float))
    (image_bands : gmap string (ndarray float))
    (algorithm colormap role : string) :
  algorithm ∈ supported_algorithms ->
  role ∈ required_bands algorithm ->
  image_bands !! role = None ->
  analyze_vegetation_comprehensive get_cmap image_bands algorithm colormap
  = Ok None.
Proof.
  intros Ha Hr Hb. unfold supported_algorithms in Ha.
  unfold analyze_vegetation_comprehensive, analyze_try.
  repeat (apply elem_of_cons in Ha; destruct Ha as [->|Ha]);
    try (inversion Ha; fail);
    (destruct (VEGETATION_ALGORITHMS !! _) as [f|]; [|reflexivity]);
    vm_compute in Hr;
    repeat (apply elem_of_cons in Hr; destruct Hr as [->|Hr]);
    try (inversion Hr; fail);
    eval_conditions; rewrite Hb;
    repeat match goal with
           | |- context [image_bands !! ?k] => destruct (image_bands !! k)
           end; reflexivity.
Qed.

Lemma analyze_missing_band_returns_none_witness :
  analyze_vegetation_comprehensive (fun _ => None)
    (<["red" := mk_array [1%nat; 1%nat] [of_Z 1]]>
       (<["blue" := mk_array [1%nat; 1%nat] [of_Z 1]]>
          (<["nir" := mk_array [1%nat; 1%nat] [of_Z 1]]> ∅)))
    "evi" "rdylgn" = Ok None.
Proof.
  apply (analyze_missing_band_returns_none _ _ "evi" "rdylgn" "green").
  - apply (bool_decide_unpack _). vm_compute. exact I.
  - apply (bool_decide_unpack _). vm_compute. exact I.
  - vm_compute. reflexivity.
Defined.

Lemma supported_lookup (algorithm : string) (f : index_function) :
  VEGETATION_ALGORITHMS !! algorithm = Some f ->
  algorithm ∈ supported_algorithms.
Proof.
  intros H. destruct (decide (algorithm ∈ supported_algorithms)) as [|Hn];
    [assumption|].
  rewrite (unsupported_lookup _ Hn) in H. discriminate H.
Qed.

Lemma statistics_nonempty (data : ndarray float) (s : Statistics) :
  index_statistics data = Ok s -> elems data <> [].
Proof.
  intros H E. unfold index_statistics, np_nanmin in H. rewrite E in H.
  discriminate H.
Qed.

(** X3. A returned analysis is consistent: the algorithm is one of the
    fourteen supported ones, the names are those requested, the index
    array is not empty, the statistics are those of the index array and
    the image is the colour mapping of the index array over its own
    value range. *)
Theorem analysis_result_consistent
    (get_cmap : string -> option (float -> list float))
    (image_bands : gmap string (ndarray float))
    (algorithm colormap : string) (a : Analysis) :
  analyze_vegetation_comprehensive get_cmap image_bands algorithm colormap
  = Ok (Some a) ->
  algorithm ∈ supported_algorithms /\
  algorithm_name a = algorithm /\
  colormap_name a = colormap /\
  elems (analysis_data a) <> [] /\
  index_statistics (analysis_data a) = Ok (statistics a) /\
  apply_colormap get_cmap (Some (analysis_data a)) colormap None None
  = Ok (colored_image a).
Proof.
  unfold analyze_vegetation_comprehensive, analyze_try. intros H.
  destruct (VEGETATION_ALGORITHMS !! algorithm) as [f|] eqn:Ef;
    [|discriminate H].
  match type of H with
  | context [try_except (mbind _ ?r)] =>
      destruct r as [an|e] eqn:E; [|discriminate H]
  end.
  cbn [mbind outcome_bind try_except] in H. injection H as ->.
  match type of E with
  | mbind _ ?r = _ => destruct r as [data|e]; [|discriminate E]
  end.
  cbn [mbind outcome_bind] in E.
  destruct (apply_colormap get_cmap (Some data) colormap None None)
    as [img|e] eqn:Ec; [|discriminate E].
  cbn [mbind outcome_bind] in E.
  destruct (index_statistics data) as [st|e] eqn:Es; [|discriminate E].
  cbn [mbind outcome_bind] in E. injection E as <-.
  cbn [analysis_data colored_image statistics algorithm_name colormap_name].
  repeat split; eauto using supported_lookup, statistics_nonempty.
Qed.

Lemma analysis_result_consistent_witness :
  exists a : Analysis,
    analyze_vegetation_comprehensive (fun _ => None)
      (<["red" := mk_array [1%nat; 2%nat] [of_Z 100; of_Z 0]]>
         (<["nir" := mk_array [1%nat; 2%nat] [of_Z 150; of_Z 65535]]> ∅))
      "ndvi" "rdylgn" = Ok (Some a) /\
    algorithm_name a = "ndvi"%string /\
    index_statistics (analysis_data a) = Ok (statistics a).
Proof.
  destruct (analyze_vegetation_comprehensive (fun _ => None)
      (<["red" := mk_array [1%nat; 2%nat] [of_Z 100; of_Z 0]]>
         (<["nir" := mk_array [1%nat; 2%nat] [of_Z 150; of_Z 65535]]> ∅))
      "ndvi" "rdylgn") as [[a|]|e] eqn:E;
    [ | vm_compute in E; discriminate E ..].
  exists a. split; [reflexivity|].
  destruct (analysis_result_consistent _ _ _ _ _ E) as (_ & Hn & _ & _ & Hs & _).
  split; assumption.
Defined.

(** X4. The analysis reads only the band roles its algorithm requires:
    adding or replacing any other band leaves the outcome unchanged.  In
    particular GNDVI does not read the green band (it is computed from
    the red and near-infrared bands), and every role outside red, green,
    blue and nir is ignored. *)
Theorem analyze_reads_only_required_bands
    (get_cmap : string -> option (float -> list float))
    (image_bands : gmap string (ndarray float))
    (algorithm colormap role : string) (band : ndarray float) :
  algorithm ∈ supported_algorithms ->
  role ∉ required_bands algorithm ->
  analyze_vegetation_comprehensive get_cmap (<[role := band]> image_bands)
    algorithm colormap
  = analyze_vegetation_comprehensive get_cmap image_bands algorithm colormap.
Proof.
  intros Ha Hr. unfold supported_algorithms in Ha.
  unfold analyze_vegetation_comprehensive, analyze_try.
  repeat (apply elem_of_cons in Ha; destruct Ha as [->|Ha]);
    try (inversion Ha; fail);
    (destruct (VEGETATION_ALGORITHMS !! _) as [f|]; [|reflexivity]);
    vm_compute in Hr;
    repeat (apply not_elem_of_cons in Hr; destruct Hr as [? Hr]);
    eval_conditions;
    rewrite !lookup_insert_ne by assumption; reflexivity.
Qed.

Lemma analyze_reads_only_required_bands_witness :
  let bands : gmap string (ndarray float) :=
    <["red" := mk_array [1%nat; 1%nat] [of_Z 2]]>
      (<["nir" := mk_array [1%nat; 1%nat] [of_Z 6]]> ∅) in
  analyze_vegetation_comprehensive (fun _ => None)
    (<["green" := mk_array [1%nat; 1%nat] [of_Z 4]]> bands) "gndvi" "rdylgn"
  = analyze_vegetation_comprehensive (fun _ => None) bands "gndvi" "rdylgn".
Proof.
  intros bands.
  apply (analyze_reads_only_required_bands _ bands "gndvi" "rdylgn" "green").
  - apply (bool_decide_unpack _). vm_compute. exact I.
  - apply (bool_decide_unpack _). vm_compute. exact I.
Defined.

(** ** Indices without a guard, indices with NaN substitution *)

Lemma ndwi_same_shape (green nir : ndarray float) :
  wf green -> wf nir -> shape green = shape nir ->
  calculate_ndwi_advanced green nir
  = Ok (mk_array (shape green)
                 (zip_with ndwi_pixel (elems green) (elems nir))).
Proof.
  intros Hg Hn Hs. unfold calculate_ndwi_advanced, np_add, np_sub, np_div,
    nan_where_zero, np_where_scalar_l.
  do 4 array_step (shape green).
  f_equal. f_equal. cbn [elems eq_scalar map_array].
  pointwise.
Qed.

Lemma ndwi_pixel_zero (g n : float) :
  is_zero g = true -> is_zero n = true -> ndwi_pixel g n = nan.
Proof.
  destruct g as [[]| | |]; try discriminate;
    destruct n as [[]| | |]; try discriminate; reflexivity.
Qed.

Lemma zip_with_all {A B C : Type} (f : A -> B -> C) (P : A -> Prop)
    (Q : B -> Prop) (c : C) (l : list A) (k : list B) :
  (forall x y, P x -> Q y -> f x y = c) ->
  Forall P l -> Forall Q k -> length l = length k ->
  zip_with f l k = repeat c (length l).
Proof.
  intros Hf Hl. revert k.
  induction Hl as [|x l Hx Hl IH]; intros k Hk Hlen.
  - reflexivity.
  - destruct k as [|y k]; [discriminate Hlen|].
    inversion Hk; subst. cbn [zip_with length repeat].
    rewrite (Hf x y) by assumption.
    f_equal. apply IH; [assumption|]. simpl in Hlen. lia.
Qed.

Lemma lookup_ndwi :
  VEGETATION_ALGORITHMS !! "ndwi"%string = Some (Bands2 calculate_ndwi_advanced).
Proof. reflexivity. Qed.

(** X5. NDWI of a scene that is zero in the green and near-infrared bands:
    every denominator is zero and replaced by NaN, so the analysis
    succeeds with an index array of NaN only, NaN for all five
    statistics and the NaN-valued grey image of the fallback, for every
    palette. *)
Theorem ndwi_of_zero_bands_is_all_nan
    (get_cmap : string -> option (float -> list float))
    (image_bands : gmap string (ndarray float))
    (green nir : ndarray float) (colormap : string) :
  image_bands !! "green"%string = Some green ->
  image_bands !! "nir"%string = Some nir ->
  wf green -> wf nir -> shape green = shape nir -> size green <> 0%nat ->
  Forall (fun x => is_zero x = true) (elems green) ->
  Forall (fun x => is_zero x = true) (elems nir) ->
  analyze_vegetation_comprehensive get_cmap image_bands "ndwi" colormap
  = Ok (Some (mk_analysis
                (mk_array (shape green) (repeat nan (size green)))
                (mk_array (shape green ++ [3%nat])
                          (repeat nan (3 * size green)))
                (mk_stats nan nan nan nan nan) "ndwi" colormap)).
Proof.
  intros Hbg Hbn Hg Hn Hs Hne Hzg Hzn.
  unfold analyze_vegetation_comprehensive, analyze_try.
  rewrite lookup_ndwi. eval_conditions. rewrite Hbg, Hbn. cbn [call2].
  rewrite ndwi_same_shape by assumption.
  rewrite (zip_with_all ndwi_pixel _ _ nan _ _ ndwi_pixel_zero Hzg Hzn)
    by (unfold wf, size in *; congruence).
  cbn [mbind outcome_bind].
  assert (Hlen : length (elems green) = size green)
    by (unfold wf in Hg; exact Hg).
  rewrite Hlen.
  set (data := mk_array (shape green) (repeat nan (size green))).
  assert (Hall : Forall (fun x => is_nan x = true) (elems data)).
  { cbn [data elems]. generalize (size green). intros k.
    induction k; constructor; [reflexivity | assumption]. }
  assert (Hwf : wf data).
  { unfold wf, size. cbn [data elems shape]. rewrite repeat_length.
    reflexivity. }
  assert (Hsz : size data <> 0%nat) by exact Hne.
  destruct (colormap_all_nan get_cmap data colormap None None Hwf Hsz Hall)
    as [_ ->].
  cbn [mbind outcome_bind].
  rewrite statistics_all_nan; [|cbn [data elems]|assumption].
  - cbn [mbind outcome_bind try_except data elems shape].
    rewrite repeat_length. reflexivity.
  - destruct (size green); [congruence|discriminate].
Qed.

Lemma ndwi_of_zero_bands_is_all_nan_witness :
  let dark := mk_array [1%nat; 2%nat] [of_Z 0; of_Z 0] in
  analyze_vegetation_comprehensive (fun _ => None)
    (<["green" := dark]> (<["nir" := dark]> ∅)) "ndwi" "viridis"
  = Ok (Some (mk_analysis
                (mk_array [1%nat; 2%nat] [nan; nan])
                (mk_array [1%nat; 2%nat; 3%nat] [nan; nan; nan; nan; nan; nan])
                (mk_stats nan nan nan nan nan) "ndwi" "viridis")).
Proof.
  intros dark.
  apply (ndwi_of_zero_bands_is_all_nan (fun _ => None) _ dark dark "viridis");
    try reflexivity; try (intros E; discriminate E);
    repeat constructor.
Defined.

Lemma gci_same_shape (red green nir : ndarray float) :
  wf green -> wf nir -> shape green = shape nir ->
  calculate_gci_advanced red green nir
  = Ok (mk_array (shape green)
                 (zip_with gci_pixel (elems green) (elems nir))).
Proof.
  intros Hg Hn Hs. unfold calculate_gci_advanced, np_div.
  array_step (shape green).
  f_equal. unfold sub_scalar, map_array. cbn [shape elems]. f_equal.
  unfold gci_pixel. pointwise.
Qed.

(** X6. The green coverage index divides by the green band without any
    guard and does not use its red argument: for green and
    near-infrared bands of one shape the value at a pixel is
    nir / green - 1; where green is zero it is infinite for a finite
    non-zero near-infrared value and NaN for a zero one. *)
Theorem gci_divides_by_green_unguarded (red green nir : ndarray float) :
  wf green -> wf nir -> shape green = shape nir ->
  calculate_gci_advanced red green nir
  = Ok (mk_array (shape green)
                 (zip_with gci_pixel (elems green) (elems nir))) /\
  (forall g n : float,
     is_zero g = true -> is_finite n = true -> is_zero n = false ->
     is_finite (gci_pixel g n) = false /\ is_nan (gci_pixel g n) = false) /\
  (forall g n : float,
     is_zero g = true -> is_zero n = true -> gci_pixel g n = nan).
Proof.
  intros Hg Hn Hs. split; [apply gci_same_shape; assumption|]. split.
  - intros g n Hz Hf Hnz.
    destruct g as [sg| | |]; try discriminate Hz.
    destruct n as [sn| | |sn m e]; try discriminate Hf; try discriminate Hnz.
    destruct sg, sn; split; reflexivity.
  - intros g n Hz Hnz.
    destruct g as [[]| | |]; try discriminate Hz;
      destruct n as [[]| | |]; try discriminate Hnz; reflexivity.
Qed.

Lemma gci_divides_by_green_unguarded_witness :
  calculate_gci_advanced (mk_array [] [])
    (mk_array [1%nat; 2%nat] [of_Z 0; of_Z 0])
    (mk_array [1%nat; 2%nat] [of_Z 3; of_Z 0])
  = Ok (mk_array [1%nat; 2%nat] [S754_infinity false; nan]).
Proof.
  refine (proj1 (gci_divides_by_green_unguarded (mk_array [] [])
                   (mk_array [1%nat; 2%nat] [of_Z 0; of_Z 0])
                   (mk_array [1%nat; 2%nat] [of_Z 3; of_Z 0]) _ _ _));
    reflexivity.
Defined.

Lemma msavi_same_shape (red nir : ndarray float) :
  wf red -> wf nir -> shape red = shape nir ->
  calculate_msavi_advanced red nir
  = Ok (mk_array (shape red)
                 (zip_with msavi_pixel (elems red) (elems nir))).
Proof.
  intros Hr Hn Hs. unfold calculate_msavi_advanced, np_sub.
  do 3 array_step (shape red).
  f_equal. unfold div_scalar, map_array. cbn [shape elems]. f_equal.
  unfold msavi_pixel, msavi_radicand.
  cbn [elems add_scalar scalar_mul np_square np_sqrt map_array].
  rewrite <- !list_fmap_compose.
  pointwise.
Qed.

(** X7. MSAVI takes a square root without any guard: for red and
    near-infrared bands of one shape the value at a pixel is
    (2 nir + 1 - sqrt ((2 nir + 1)^2 - 8 (nir - red))) / 2, and wherever
    the radicand is negative the index is NaN. *)
Theorem msavi_negative_radicand_is_nan (red nir : ndarray float) :
  wf red -> wf nir -> shape red = shape nir ->
  calculate_msavi_advanced red nir
  = Ok (mk_array (shape red)
                 (zip_with msavi_pixel (elems red) (elems nir))) /\
  (forall r n : float,
     is_negative (msavi_radicand r n) = true -> msavi_pixel r n = nan).
Proof.
  intros Hr Hn Hs. split; [apply msavi_same_shape; assumption|].
  intros r n H. unfold msavi_pixel.
  destruct (msavi_radicand r n) as [| [] | | [] m e]; try discriminate H;
    destruct (of_Z 2 * n + of_Z 1)%f64; reflexivity.
Qed.

Lemma msavi_negative_radicand_is_nan_witness :
  calculate_msavi_advanced (mk_array [1%nat; 1%nat] [of_Z (-1)])
                           (mk_array [1%nat; 1%nat] [of_Z 1])
  = Ok (mk_array [1%nat; 1%nat] [nan]).
Proof.
  refine (proj1 (msavi_negative_radicand_is_nan
                   (mk_array [1%nat; 1%nat] [of_Z (-1)])
                   (mk_array [1%nat; 1%nat] [of_Z 1]) _ _ _));
    reflexivity.
Defined.

(** ** The colour mapper: failures and fallback *)

(** X8. The colour mapper is not total: without data ([None]) and on an
    array without elements the fallback of its handler fails as well, and
    the exception reaches the caller. *)
Theorem colormap_raises_without_pixels
    (get_cmap : string -> option (float -> list float))
    (colormap : string) (min_val max_val : option float) :
  (exists e : exn,
     apply_colormap get_cmap None colormap min_val max_val = Raise e) /\
  (forall s : list nat,
     numel s = 0%nat ->
     exists msg : string,
       apply_colormap get_cmap (Some (mk_array s [])) colormap min_val max_val
       = Raise (ValueError msg)).
Proof.
  split.
  - eexists. reflexivity.
  - intros s Hs. apply colormap_empty_array_raises. assumption.
Qed.

(** X9. With a palette name that matplotlib does not know, or with the
    fixed palette on an array of fewer than two axes, the colour mapper
    returns the grey image of its handler: three equal channels per
    element, the value scaled between the minimum and maximum of the data
    itself; a requested display range is ignored. *)
Theorem colormap_fallback_is_gray
    (get_cmap : string -> option (float -> list float))
    (data : ndarray float) (colormap : string) (min_val max_val : option float) :
  elems data <> [] ->
  (String.eqb colormap "rdylgn" = false /\ get_cmap colormap = None) \/
  (colormap = "rdylgn"%string /\ (length (shape data) < 2)%nat) ->
  exists lo hi : float,
    np_nanmin data = Ok lo /\ np_nanmax data = Ok hi /\
    apply_colormap get_cmap (Some data) colormap min_val max_val
    = Ok (mk_array (shape data ++ [3%nat])
            (flat_map (fun x => [gray_level lo hi x; gray_level lo hi x;
                                 gray_level lo hi x])
                      (elems data))).
Proof. apply colormap_fallback_image. Qed.

Lemma colormap_fallback_is_gray_witness :
  apply_colormap (fun _ => None)
    (Some (mk_array [1%nat; 3%nat] [of_Z 2; of_Z 4; of_Z 6])) "nosuchmap"
    (Some (of_Z 0)) (Some (of_Z 100))
  = Ok (mk_array [1%nat; 3%nat; 3%nat]
          [of_Z 0; of_Z 0; of_Z 0;
           decimal 5 1; decimal 5 1; decimal 5 1;
           of_Z 1; of_Z 1; of_Z 1]).
Proof.
  destruct (colormap_fallback_is_gray (fun _ => None)
              (mk_array [1%nat; 3%nat] [of_Z 2; of_Z 4; of_Z 6]) "nosuchmap"
              (Some (of_Z 0)) (Some (of_Z 100)))
    as (lo & hi & Hlo & Hhi & H).
  - intros E. discriminate E.
  - left. split; reflexivity.
  - injection Hlo as <-. injection Hhi as <-. exact H.
Defined.

(** ** The fixed palette *)

Lemma fold_fmin_constant (c : float) (l : list float) :
  is_nan c = false -> Forall (fun x => x = c) l -> fold_left fmin l c = c.
Proof.
  intros Hc Hl. induction Hl as [|x l -> _ IH]; [reflexivity|].
  cbn [fold_left]. unfold fmin at 2. rewrite Hc, orb_false_r.
  destruct (leb c c); exact IH.
Qed.

Lemma fold_fmax_constant (c : float) (l : list float) :
  is_nan c = false -> Forall (fun x => x = c) l -> fold_left fmax l c = c.
Proof.
  intros Hc Hl. induction Hl as [|x l -> _ IH]; [reflexivity|].
  cbn [fold_left]. unfold fmax at 2. rewrite Hc, orb_false_r.
  destruct (leb c c); exact IH.
Qed.

Lemma eqb_refl (c : float) : is_nan c = false -> eqb c c = true.
Proof.
  intros Hc. apply agrees_eqb; [|left; reflexivity].
  exact Hc.
Qed.

(** X10. An image of one constant value (not NaN) is painted in one
    colour, the first colour of the table: minimum and maximum agree, the
    upper bound is widened by 1e-6 and every pixel scales to 0. *)
Theorem colormap_constant_image_is_uniform
    (get_cmap : string -> option (float -> list float))
    (data : ndarray float) (h w : nat) (c : float) :
  wf data -> shape data = [h; w] -> elems data <> [] ->
  is_nan c = false -> Forall (fun x => x = c) (elems data) ->
  apply_colormap get_cmap (Some data) "rdylgn" None None
  = Ok (mk_array [h; w; 3%nat]
          (flat_map (fun _ => [(of_Z 165 / of_Z 255)%f64;
                               (of_Z 0 / of_Z 255)%f64;
                               (of_Z 38 / of_Z 255)%f64])
                    (elems data))).
Proof.
  intros Hw Hs Hne Hc Hall.
  assert (Hr : display_range data None None = Ok (c, (c + decimal 1 6)%f64)).
  { unfold display_range, np_nanmin, np_nanmax.
    destruct (elems data) as [|x l]; [congruence|].
    inversion Hall; subst.
    rewrite fold_fmin_constant, fold_fmax_constant by assumption.
    cbn [mbind outcome_bind]. rewrite eqb_refl by assumption. reflexivity. }
  assert (Hex : Exists (fun x => is_nan x = false) (elems data)).
  { destruct (elems data) as [|x l]; [congruence|].
    inversion Hall; subst. left. assumption. }
  rewrite (colormap_rdylgn_image get_cmap data h w None None _ _ Hw Hs Hex Hr).
  f_equal. f_equal.
  clear - Hc Hall. revert Hall. generalize (elems data). intros l Hall.
  induction Hall as [|x l -> _ IH]; [reflexivity|].
  cbn [flat_map]. rewrite IH. f_equal.
  rewrite lut_index_min_pixel by (apply eqb_refl; assumption).
  reflexivity.
Qed.

Lemma colormap_constant_image_is_uniform_witness :
  exists red green blue : float,
    apply_colormap (fun _ => None)
      (Some (mk_array [1%nat; 2%nat] [decimal 3 1; decimal 3 1])) "rdylgn"
      None None
    = Ok (mk_array [1%nat; 2%nat; 3%nat]
            [red; green; blue; red; green; blue]).
Proof.
  do 3 eexists.
  apply (colormap_constant_image_is_uniform (fun _ => None)
           (mk_array [1%nat; 2%nat] [decimal 3 1; decimal 3 1]) 1 2
           (decimal 3 1)); try reflexivity.
  - intros E. discriminate E.
  - repeat constructor.
Defined.

Lemma lut_colors_within :
  forallb (fun k => forallb (within (of_Z 0) (of_Z 1))
                            (pixel_color (Z.of_nat k)))
          (seq 0 132) = true.
Proof. vm_compute. reflexivity. Qed.

Lemma pixel_color_within (ix : Z) :
  0 <= ix <= 131 ->
  Forall (fun v => within (of_Z 0) (of_Z 1) v = true) (pixel_color ix).
Proof.
  intros Hix. pose proof lut_colors_within as H.
  rewrite forallb_forall in H.
  specialize (H (Z.to_nat ix)).
  rewrite Z2Nat.id in H by lia.
  apply Forall_forall. intros v Hv.
  assert (Hin : In (Z.to_nat ix) (seq 0 132)) by (apply in_seq; lia).
  specialize (H Hin). rewrite forallb_forall in H.
  apply H. apply list_elem_of_In. exact Hv.
Qed.

(** X11. With the fixed palette the image of a two-dimensional array with
    at least one value that is not NaN is a well-formed h x w x 3 array
    whose every channel value lies in [0, 1] (so none is NaN), whatever
    the data and the requested display range are. *)
Theorem colormap_rdylgn_channels_in_unit_interval
    (get_cmap : string -> option (float -> list float))
    (data : ndarray float) (h w : nat) (min_val max_val : option float) :
  wf data -> shape data = [h; w] ->
  Exists (fun x => is_nan x = false) (elems data) ->
  exists img : ndarray float,
    apply_colormap get_cmap (Some data) "rdylgn" min_val max_val = Ok img /\
    shape img = [h; w; 3%nat] /\
    wf img /\
    Forall (fun v => within (of_Z 0) (of_Z 1) v = true) (elems img).
Proof.
  intros Hw Hs Hex.
  assert (Hne : elems data <> []) by (intros E; rewrite E in Hex; inversion Hex).
  destruct (display_range_defined data min_val max_val Hne) as (lo & hi & Hr).
  eexists. split;
    [exact (colormap_rdylgn_image get_cmap data h w _ _ _ _ Hw Hs Hex Hr)|].
  cbn [shape elems]. split; [reflexivity|]. split.
  - unfold wf, size in *. cbn [shape elems]. rewrite Hs in Hw.
    rewrite (flat_map_constant_length (c := 3%nat)) by (intros; reflexivity).
    rewrite Hw. unfold numel. simpl. lia.
  - apply Forall_flat_map. apply Forall_forall. intros x _.
    apply pixel_color_within, lut_index_range.
Qed.

Lemma colormap_rdylgn_channels_in_unit_interval_witness :
  exists img : ndarray float,
    apply_colormap (fun _ => None)
      (Some (mk_array [1%nat; 3%nat] [of_Z (-7); nan; S754_infinity false]))
      "rdylgn" (Some (of_Z 0)) None = Ok img /\
    shape img = [1%nat; 3%nat; 3%nat] /\
    wf img /\
    Forall (fun v => within (of_Z 0) (of_Z 1) v = true) (elems img).
Proof.
  apply (colormap_rdylgn_channels_in_unit_interval (fun _ => None)
           (mk_array [1%nat; 3%nat] [of_Z (-7); nan; S754_infinity false]));
    try reflexivity.
  left. reflexivity.
Defined.

(** ** Histograms: structure and failures *)

Lemma length_chunks {A : Type} (k n : nat) (d : list A) :
  length (chunks k n d) = n.
Proof.
  revert d. induction n as [|n IH]; intros d; [reflexivity|].
  cbn [chunks length]. rewrite IH. reflexivity.
Qed.

Lemma np_linspace_length (start stop : float) (num : nat) :
  (1 <= num)%nat -> length (np_linspace start stop num) = num.
Proof.
  intros H. unfold np_linspace.
  rewrite length_app, length_map, length_seq. simpl. lia.
Qed.

Lemma np_histogram_structure (a : list float) (bins : Z) (r : float * float)
    (h : Histogram) :
  np_histogram a bins r = Ok h ->
  1 <= bins /\
  length (fst h) = Z.to_nat bins /\
  length (snd h) = S (Z.to_nat bins) /\
  Forall (fun c => 0 <= c) (fst h).
Proof.
  unfold np_histogram. destruct (bins <? 1) eqn:Eb; [discriminate|].
  apply Z.ltb_ge in Eb.
  destruct (get_outer_edges r) as [[first_edge last_edge]|e];
    cbn [mbind outcome_bind]; [|discriminate].
  destruct (existsb _ _); [discriminate|].
  intros [= <-]. cbn [fst snd]. split; [assumption|].
  rewrite length_map, length_seq, np_linspace_length by lia.
  repeat split.
  apply Forall_forall. intros c Hc.
  apply list_elem_of_In, in_map_iff in Hc. destruct Hc as (i & <- & _).
  unfold bin_count. lia.
Qed.

Lemma histogram_band_step (bins : Z) (mask : option (ndarray bool))
    (r : option (float * float)) (hs : list Histogram) (b : ndarray float)
    (st : option (float * float) * list Histogram) :
  histogram_band bins mask (r, hs) b = Ok st ->
  exists d r' h,
    apply_mask mask b = Ok d /\
    np_histogram (drop_nan d) bins r' = Ok h /\
    st = (Some r', hs ++ [h]).
Proof.
  destruct r as [r|]; intros H.
  - apply histogram_band_with_range in H.
    destruct H as (d & h & ? & ? & ?). eauto 10.
  - apply histogram_band_without_range in H.
    destruct H as (d & lo & hi & h & ? & ? & ? & ? & ?). eauto 10.
Qed.

Lemma for_each_histograms (bins : Z) (mask : option (ndarray bool))
    (bands : list (ndarray float)) :
  forall (r : option (float * float)) (hs : list Histogram)
         (st : option (float * float) * list Histogram),
    for_each (histogram_band bins mask) bands (r, hs) = Ok st ->
    exists new,
      snd st = hs ++ new /\
      Forall2 (fun b h => exists d r',
                 apply_mask mask b = Ok d /\
                 np_histogram (drop_nan d) bins r' = Ok h)
              bands new.
Proof.
  induction bands as [|b bands IH]; intros r hs st; cbn [for_each].
  - intros [= <-]. exists []. rewrite app_nil_r. split; [reflexivity|constructor].
  - destruct (histogram_band bins mask (r, hs) b) as [st1|e] eqn:E;
      cbn [mbind outcome_bind]; [|discriminate].
    intros H. apply histogram_band_step in E.
    destruct E as (d & r' & h & Hd & Hh & ->).
    apply IH in H. destruct H as (new & -> & HF).
    exists (h :: new). rewrite <- app_assoc. split; [reflexivity|].
    constructor; eauto.
Qed.

Lemma histogram_try_histograms (image_data : ndarray float) (bins : Z)
    (range_values : option (float * float)) (mask : option (ndarray bool))
    (hs : list Histogram) :
  histogram_try image_data bins range_values mask = Ok hs ->
  Forall2 (fun b h => exists d r',
             apply_mask mask b = Ok d /\
             np_histogram (drop_nan d) bins r' = Ok h)
          (if Nat.eqb (length (shape image_data)) 3
           then bands_of image_data else [image_data]) hs.
Proof.
  unfold histogram_try.
  destruct (Nat.eqb (length (shape image_data)) 3).
  - destruct (for_each _ _ _) as [[r' hs']|e] eqn:E;
      cbn [mbind outcome_bind]; [|discriminate].
    intros [= <-]. apply for_each_histograms in E.
    destruct E as (new & E & HF). cbn [snd app] in E. subst. exact HF.
  - destruct (histogram_band _ _ _ _) as [[r1 hs']|e] eqn:E;
      cbn [mbind outcome_bind]; [|discriminate].
    intros [= <-]. apply histogram_band_step in E.
    destruct E as (d & r' & h & Hd & Hh & E). injection E as -> ->.
    cbn [app]. constructor; eauto.
Qed.

Lemma calculate_histogram_some (image_data : ndarray float) (bins : Z)
    (range_values : option (float * float)) (mask : option (ndarray bool))
    (hs : list Histogram) :
  calculate_histogram image_data bins range_values mask = Ok (Some hs) ->
  histogram_try image_data bins range_values mask = Ok hs.
Proof.
  unfold calculate_histogram.
  destruct (histogram_try image_data bins range_values mask);
    cbn [mbind outcome_bind try_except]; congruence.
Qed.

(** X12. A returned list of histograms has one histogram per band (one
    for an array that is not three-dimensional); every histogram has
    [bins] counts, none negative, and [bins + 1] edges, and [bins] is at
    least 1 when the list is not empty. *)
Theorem calculate_histogram_structure (image_data : ndarray float) (bins : Z)
    (range_values : option (float * float)) (mask : option (ndarray bool))
    (hs : list Histogram) :
  calculate_histogram image_data bins range_values mask = Ok (Some hs) ->
  length hs = match shape image_data with
              | [n; _; _] => n
              | _ => 1%nat
              end /\
  Forall (fun h => 1 <= bins /\
                   length (fst h) = Z.to_nat bins /\
                   length (snd h) = S (Z.to_nat bins) /\
                   Forall (fun c => 0 <= c) (fst h)) hs.
Proof.
  intros H. apply calculate_histogram_some, histogram_try_histograms in H.
  split.
  - apply Forall2_length in H. rewrite <- H.
    unfold bands_of.
    destruct (shape image_data) as [|n [|h [|w [|? ?]]]]; try reflexivity.
    cbn [length Nat.eqb]. rewrite length_map, length_chunks. reflexivity.
  - revert H. generalize (if Nat.eqb (length (shape image_data)) 3
                          then bands_of image_data else [image_data]).
    intros l H. induction H as [|b h l hs' (d & r' & _ & Hh) _ IH];
      constructor; [|assumption].
    exact (np_histogram_structure _ _ _ _ Hh).
Qed.

Lemma calculate_histogram_structure_witness :
  exists hs : list Histogram,
    calculate_histogram
      (mk_array [2%nat; 1%nat; 2%nat] [of_Z 0; of_Z 1; of_Z 5; of_Z 9])
      4 None None = Ok (Some hs) /\
    length hs = 2%nat /\
    Forall (fun h => length (fst h) = 4%nat /\ length (snd h) = 5%nat) hs.
Proof.
  destruct (calculate_histogram
              (mk_array [2%nat; 1%nat; 2%nat] [of_Z 0; of_Z 1; of_Z 5; of_Z 9])
              4 None None) as [[hs|]|e] eqn:E;
    [ | vm_compute in E; discriminate E ..].
  exists hs. split; [reflexivity|].
  destruct (calculate_histogram_structure _ _ _ _ _ E) as [Hl HF].
  split; [exact Hl|].
  eapply Forall_impl; [exact HF|].
  intros h (_ & H1 & H2 & _). split; assumption.
Defined.

Lemma np_histogram_raises (a : list float) (bins : Z) (r : float * float) :
  bins < 1 \/ ltb (snd r) (fst r) = true \/
  is_finite (fst r) && is_finite (snd r) = false ->
  exists e, np_histogram a bins r = Raise e.
Proof.
  intros H. unfold np_histogram. destruct (bins <? 1) eqn:Eb; [eauto|].
  apply Z.ltb_ge in Eb. destruct r as [lo hi]. cbn [fst snd] in H.
  unfold get_outer_edges.
  destruct (ltb hi lo) eqn:El; cbn [mbind outcome_bind]; [eauto|].
  destruct H as [H|[H|H]]; [lia|discriminate H|].
  rewrite H. cbn [negb mbind outcome_bind]. eauto.
Qed.

Lemma histogram_band_raises (bins : Z) (mask : option (ndarray bool))
    (range_values : option (float * float)) (hs : list Histogram)
    (b : ndarray float) :
  bins < 1 \/
  (exists r, range_values = Some r /\
             (ltb (snd r) (fst r) = true \/
              is_finite (fst r) && is_finite (snd r) = false)) ->
  exists e, histogram_band bins mask (range_values, hs) b = Raise e.
Proof.
  intros H. unfold histogram_band.
  destruct (apply_mask mask b) as [d|e]; cbn [mbind outcome_bind]; [|eauto].
  destruct range_values as [r|].
  - cbn [mbind outcome_bind].
    destruct (np_histogram_raises (drop_nan d) bins r) as [e ->].
    { destruct H as [H|(r' & [= <-] & H)]; auto. }
    cbn [mbind outcome_bind]. eauto.
  - destruct H as [H|(r' & E & _)]; [|discriminate E].
    destruct (np_min (drop_nan d)) as [lo|e]; cbn [mbind outcome_bind]; [|eauto].
    destruct (np_max (drop_nan d)) as [hi|e]; cbn [mbind outcome_bind]; [|eauto].
    destruct (np_histogram_raises (drop_nan d) bins (lo, hi)) as [e ->];
      [auto|].
    cbn [mbind outcome_bind]. eauto.
Qed.

(** X13. No histogram for a bad request: when at least one band is
    processed, a number of bins below 1, a range whose upper bound is
    below the lower one and a range with a bound that is not finite each
    make [calculate_histogram] return [None]; no exception reaches the
    caller. *)
Theorem calculate_histogram_bad_request (image_data : ndarray float) (bins : Z)
    (range_values : option (float * float)) (mask : option (ndarray bool)) :
  length (shape image_data) <> 3%nat \/ bands_of image_data <> [] ->
  bins < 1 \/
  (exists r, range_values = Some r /\
             (ltb (snd r) (fst r) = true \/
              is_finite (fst r) && is_finite (snd r) = false)) ->
  calculate_histogram image_data bins range_values mask = Ok None.
Proof.
  intros Hb Hr. unfold calculate_histogram, histogram_try.
  destruct (Nat.eqb (length (shape image_data)) 3) eqn:E.
  - apply Nat.eqb_eq in E. destruct Hb as [Hb|Hb]; [congruence|].
    destruct (bands_of image_data) as [|b0 rest]; [congruence|].
    cbn [for_each].
    destruct (histogram_band_raises bins mask range_values [] b0 Hr) as [e ->].
    reflexivity.
  - destruct (histogram_band_raises bins mask range_values [] image_data Hr)
      as [e ->].
    reflexivity.
Qed.

Lemma calculate_histogram_bad_request_witness :
  calculate_histogram (mk_array [1%nat; 2%nat] [of_Z 1; of_Z 2]) 0 None None
  = Ok None /\
  calculate_histogram (mk_array [1%nat; 2%nat] [of_Z 1; of_Z 2]) 8
    (Some (of_Z 5, of_Z 1)) None = Ok None.
Proof.
  split.
  - apply calculate_histogram_bad_request.
    + left. simpl. lia.
    + left. lia.
  - apply calculate_histogram_bad_request.
    + left. simpl. lia.
    + right. eexists. split; [reflexivity|]. left. reflexivity.
Defined.

Lemma drop_nan_none (l : list float) :
  Forall (fun x => is_nan x = true) l -> drop_nan l = [].
Proof.
  induction 1 as [|x l Hx _ IH]; [reflexivity|].
  unfold drop_nan in *. cbn [List.filter]. rewrite Hx. exact IH.
Qed.

Lemma drop_nan_not_nan (l : list float) :
  Forall (fun x => is_nan x = false) (drop_nan l).
Proof.
  induction l as [|x l IH]; [constructor|].
  unfold drop_nan in *. cbn [List.filter].
  destruct (is_nan x) eqn:E; cbn [negb]; [assumption|].
  constructor; assumption.
Qed.

Lemma drop_nan_keeps (l : list float) (x : float) :
  is_nan x = false -> x ∈ l -> x ∈ drop_nan l.
Proof.
  intros Hx Hin. apply list_elem_of_In. apply filter_In.
  split; [apply list_elem_of_In; assumption|]. rewrite Hx. reflexivity.
Qed.

Lemma minimum_not_nan (a b : float) :
  is_nan a = false -> is_nan b = false -> is_nan (minimum a b) = false.
Proof. intros Ha Hb. unfold minimum. destruct (leb a b || is_nan a); assumption. Qed.

Lemma maximum_not_nan (a b : float) :
  is_nan a = false -> is_nan b = false -> is_nan (maximum a b) = false.
Proof. intros Ha Hb. unfold maximum. destruct (leb b a || is_nan a); assumption. Qed.

Lemma fold_minimum_infinite (l : list float) :
  Forall (fun x => is_nan x = false) l ->
  fold_left minimum l (S754_infinity true) = S754_infinity true.
Proof.
  induction 1 as [|x l Hx _ IH]; [reflexivity|].
  cbn [fold_left].
  replace (minimum (S754_infinity true) x) with (S754_infinity true);
    [exact IH|].
  destruct x as [?|[]| |[] ? ?]; try discriminate Hx; reflexivity.
Qed.

Lemma fold_maximum_infinite (l : list float) :
  Forall (fun x => is_nan x = false) l ->
  fold_left maximum l (S754_infinity false) = S754_infinity false.
Proof.
  induction 1 as [|x l Hx _ IH]; [reflexivity|].
  cbn [fold_left].
  replace (maximum (S754_infinity false) x) with (S754_infinity false);
    [exact IH|].
  destruct x as [?|[]| |[] ? ?]; try discriminate Hx; reflexivity.
Qed.

Lemma fold_minimum_reaches_infinity (l : list float) :
  Forall (fun x => is_nan x = false) l ->
  forall a, is_nan a = false ->
  S754_infinity true ∈ a :: l ->
  fold_left minimum l a = S754_infinity true.
Proof.
  induction 1 as [|x l Hx Hl IH]; intros a Ha Hin.
  - apply list_elem_of_singleton in Hin. subst. reflexivity.
  - cbn [fold_left]. apply elem_of_cons in Hin. destruct Hin as [<-|Hin].
    + replace (minimum (S754_infinity true) x) with (S754_infinity true).
      * apply fold_minimum_infinite. assumption.
      * destruct x as [?|[]| |[] ? ?]; try discriminate Hx; reflexivity.
    + apply IH; [apply minimum_not_nan; assumption|].
      apply elem_of_cons in Hin. destruct Hin as [<-|Hin].
      * apply elem_of_cons. left.
        destruct a as [?|[]| |[] ? ?]; try discriminate Ha; reflexivity.
      * apply elem_of_cons. right. assumption.
Qed.

Lemma fold_maximum_reaches_infinity (l : list float) :
  Forall (fun x => is_nan x = false) l ->
  forall a, is_nan a = false ->
  S754_infinity false ∈ a :: l ->
  fold_left maximum l a = S754_infinity false.
Proof.
  induction 1 as [|x l Hx Hl IH]; intros a Ha Hin.
  - apply list_elem_of_singleton in Hin. subst. reflexivity.
  - cbn [fold_left]. apply elem_of_cons in Hin. destruct Hin as [<-|Hin].
    + replace (maximum (S754_infinity false) x) with (S754_infinity false).
      * apply fold_maximum_infinite. assumption.
      * destruct x as [?|[]| |[] ? ?]; try discriminate Hx; reflexivity.
    + apply IH; [apply maximum_not_nan; assumption|].
      apply elem_of_cons in Hin. destruct Hin as [<-|Hin].
      * apply elem_of_cons. left.
        destruct a as [?|[]| |[] ? ?]; try discriminate Ha; reflexivity.
      * apply elem_of_cons. right. assumption.
Qed.

Lemma histogram_band_unusable_data (bins : Z) (hs : list Histogram)
    (b : ndarray float) :
  Forall (fun x => is_nan x = true) (elems b) \/
  (exists s, S754_infinity s ∈ elems b) ->
  exists e, histogram_band bins None (None, hs) b = Raise e.
Proof.
  intros H. unfold histogram_band. cbn [apply_mask mbind outcome_bind].
  destruct H as [H|[s H]].
  - rewrite (drop_nan_none _ H). cbn [np_min mbind outcome_bind]. eauto.
  - pose proof (drop_nan_not_nan (elems b)) as Hn.
    apply (drop_nan_keeps (elems b) (S754_infinity s) eq_refl) in H.
    destruct (drop_nan (elems b)) as [|x l] eqn:E.
    { apply elem_of_nil in H. destruct H. }
    inversion Hn as [|? ? Hx Hl]; subst.
    cbn [np_min np_max mbind outcome_bind].
    destruct (np_histogram_raises (x :: l) bins
                (fold_left minimum l x, fold_left maximum l x)) as [e ->];
      [|cbn [mbind outcome_bind]; eauto].
    right. right. cbn [fst snd].
    destruct s.
    + rewrite (fold_minimum_reaches_infinity l Hl x Hx H). reflexivity.
    + rewrite (fold_maximum_reaches_infinity l Hl x Hx H).
      apply andb_false_r.
Qed.

(** X14. Without a range and without a mask, a first band that holds no
    value other than NaN, or that holds an infinite value, makes
    [calculate_histogram] return [None]: the minimum and maximum of the
    band are undefined or not finite. *)
Theorem calculate_histogram_unusable_first_band (image_data : ndarray float)
    (bins : Z) (b0 : ndarray float) :
  (length (shape image_data) = 3%nat /\
   exists rest, bands_of image_data = b0 :: rest) \/
  (length (shape image_data) <> 3%nat /\ b0 = image_data) ->
  Forall (fun x => is_nan x = true) (elems b0) \/
  (exists s, S754_infinity s ∈ elems b0) ->
  calculate_histogram image_data bins None None = Ok None.
Proof.
  intros Hb Hd. unfold calculate_histogram, histogram_try.
  destruct (histogram_band_unusable_data bins [] b0 Hd) as [e He].
  destruct Hb as [[Hr [rest Hb]]|[Hr ->]].
  - rewrite Hr, Hb. cbn [Nat.eqb for_each]. rewrite He. reflexivity.
  - apply Nat.eqb_neq in Hr. rewrite Hr, He. reflexivity.
Qed.

Lemma calculate_histogram_unusable_first_band_witness :
  calculate_histogram
    (mk_array [2%nat; 1%nat; 2%nat] [nan; nan; of_Z 5; of_Z 9]) 4 None None
  = Ok None /\
  calculate_histogram
    (mk_array [1%nat; 3%nat] [of_Z 1; S754_infinity false; of_Z 2]) 4 None None
  = Ok None.
Proof.
  split.
  - apply (calculate_histogram_unusable_first_band _ _
             (mk_array [1%nat; 2%nat] [nan; nan])).
    + left. split; [reflexivity|]. eexists. reflexivity.
    + left. repeat constructor.
  - apply (calculate_histogram_unusable_first_band _ _
             (mk_array [1%nat; 3%nat] [of_Z 1; S754_infinity false; of_Z 2])).
    + right. split; [simpl; lia | reflexivity].
    + right. exists false. cbn [elems]. right. left.
Defined.

Lemma histogram_band_first_range (bins : Z) (mask : option (ndarray bool))
    (hs : list Histogram) (b : ndarray float) (d : list float) (lo hi : float) :
  apply_mask mask b = Ok d ->
  np_min (drop_nan d) = Ok lo -> np_max (drop_nan d) = Ok hi ->
  histogram_band bins mask (None, hs) b
  = histogram_band bins mask (Some (lo, hi), hs) b.
Proof.
  intros Hd Hlo Hhi. unfold histogram_band. rewrite Hd.
  cbn [mbind outcome_bind]. rewrite Hlo, Hhi. reflexivity.
Qed.

(** X15. Omitting the range of a multi-band request is the same as
    passing the minimum and maximum of the first band (NaN dropped, mask
    applied) as the range for all bands: the later bands are not given
    ranges of their own. *)
Theorem calculate_histogram_default_range (image_data : ndarray float)
    (bins : Z) (mask : option (ndarray bool))
    (b0 : ndarray float) (rest : list (ndarray float))
    (d0 : list float) (lo hi : float) :
  length (shape image_data) = 3%nat ->
  bands_of image_data = b0 :: rest ->
  apply_mask mask b0 = Ok d0 ->
  np_min (drop_nan d0) = Ok lo -> np_max (drop_nan d0) = Ok hi ->
  calculate_histogram image_data bins None mask
  = calculate_histogram image_data bins (Some (lo, hi)) mask.
Proof.
  intros Hr Hb Hd Hlo Hhi. unfold calculate_histogram, histogram_try.
  rewrite Hr, Hb. cbn [Nat.eqb for_each].
  rewrite (histogram_band_first_range bins mask [] b0 d0 lo hi Hd Hlo Hhi).
  reflexivity.
Qed.

Lemma calculate_histogram_default_range_witness :
  calculate_histogram
    (mk_array [2%nat; 1%nat; 2%nat] [of_Z 0; of_Z 1; of_Z 5; of_Z 9]) 2
    None None
  = calculate_histogram
      (mk_array [2%nat; 1%nat; 2%nat] [of_Z 0; of_Z 1; of_Z 5; of_Z 9]) 2
      (Some (of_Z 0, of_Z 1)) None.
Proof.
  apply (calculate_histogram_default_range _ 2 None
           (mk_array [1%nat; 2%nat] [of_Z 0; of_Z 1])
           [mk_array [1%nat; 2%nat] [of_Z 5; of_Z 9]]
           [of_Z 0; of_Z 1]); reflexivity.
Defined.

(** ** The analysis entry point: success *)

Lemma has_shape_nonempty {A : Type} (s : list nat) (a : ndarray A) :
  has_shape s a -> numel s <> 0%nat -> elems a <> [].
Proof. intros [_ Hl] Hn E. rewrite E in Hl. simpl in Hl. congruence. Qed.

Lemma apply_colormap_defined
    (get_cmap : string -> option (float -> list float))
    (data : ndarray float) (colormap : string) (min_val max_val : option float) :
  elems data <> [] ->
  exists img, apply_colormap get_cmap (Some data) colormap min_val max_val
              = Ok img.
Proof.
  intros Hne. unfold apply_colormap.
  destruct (colormap_try _ _ _ _ _); cbn [try_except]; [eauto|].
  destruct (nanmin_defined data Hne) as (lo & hi & Hlo & Hhi).
  unfold grayscale_fallback. rewrite Hlo, Hhi. cbn [mbind outcome_bind]. eauto.
Qed.

Lemma index_statistics_defined (data : ndarray float) :
  elems data <> [] -> exists st, index_statistics data = Ok st.
Proof.
  intros Hne. destruct (nanmin_defined data Hne) as (lo & hi & Hlo & Hhi).
  unfold index_statistics. rewrite Hlo, Hhi. cbn [mbind outcome_bind]. eauto.
Qed.

(** An index function applied to bands of the shape [s]. *)
Ltac index_has_shape s :=
  intros;
  unfold calculate_gli_advanced, calculate_vari_advanced,
    calculate_ndwi_advanced, calculate_savi_advanced, calculate_evi_advanced,
    calculate_tgi_advanced, calculate_msavi_advanced,
    calculate_osavi_advanced, calculate_rdvi_advanced,
    calculate_gndvi_advanced, calculate_cvi_advanced,
    calculate_arvi_advanced, calculate_gci_advanced,
    np_add, np_sub, np_mul, np_div, nan_where_zero, np_where_scalar_l;
  repeat array_step s;
  eexists; split; [reflexivity | autounfold with shapes; auto 12 with shapes].

Lemma ndvi_has_shape (s : list nat) (r n : ndarray float) :
  has_shape s r -> has_shape s n ->
  exists out, calculate_ndvi_advanced (Some r) (Some n) = Ok out /\
              has_shape s out.
Proof.
  intros [Hsr Hr] [Hsn Hn]. unfold calculate_ndvi_advanced.
  rewrite ndvi_try_same_shape by (unfold wf, size; congruence).
  cbn [try_except]. eexists. split; [reflexivity|].
  rewrite Hsr. apply has_shape_zip_with; split; assumption.
Qed.

Lemma gli_has_shape (s : list nat) (r g b : ndarray float) :
  has_shape s r -> has_shape s g -> has_shape s b ->
  exists out, calculate_gli_advanced r g b = Ok out /\ has_shape s out.
Proof. index_has_shape s. Qed.

Lemma vari_has_shape (s : list nat) (r g b : ndarray float) :
  has_shape s r -> has_shape s g -> has_shape s b ->
  exists out, calculate_vari_advanced r g b = Ok out /\ has_shape s out.
Proof. index_has_shape s. Qed.

Lemma ndwi_has_shape (s : list nat) (g n : ndarray float) :
  has_shape s g -> has_shape s n ->
  exists out, calculate_ndwi_advanced g n = Ok out /\ has_shape s out.
Proof. index_has_shape s. Qed.

Lemma savi_has_shape (s : list nat) (r n : ndarray float) (l : float) :
  has_shape s r -> has_shape s n ->
  exists out, calculate_savi_advanced r n l = Ok out /\ has_shape s out.
Proof. index_has_shape s. Qed.

Lemma evi_has_shape (s : list nat) (r n b : ndarray float) :
  has_shape s r -> has_shape s n -> has_shape s b ->
  exists out, calculate_evi_advanced r n b = Ok out /\ has_shape s out.
Proof. index_has_shape s. Qed.

Lemma tgi_has_shape (s : list nat) (r g b : ndarray float) :
  has_shape s r -> has_shape s g -> has_shape s b ->
  exists out, calculate_tgi_advanced r g b = Ok out /\ has_shape s out.
Proof. index_has_shape s. Qed.

Lemma msavi_has_shape (s : list nat) (r n : ndarray float) :
  has_shape s r -> has_shape s n ->
  exists out, calculate_msavi_advanced r n = Ok out /\ has_shape s out.
Proof. index_has_shape s. Qed.

Lemma osavi_has_shape (s : list nat) (r n : ndarray float) (y : float) :
  has_shape s r -> has_shape s n ->
  exists out, calculate_osavi_advanced r n y = Ok out /\ has_shape s out.
Proof. index_has_shape s. Qed.

Lemma rdvi_has_shape (s : list nat) (r n : ndarray float) :
  has_shape s r -> has_shape s n ->
  exists out, calculate_rdvi_advanced r n = Ok out /\ has_shape s out.
Proof. index_has_shape s. Qed.

Lemma gndvi_has_shape (s : list nat) (g n : ndarray float) :
  has_shape s g -> has_shape s n ->
  exists out, calculate_gndvi_advanced g n = Ok out /\ has_shape s out.
Proof. index_has_shape s. Qed.

Lemma cvi_has_shape (s : list nat) (r g n : ndarray float) :
  has_shape s r -> has_shape s g -> has_shape s n ->
  exists out, calculate_cvi_advanced r g n = Ok out /\ has_shape s out.
Proof. index_has_shape s. Qed.

Lemma arvi_has_shape (s : list nat) (r n b : ndarray float) :
  has_shape s r -> has_shape s n -> has_shape s b ->
  exists out, calculate_arvi_advanced r n b = Ok out /\ has_shape s out.
Proof. index_has_shape s. Qed.

Lemma gci_has_shape (s : list nat) (r g n : ndarray float) :
  has_shape s g -> has_shape s n ->
  exists out, calculate_gci_advanced r g n = Ok out /\ has_shape s out.
Proof. index_has_shape s. Qed.

Lemma analyze_finish
    (get_cmap : string -> option (float -> list float))
    (algorithm colormap : string) (data : ndarray float) :
  elems data <> [] ->
  exists a : Analysis,
    try_except
      (a ← (result ← Ok data;
            colored_result ← apply_colormap get_cmap (Some result) colormap
                                            None None;
            stats ← index_statistics result;
            Ok (mk_analysis result colored_result stats algorithm colormap));
       Ok (Some a))
      (fun _ => Ok None) = Ok (Some a) /\
    analysis_data a = data /\ algorithm_name a = algorithm.
Proof.
  intros Hne.
  destruct (apply_colormap_defined get_cmap data colormap None None Hne)
    as [img Hi].
  destruct (index_statistics_defined data Hne) as [st Hst].
  cbn [mbind outcome_bind]. rewrite Hi. cbn [mbind outcome_bind].
  rewrite Hst. cbn [mbind outcome_bind try_except].
  eexists. repeat split.
Qed.

(** The band of a required role. *)
Ltac required_band H role b Hl Hs :=
  destruct (H role) as (b & Hl & Hs);
  [apply (bool_decide_unpack _); vm_compute; exact I|];
  rewrite ?Hl.

Ltac finish_analysis lemma s :=
  let out := fresh "out" in
  let Ho := fresh "Ho" in
  let Hs := fresh "Hs" in
  destruct lemma as (out & Ho & Hs);
  rewrite Ho;
  match goal with
  | Hn : numel s <> 0%nat |- context [apply_colormap ?g _ ?c _ _] =>
      let a := fresh "a" in
      let Ha := fresh "Ha" in
      match goal with
      | |- context [mk_analysis _ _ _ ?alg _] =>
          destruct (analyze_finish g alg c out (has_shape_nonempty s out Hs Hn))
            as (a & Ha & <- & ?);
          exists a; split; [exact Ha | split; assumption]
      end
  end.

Lemma lookup_ndvi :
  VEGETATION_ALGORITHMS !! "ndvi"%string
  = Some (Bands2 (fun r n => calculate_ndvi_advanced (Some r) (Some n))).
Proof. reflexivity. Qed.

Lemma lookup_gli :
  VEGETATION_ALGORITHMS !! "gli"%string
  = Some (Bands3 calculate_gli_advanced).
Proof. reflexivity. Qed.

Lemma lookup_vari :
  VEGETATION_ALGORITHMS !! "vari"%string
  = Some (Bands3 calculate_vari_advanced).
Proof. reflexivity. Qed.

Lemma lookup_savi :
  VEGETATION_ALGORITHMS !! "savi"%string
  = Some (Bands2 (fun r n => calculate_savi_advanced r n (decimal 5 1))).
Proof. reflexivity. Qed.

Lemma lookup_evi :
  VEGETATION_ALGORITHMS !! "evi"%string
  = Some (Bands3 calculate_evi_advanced).
Proof. reflexivity. Qed.

Lemma lookup_tgi :
  VEGETATION_ALGORITHMS !! "tgi"%string
  = Some (Bands3 calculate_tgi_advanced).
Proof. reflexivity. Qed.

Lemma lookup_msavi :
  VEGETATION_ALGORITHMS !! "msavi"%string
  = Some (Bands2 calculate_msavi_advanced).
Proof. reflexivity. Qed.

Lemma lookup_osavi :
  VEGETATION_ALGORITHMS !! "osavi"%string
  = Some (Bands2 (fun r n => calculate_osavi_advanced r n (decimal 16 2))).
Proof. reflexivity. Qed.

Lemma lookup_rdvi :
  VEGETATION_ALGORITHMS !! "rdvi"%string
  = Some (Bands2 calculate_rdvi_advanced).
Proof. reflexivity. Qed.

Lemma lookup_gndvi :
  VEGETATION_ALGORITHMS !! "gndvi"%string
  = Some (Bands2 calculate_gndvi_advanced).
Proof. reflexivity. Qed.

Lemma lookup_cvi :
  VEGETATION_ALGORITHMS !! "cvi"%string
  = Some (Bands3 calculate_cvi_advanced).
Proof. reflexivity. Qed.

Lemma lookup_arvi :
  VEGETATION_ALGORITHMS !! "arvi"%string
  = Some (Bands3 calculate_arvi_advanced).
Proof. reflexivity. Qed.

Lemma lookup_gci :
  VEGETATION_ALGORITHMS !! "gci"%string
  = Some (Bands3 calculate_gci_advanced).
Proof. reflexivity. Qed.

(** The entry of an algorithm in the dictionary, and the branch taken. *)
Ltac dispatch :=
  first [ rewrite lookup_ndvi | rewrite lookup_gli | rewrite lookup_vari
        | rewrite lookup_ndwi | rewrite lookup_savi | rewrite lookup_evi
        | rewrite lookup_tgi | rewrite lookup_msavi | rewrite lookup_osavi
        | rewrite lookup_rdvi | rewrite lookup_gndvi | rewrite lookup_cvi
        | rewrite lookup_arvi | rewrite lookup_gci ];
  eval_conditions.

(** X16. The analysis succeeds whenever the algorithm is supported and
    the bands it requires are present, well-formed, of one shape and not
    empty, for every palette name and whatever values the bands hold; the
    index array has the shape of the bands. *)
Theorem analyze_succeeds_on_uniform_bands
    (get_cmap : string -> option (float -> list float))
    (image_bands : gmap string (ndarray float))
    (algorithm colormap : string) (s : list nat) :
  algorithm ∈ supported_algorithms ->
  numel s <> 0%nat ->
  (forall role : string,
     role ∈ required_bands algorithm ->
     exists b, image_bands !! role = Some b /\ has_shape s b) ->
  exists a : Analysis,
    analyze_vegetation_comprehensive get_cmap image_bands algorithm colormap
    = Ok (Some a) /\
    has_shape s (analysis_data a) /\
    algorithm_name a = algorithm.
Proof.
  intros Ha Hn Hb. unfold supported_algorithms in Ha.
  unfold analyze_vegetation_comprehensive, analyze_try.
  repeat (apply elem_of_cons in Ha; destruct Ha as [->|Ha]);
    try (inversion Ha; fail).
  all: dispatch.
  - required_band Hb "red"%string r Hr Hsr.
    required_band Hb "nir"%string n Hn' Hsn. cbn [call2].
    finish_analysis (ndvi_has_shape s r n Hsr Hsn) s.
  - required_band Hb "red"%string r Hr Hsr.
    required_band Hb "green"%string g Hg Hsg.
    required_band Hb "blue"%string b Hb' Hsb. cbn [call3].
    finish_analysis (gli_has_shape s r g b Hsr Hsg Hsb) s.
  - required_band Hb "red"%string r Hr Hsr.
    required_band Hb "green"%string g Hg Hsg.
    required_band Hb "blue"%string b Hb' Hsb. cbn [call3].
    finish_analysis (vari_has_shape s r g b Hsr Hsg Hsb) s.
  - required_band Hb "green"%string g Hg Hsg.
    required_band Hb "nir"%string n Hn' Hsn. cbn [call2].
    finish_analysis (ndwi_has_shape s g n Hsg Hsn) s.
  - required_band Hb "red"%string r Hr Hsr.
    required_band Hb "nir"%string n Hn' Hsn. cbn [call2].
    finish_analysis (savi_has_shape s r n (decimal 5 1) Hsr Hsn) s.
  - required_band Hb "red"%string r Hr Hsr.
    required_band Hb "green"%string g Hg Hsg.
    required_band Hb "blue"%string b Hb' Hsb.
    required_band Hb "nir"%string n Hn' Hsn. cbn [call3].
    finish_analysis (evi_has_shape s r n b Hsr Hsn Hsb) s.
  - required_band Hb "red"%string r Hr Hsr.
    required_band Hb "green"%string g Hg Hsg.
    required_band Hb "blue"%string b Hb' Hsb. cbn [call3].
    finish_analysis (tgi_has_shape s r g b Hsr Hsg Hsb) s.
  - required_band Hb "red"%string r Hr Hsr.
    required_band Hb "nir"%string n Hn' Hsn. cbn [call2].
    finish_analysis (msavi_has_shape s r n Hsr Hsn) s.
  - required_band Hb "red"%string r Hr Hsr.
    required_band Hb "nir"%string n Hn' Hsn. cbn [call2].
    finish_analysis (osavi_has_shape s r n (decimal 16 2) Hsr Hsn) s.
  - required_band Hb "red"%string r Hr Hsr.
    required_band Hb "nir"%string n Hn' Hsn. cbn [call2].
    finish_analysis (rdvi_has_shape s r n Hsr Hsn) s.
  - required_band Hb "red"%string r Hr Hsr.
    required_band Hb "nir"%string n Hn' Hsn. cbn [call2].
    finish_analysis (gndvi_has_shape s r n Hsr Hsn) s.
  - required_band Hb "red"%string r Hr Hsr.
    required_band Hb "green"%string g Hg Hsg.
    required_band Hb "nir"%string n Hn' Hsn. cbn [call3].
    finish_analysis (cvi_has_shape s r g n Hsr Hsg Hsn) s.
  - required_band Hb "red"%string r Hr Hsr.
    required_band Hb "green"%string g Hg Hsg.
    required_band Hb "blue"%string b Hb' Hsb.
    required_band Hb "nir"%string n Hn' Hsn. cbn [call3].
    finish_analysis (arvi_has_shape s r n b Hsr Hsn Hsb) s.
  - required_band Hb "red"%string r Hr Hsr.
    required_band Hb "green"%string g Hg Hsg.
    required_band Hb "nir"%string n Hn' Hsn. cbn [call3].
    finish_analysis (gci_has_shape s r g n Hsg Hsn) s.
Qed.

Lemma analyze_succeeds_on_uniform_bands_witness :
  exists a : Analysis,
    analyze_vegetation_comprehensive (fun _ => None)
      (<["red" := mk_array [1%nat; 2%nat] [of_Z 0; of_Z 3]]>
         (<["green" := mk_array [1%nat; 2%nat] [of_Z 0; of_Z 4]]>
            (<["nir" := mk_array [1%nat; 2%nat] [of_Z 0; nan]]> ∅)))
      "cvi" "nosuchmap" = Ok (Some a) /\
    has_shape [1%nat; 2%nat] (analysis_data a) /\
    algorithm_name a = "cvi"%string.
Proof.
  apply analyze_succeeds_on_uniform_bands.
  - apply (bool_decide_unpack _). vm_compute. exact I.
  - discriminate.
  - intros role Hr. change (required_bands "cvi") with ["red"; "green"; "nir"]%string in Hr.
    repeat (apply elem_of_cons in Hr; destruct Hr as [->|Hr]);
      [ eexists; split; [reflexivity | split; reflexivity] ..
      | inversion Hr ].
Defined.

(** ** Raster files *)

(** When reading returns data. *)
Lemma read_geotiff_some (path_exists : string -> bool)
    (rasterio_open : string -> outcome Dataset) (filename : string)
    (data : ndarray float) (md : Metadata) :
  read_geotiff path_exists rasterio_open filename = Ok (Some (data, md)) <->
  path_exists filename = true /\
  exists (src : Dataset) (d : Dtype),
    rasterio_open filename = Ok src /\
    ds_count src <> 0%nat /\
    ds_read src = Some data /\
    size data <> 0%nat /\
    head (ds_dtypes src) = Some d /\
    md = mk_metadata (ds_crs src) (ds_transform src) (ds_bounds src)
                     (Some (ds_width src)) (Some (ds_height src))
                     (Some (ds_count src)) (Some d).
Proof.
  unfold read_geotiff, read_try.
  destruct (path_exists filename); cbn [negb].
  2:{ split; [discriminate|]. intros [H _]. discriminate H. }
  destruct (rasterio_open filename) as [src|e0]; cbn [mbind outcome_bind].
  2:{ split; [destruct e0; discriminate|].
      intros (_ & src & d & H & _). discriminate H. }
  destruct (Nat.eqb (ds_count src) 0) eqn:Ec.
  { apply Nat.eqb_eq in Ec. split; [discriminate|].
    intros (_ & src' & d & [= <-] & Hc & _). congruence. }
  apply Nat.eqb_neq in Ec.
  assert (El : Nat.ltb 0 (ds_count src) = true) by (apply Nat.ltb_lt; lia).
  destruct (ds_read src) as [a|] eqn:Er.
  2:{ split; [discriminate|].
      intros (_ & src' & d & [= <-] & _ & Hd & _). congruence. }
  destruct (Nat.eqb (size a) 0) eqn:Es.
  { apply Nat.eqb_eq in Es. split; [discriminate|].
    intros (_ & src' & d & [= <-] & _ & Hd & Hs & _). congruence. }
  apply Nat.eqb_neq in Es. rewrite El.
  destruct (ds_dtypes src) as [|d0 dtypes] eqn:Ed;
    cbn [mbind outcome_bind].
  { split; [discriminate|].
    intros (_ & src' & d & [= <-] & _ & _ & _ & Hh & _).
    rewrite Ed in Hh. discriminate Hh. }
  split.
  + intros [= <- <-]. split; [reflexivity|]. exists src, d0.
    rewrite Ed. auto 10.
  + intros (_ & src' & d & [= <-] & _ & Hd & _ & Hh & ->).
    rewrite Er in Hd. injection Hd as <-.
    rewrite Ed in Hh. injection Hh as <-. reflexivity.
Qed.

(** X17. Reading raises in one case only: the file exists and opening
    it raises an ImportError; the error raised is then an ImportError
    with the message of [read_geotiff].  It returns data exactly when
    the file exists, opens, has at least one band, holds at least one
    element and lists an element type; the metadata are then those of
    the dataset, the element type being that of the first band.  In
    every other case the result is [None]. *)
Theorem read_geotiff_returns_data_iff (path_exists : string -> bool)
    (rasterio_open : string -> outcome Dataset) (filename : string) :
  (forall e : exn,
     read_geotiff path_exists rasterio_open filename = Raise e <->
     path_exists filename = true /\
     (exists msg : string, rasterio_open filename = Raise (ImportError msg)) /\
     e = ImportError "rasterio library not installed. Install with: pip install rasterio") /\
  (forall (data : ndarray float) (md : Metadata),
     read_geotiff path_exists rasterio_open filename = Ok (Some (data, md)) <->
     path_exists filename = true /\
     exists (src : Dataset) (d : Dtype),
       rasterio_open filename = Ok src /\
       ds_count src <> 0%nat /\
       ds_read src = Some data /\
       size data <> 0%nat /\
       head (ds_dtypes src) = Some d /\
       md = mk_metadata (ds_crs src) (ds_transform src) (ds_bounds src)
                        (Some (ds_width src)) (Some (ds_height src))
                        (Some (ds_count src)) (Some d)) /\
  (read_geotiff path_exists rasterio_open filename = Ok None <->
   (forall e : exn,
      read_geotiff path_exists rasterio_open filename <> Raise e) /\
   (forall r : ndarray float * Metadata,
      read_geotiff path_exists rasterio_open filename <> Ok (Some r))).
Proof.
  split; [|split].
  - intros e. unfold read_geotiff, read_try.
    destruct (path_exists filename); cbn [negb].
    2:{ split; [discriminate|]. intros [H _]. discriminate H. }
    destruct (rasterio_open filename) as [src|e0]; cbn [mbind outcome_bind].
    2:{ destruct e0; (split; [try discriminate | ]).
        all: try (intros (_ & [msg' H] & _); discriminate H).
        - intros [= <-]. eauto.
        - intros (_ & _ & ->). reflexivity. }
    split; [|intros (_ & [msg H] & _); discriminate H].
    destruct (Nat.eqb (ds_count src) 0); [discriminate|].
    destruct (ds_read src) as [a|]; [|discriminate].
    destruct (Nat.eqb (size a) 0); [discriminate|].
    destruct (Nat.ltb 0 (ds_count src)); cbn [mbind outcome_bind];
      [|discriminate].
    destruct (ds_dtypes src); cbn [mbind outcome_bind]; discriminate.
  - intros data md. apply read_geotiff_some.
  - destruct (read_geotiff path_exists rasterio_open filename)
      as [[r|]|e].
    + split; [discriminate|]. intros [_ H]. destruct (H r). reflexivity.
    + split; [|reflexivity]. intros _. split; discriminate.
    + split; [discriminate|]. intros [H _]. destruct (H e). reflexivity.
Qed.

Lemma read_geotiff_returns_data_iff_witness :
  let data := mk_array [1%nat; 1%nat; 2%nat] [of_Z 3; of_Z 7] in
  let src := mk_dataset (Some "EPSG:4326"%string) None None 2 1 1 [uint16]
                        (Some data) in
  read_geotiff (fun _ => true) (fun _ => Ok src) "a.tif"
  = Ok (Some (data, mk_metadata (Some "EPSG:4326"%string) None None
                      (Some 2%nat) (Some 1%nat) (Some 1%nat) (Some uint16))) /\
  read_geotiff (fun _ => true) (fun _ => Raise (ImportError "No module"))
    "a.tif"
  = Raise (ImportError "rasterio library not installed. Install with: pip install rasterio").
Proof.
  intros data src. split.
  - apply (proj1 (proj2 (read_geotiff_returns_data_iff (fun _ => true)
                           (fun _ => Ok src) "a.tif"))).
    split; [reflexivity|]. exists src, uint16.
    repeat split; discriminate.
  - apply (proj1 (read_geotiff_returns_data_iff (fun _ => true)
                    (fun _ => Raise (ImportError "No module")) "a.tif")).
    split; [reflexivity|]. split; [eexists; reflexivity | reflexivity].
Defined.

(** Without the file, with a file that does not open, or with a dataset
    without bands or without data, the result is [None]. *)
Lemma read_geotiff_none_examples :
  read_geotiff (fun _ => false) (fun _ => Raise (ImportError "No module"))
    "a.tif" = Ok None /\
  read_geotiff (fun _ => true) (fun _ => Raise (OSError "not a raster"))
    "a.tif" = Ok None /\
  read_geotiff (fun _ => true)
    (fun _ => Ok (mk_dataset None None None 2 1 0 [] None)) "a.tif" = Ok None /\
  read_geotiff (fun _ => true)
    (fun _ => Ok (mk_dataset None None None 0 0 1 [float64]
                    (Some (mk_array [1%nat; 0%nat; 0%nat] [])))) "a.tif"
  = Ok None.
Proof. repeat split. Qed.

(** ** The histogram report of a raster file *)

Lemma collect_Forall2 {A B : Type} (f : A -> outcome B) (l : list A) :
  forall ys, collect f l = Ok ys -> Forall2 (fun x y => f x = Ok y) l ys.
Proof.
  induction l as [|x l IH]; intros ys; cbn [collect].
  - intros [= <-]. constructor.
  - destruct (f x) as [y|e] eqn:E; cbn [mbind outcome_bind]; [|discriminate].
    destruct (collect f l) as [ys'|e]; cbn [mbind outcome_bind];
      [|discriminate].
    intros [= <-]. constructor; auto.
Qed.

Lemma collect_raises {A B : Type} (f : A -> outcome B) (l : list A) (x : A)
    (e : exn) :
  x ∈ l -> f x = Raise e -> exists e', collect f l = Raise e'.
Proof.
  intros Hin Hx. induction l as [|y l IH]; [inversion Hin|].
  cbn [collect]. apply elem_of_cons in Hin.
  destruct (f y) as [v|e1] eqn:Ey; cbn [mbind outcome_bind]; [|eauto].
  destruct Hin as [<-|Hin]; [congruence|].
  destruct (IH Hin) as [e' ->]. cbn [mbind outcome_bind]. eauto.
Qed.

Lemma band_statistics_ok (data : ndarray float) (i : nat)
    (st : BandStatistics) :
  band_statistics data i = Ok st ->
  band st = (i + 1)%nat /\ (1 <= band_count st)%nat.
Proof.
  unfold band_statistics.
  match goal with
  | |- mbind _ ?r = _ -> _ => destruct r as [d|e]
  end; cbn [mbind outcome_bind]; [|discriminate].
  destruct (drop_nan d) as [|x l]; [discriminate|].
  cbn [np_min np_max mbind outcome_bind]. intros [= <-].
  cbn [band band_count length]. split; lia.
Qed.

Lemma band_numbers (stats : list BandStatistics) :
  forall (a n : nat),
    Forall2 (fun i st => band st = (i + 1)%nat /\ (1 <= band_count st)%nat)
            (seq a n) stats ->
    map band stats = seq (a + 1) n /\
    Forall (fun st => (1 <= band_count st)%nat) stats.
Proof.
  induction stats as [|st stats IH]; intros a n H.
  - destruct n; [split; [reflexivity|constructor]|inversion H].
  - destruct n as [|n]; [inversion H|]. cbn [seq] in *.
    inversion H as [|? ? ? ? [Hb Hc] HF]; subst.
    destruct (IH (S a) n HF) as [Hm Hcs].
    cbn [map]. rewrite Hb, Hm. split; [reflexivity|].
    constructor; assumption.
Qed.

(** X19. A returned histogram report of a float64 file is consistent
    with the file: its metadata are those read, its histograms are those
    of the data over [bins] bins without range or mask, there is one
    statistics record per histogram, the records are numbered 1, 2, ...
    in band order, every band has at least one value that is not NaN,
    and the plot path is the PNG in the output directory, or [None] when
    plotting failed. *)
Theorem histogram_report_consistent
    (path_exists : string -> bool) (rasterio_open : string -> outcome Dataset)
    (makedirs : string -> outcome unit) (default_output_dir : string -> string)
    (histogram_png : string -> string -> string)
    (savefig : list Histogram -> string -> outcome unit)
    (file_path : string) (output_dir : option string) (bins : Z)
    (rep : HistogramReport) :
  process_geotiff_histogram path_exists rasterio_open makedirs
    default_output_dir histogram_png savefig file_path output_dir bins
  = Ok (Some rep) ->
  float64_file (report_metadata rep) ->
  exists data : ndarray float,
    read_geotiff path_exists rasterio_open file_path
    = Ok (Some (data, report_metadata rep)) /\
    calculate_histogram data bins None None = Ok (Some (histogram_data rep)) /\
    report_bins rep = bins /\
    map band (report_statistics rep)
    = seq 1 (length (histogram_data rep)) /\
    Forall (fun st => (1 <= band_count st)%nat) (report_statistics rep) /\
    (plot_path rep = None \/
     plot_path rep
     = Some (histogram_png (match output_dir with
                            | None => default_output_dir file_path
                            | Some d => d
                            end) file_path)).
Proof.
  unfold process_geotiff_histogram.
  destruct (read_geotiff path_exists rasterio_open file_path)
    as [[[data md]|]|e]; cbn [mbind outcome_bind try_except];
    try discriminate.
  destruct (calculate_histogram data bins None None) as [[hs|]|e] eqn:Eh;
    cbn [mbind outcome_bind try_except]; try discriminate.
  destruct (makedirs _); cbn [mbind outcome_bind try_except];
    [|discriminate].
  unfold create_histogram_plot.
  match goal with
  | |- context [savefig ?h ?p] => destruct (savefig h p) eqn:Ep
  end; cbn [mbind outcome_bind try_except].
  all: destruct (collect (band_statistics data) (seq 0 (length hs)))
         as [stats|e'] eqn:Ec; cbn [mbind outcome_bind try_except];
         [|discriminate].
  all: intros [= <-] _; exists data;
    cbn [report_metadata histogram_data report_bins report_statistics
         plot_path].
  all: apply collect_Forall2 in Ec.
  all: assert (HF : Forall2 (fun i st => band st = (i + 1)%nat /\
                                         (1 <= band_count st)%nat)
                            (seq 0 (length hs)) stats)
         by (eapply Forall2_impl; [exact Ec|];
             intros i st; apply band_statistics_ok).
  all: destruct (band_numbers stats 0 (length hs) HF) as [Hm Hc].
  all: repeat split; auto.
Qed.

Lemma histogram_report_consistent_witness :
  let src := mk_dataset None None None 2 1 1 [float64]
               (Some (mk_array [1%nat; 1%nat; 2%nat] [of_Z 3; of_Z 7])) in
  exists rep : HistogramReport,
    process_geotiff_histogram (fun _ => true) (fun _ => Ok src)
      (fun _ => Ok tt) (fun p => p) (fun d p => (d ++ p)%string)
      (fun _ _ => Ok tt) "a.tif" (Some "out/") 2 = Ok (Some rep) /\
    report_bins rep = 2 /\
    map band (report_statistics rep) = seq 1 (length (histogram_data rep)).
Proof.
  intros src.
  destruct (process_geotiff_histogram (fun _ => true) (fun _ => Ok src)
      (fun _ => Ok tt) (fun p => p) (fun d p => (d ++ p)%string)
      (fun _ _ => Ok tt) "a.tif" (Some "out/") 2) as [[rep|]|e] eqn:E;
    [ | vm_compute in E; discriminate E ..].
  assert (Hmd : float64_file (report_metadata rep))
    by (vm_compute in E; injection E as <-; reflexivity).
  exists rep. split; [reflexivity|].
  destruct (histogram_report_consistent _ _ _ _ _ _ _ _ _ _ E Hmd)
    as (data & _ & _ & Hb & Hm & _).
  split; assumption.
Defined.

Lemma band_statistics_without_values (data b : ndarray float) (i : nat) :
  (length (shape data) = 3%nat /\ bands_of data !! i = Some b) \/
  (length (shape data) <> 3%nat /\ b = data) ->
  Forall (fun x => is_nan x = true) (elems b) ->
  exists e, band_statistics data i = Raise e.
Proof.
  intros Hb Hn. unfold band_statistics.
  destruct Hb as [[Hr Hb]|[Hr ->]].
  - rewrite Hr, Hb. cbn [Nat.eqb mbind outcome_bind].
    rewrite (drop_nan_none _ Hn). cbn [np_min mbind outcome_bind]. eauto.
  - apply Nat.eqb_neq in Hr. rewrite Hr. cbn [mbind outcome_bind].
    rewrite (drop_nan_none _ Hn). cbn [np_min mbind outcome_bind]. eauto.
Qed.

(** X20. One band without any value other than NaN is enough to lose the
    whole report: whichever band of the file it is,
    [process_geotiff_histogram] returns [None], also when the histograms
    of all bands could be computed. *)
Theorem histogram_report_needs_values_in_every_band
    (path_exists : string -> bool) (rasterio_open : string -> outcome Dataset)
    (makedirs : string -> outcome unit) (default_output_dir : string -> string)
    (histogram_png : string -> string -> string)
    (savefig : list Histogram -> string -> outcome unit)
    (file_path : string) (output_dir : option string) (bins : Z)
    (data : ndarray float) (md : Metadata) (b : ndarray float) :
  read_geotiff path_exists rasterio_open file_path = Ok (Some (data, md)) ->
  (length (shape data) = 3%nat /\ b ∈ bands_of data) \/
  (length (shape data) <> 3%nat /\ b = data) ->
  Forall (fun x => is_nan x = true) (elems b) ->
  process_geotiff_histogram path_exists rasterio_open makedirs
    default_output_dir histogram_png savefig file_path output_dir bins
  = Ok None.
Proof.
  intros Hread Hb Hn. unfold process_geotiff_histogram.
  rewrite Hread. cbn [mbind outcome_bind].
  destruct (calculate_histogram data bins None None) as [[hs|]|e] eqn:Eh;
    cbn [mbind outcome_bind try_except]; try reflexivity.
  destruct (makedirs _); cbn [mbind outcome_bind try_except];
    [|reflexivity].
  assert (Hc : exists e, collect (band_statistics data) (seq 0 (length hs))
                         = Raise e).
  { apply calculate_histogram_some, histogram_try_histograms in Eh.
    apply Forall2_length in Eh.
    destruct Hb as [[Hr Hb]|[Hr ->]].
    - apply list_elem_of_lookup in Hb. destruct Hb as [i Hi].
      destruct (band_statistics_without_values data b i) as [e He]; auto.
      apply (collect_raises _ _ i e); [|exact He].
      rewrite Hr in Eh. cbn [Nat.eqb] in Eh. rewrite <- Eh.
      apply list_elem_of_In, in_seq. apply lookup_lt_Some in Hi. lia.
    - destruct (band_statistics_without_values data data 0%nat) as [e He];
        auto.
      apply (collect_raises _ _ 0%nat e); [|exact He].
      apply Nat.eqb_neq in Hr. rewrite Hr in Eh. cbn [length] in Eh.
      rewrite <- Eh. left. }
  destruct Hc as [e Hc]. unfold create_histogram_plot.
  match goal with
  | |- context [savefig ?h ?p] => destruct (savefig h p)
  end; cbn [mbind outcome_bind try_except]; rewrite Hc; reflexivity.
Qed.

Lemma histogram_report_needs_values_in_every_band_witness :
  let data := mk_array [2%nat; 1%nat; 2%nat] [of_Z 3; of_Z 7; nan; nan] in
  let src := mk_dataset None None None 2 1 2 [float64; float64] (Some data) in
  calculate_histogram data 2 None None
  = Ok (Some [ ([1; 1], [of_Z 3; of_Z 5; of_Z 7]);
               ([0; 0], [of_Z 3; of_Z 5; of_Z 7]) ]) /\
  process_geotiff_histogram (fun _ => true) (fun _ => Ok src)
    (fun _ => Ok tt) (fun p => p) (fun d p => (d ++ p)%string)
    (fun _ _ => Ok tt) "a.tif" (Some "out/") 2 = Ok None.
Proof.
  intros data src. split; [reflexivity|].
  apply (histogram_report_needs_values_in_every_band _ _ _ _ _ _ _ _ _
           data (mk_metadata None None None (Some 2%nat) (Some 1%nat)
                             (Some 2%nat) (Some float64))
           (mk_array [1%nat; 2%nat] [nan; nan])).
  - reflexivity.
  - left. split; [reflexivity|]. right. left.
  - repeat constructor.
Defined.

(** ** The RGB preview of a raster file *)

Lemma ltb_irrefl (c : float) : ltb c c = false.
Proof.
  unfold ltb, SFltb. pose proof (SFcompare_antisym c c) as H.
  destruct (SFcompare c c) as [[]|]; try reflexivity. discriminate H.
Qed.

Lemma ltb_nan_l (y : float) : ltb nan y = false.
Proof. destruct y; reflexivity. Qed.

Lemma ltb_nan_r (x : float) : ltb x nan = false.
Proof. destruct x; reflexivity. Qed.

Lemma fmin_one_value (c a b : float) :
  a = c \/ is_nan a = true -> b = c \/ is_nan b = true ->
  fmin a b = c \/ is_nan (fmin a b) = true.
Proof. intros Ha Hb. unfold fmin. destruct (leb a b || is_nan b); assumption. Qed.

Lemma fmax_one_value (c a b : float) :
  a = c \/ is_nan a = true -> b = c \/ is_nan b = true ->
  fmax a b = c \/ is_nan (fmax a b) = true.
Proof. intros Ha Hb. unfold fmax. destruct (leb b a || is_nan b); assumption. Qed.

Lemma fold_one_value (f : float -> float -> float) (c : float) :
  (forall a b, a = c \/ is_nan a = true -> b = c \/ is_nan b = true ->
               f a b = c \/ is_nan (f a b) = true) ->
  forall (l : list float) (a : float),
    Forall (fun x => x = c \/ is_nan x = true) l ->
    a = c \/ is_nan a = true ->
    fold_left f l a = c \/ is_nan (fold_left f l a) = true.
Proof.
  intros Hf l. induction l as [|x l IH]; intros a Hl Ha; [exact Ha|].
  inversion Hl; subst. cbn [fold_left]. apply IH; auto.
Qed.

(** X21. A band with at most one distinct value besides NaN (a constant
    band, a band of NaN only) is rendered as zeros: the scaling by
    maximum - minimum is skipped, nothing is divided by zero. *)
Theorem normalize_band_constant (band : ndarray float) (c : float) :
  elems band <> [] ->
  Forall (fun x => x = c \/ is_nan x = true) (elems band) ->
  normalize_band band = Ok (repeat 0 (size band)).
Proof.
  intros Hne Hall. unfold normalize_band, np_nanmin, np_nanmax.
  destruct (elems band) as [|x l]; [congruence|].
  inversion Hall as [|? ? Hx Hl]; subst.
  cbn [mbind outcome_bind].
  destruct (fold_one_value fmin c (fmin_one_value c) l x Hl Hx) as [->|Hlo];
    destruct (fold_one_value fmax c (fmax_one_value c) l x Hl Hx) as [->|Hhi].
  - rewrite ltb_irrefl. reflexivity.
  - rewrite (is_nan_eq _ Hhi), ltb_nan_r. reflexivity.
  - rewrite (is_nan_eq _ Hlo), ltb_nan_l. reflexivity.
  - rewrite (is_nan_eq _ Hlo), ltb_nan_l. reflexivity.
Qed.

Lemma normalize_band_constant_witness :
  normalize_band (mk_array [2%nat; 2%nat] [of_Z 7; nan; of_Z 7; of_Z 7])
  = Ok [0; 0; 0; 0].
Proof.
  apply (normalize_band_constant
           (mk_array [2%nat; 2%nat] [of_Z 7; nan; of_Z 7; of_Z 7]) (of_Z 7)).
  - intros E. discriminate E.
  - repeat (constructor; [first [left; reflexivity | right; reflexivity]|]).
    constructor.
Defined.

Lemma chunks_lengths {A : Type} (k : nat) :
  forall (n : nat) (d : list A),
    length d = (n * k)%nat -> Forall (fun c => length c = k) (chunks k n d).
Proof.
  induction n as [|n IH]; intros d Hd; cbn [chunks]; constructor.
  - rewrite length_firstn. simpl in Hd. lia.
  - apply IH. rewrite length_skipn. simpl in Hd. lia.
Qed.

Lemma bands_of_has_shape (data : ndarray float) (n : nat) (rest : list nat) :
  wf data -> shape data = n :: rest ->
  length (bands_of data) = n /\
  Forall (has_shape rest) (bands_of data).
Proof.
  unfold wf, size, bands_of. intros Hw Hs. rewrite Hs in *.
  cbn [numel fold_right] in Hw. fold (numel rest) in Hw.
  rewrite length_map, length_chunks. split; [reflexivity|].
  apply Forall_map.
  eapply Forall_impl; [apply (chunks_lengths (numel rest) n); exact Hw|].
  intros c Hc. split; [reflexivity | exact Hc].
Qed.

Lemma single_band (data : ndarray float) (rest : list nat) :
  wf data -> shape data = 1%nat :: rest ->
  bands_of data = [mk_array rest (elems data)].
Proof.
  unfold wf, size, bands_of. intros Hw Hs. rewrite Hs in *.
  cbn [numel fold_right] in Hw. fold (numel rest) in Hw.
  cbn [chunks map]. rewrite firstn_all2 by lia. reflexivity.
Qed.

Lemma stack3_same {A : Type} (l : list A) :
  stack3 l l l = flat_map (fun x => [x; x; x]) l.
Proof.
  unfold stack3. induction l as [|x l IH]; [reflexivity|].
  cbn [zip_with concat flat_map fst snd app]. rewrite IH. reflexivity.
Qed.

Lemma read_geotiff_not_empty (path_exists : string -> bool)
    (rasterio_open : string -> outcome Dataset) (filename : string)
    (data : ndarray float) (md : Metadata) :
  read_geotiff path_exists rasterio_open filename = Ok (Some (data, md)) ->
  size data <> 0%nat.
Proof.
  intros H. apply read_geotiff_some in H.
  destruct H as (_ & src & d & _ & _ & _ & Hs & _). exact Hs.
Qed.

Lemma normalize_band_defined (band : ndarray float) :
  elems band <> [] -> exists v, normalize_band band = Ok v.
Proof.
  intros Hne. destruct (nanmin_defined band Hne) as (lo & hi & Hlo & Hhi).
  unfold normalize_band. rewrite Hlo, Hhi. cbn [mbind outcome_bind].
  destruct (ltb lo hi); eauto.
Qed.

(** X22. The preview of a single-band float64 file is grey: the band is
    scaled once and every pixel of the returned image carries the scaled
    value in its three channels. *)
Theorem extract_rgb_single_band_is_gray
    (path_exists : string -> bool) (rasterio_open : string -> outcome Dataset)
    (save_image : string -> ndarray Z -> outcome unit)
    (file_path : string) (data : ndarray float) (md : Metadata)
    (band_shape : list nat) :
  read_geotiff path_exists rasterio_open file_path = Ok (Some (data, md)) ->
  float64_file md ->
  wf data -> shape data = 1%nat :: band_shape ->
  exists v : list Z,
    normalize_band (mk_array band_shape (elems data)) = Ok v /\
    extract_rgb_from_geotiff path_exists rasterio_open save_image file_path
      None
    = Ok (Some (RgbImage (mk_array (band_shape ++ [3%nat])
                                   (flat_map (fun x => [x; x; x]) v)))).
Proof.
  intros Hread _ Hw Hs.
  pose proof (read_geotiff_not_empty _ _ _ _ _ Hread) as Hne.
  destruct (normalize_band_defined (mk_array band_shape (elems data)))
    as [v Hv].
  { cbn [elems]. apply wf_nonempty; assumption. }
  exists v. split; [exact Hv|].
  unfold extract_rgb_from_geotiff. rewrite Hread. cbn [mbind outcome_bind].
  rewrite Hs. cbn [Nat.leb Nat.eqb]. rewrite (single_band data band_shape Hw Hs).
  cbn [flat_map app collect]. rewrite Hv. cbn [mbind outcome_bind try_except].
  rewrite stack3_same. reflexivity.
Qed.

Lemma extract_rgb_single_band_is_gray_witness :
  let data := mk_array [1%nat; 1%nat; 3%nat] [of_Z 10; of_Z 20; of_Z 30] in
  let src := mk_dataset None None None 3 1 1 [float64] (Some data) in
  extract_rgb_from_geotiff (fun _ => true) (fun _ => Ok src)
    (fun _ _ => Ok tt) "a.tif" None
  = Ok (Some (RgbImage (mk_array [1%nat; 3%nat; 3%nat]
                                 [0; 0; 0; 127; 127; 127; 255; 255; 255]))).
Proof.
  intros data src.
  destruct (extract_rgb_single_band_is_gray (fun _ => true) (fun _ => Ok src)
              (fun _ _ => Ok tt) "a.tif" data
              (mk_metadata None None None (Some 3%nat) (Some 1%nat)
                           (Some 1%nat) (Some float64))
              [1%nat; 3%nat] eq_refl eq_refl eq_refl eq_refl) as (v & Hv & H).
  injection Hv as <-. exact H.
Defined.

Lemma astype_uint8_range (x : float) : 0 <= astype_uint8 x <= 255.
Proof.
  unfold astype_uint8.
  pose proof (Z.mod_pos_bound (astype_int x) 256 ltac:(lia)). lia.
Qed.

Lemma normalize_band_range (band : ndarray float) (v : list Z) :
  normalize_band band = Ok v -> Forall (fun x => 0 <= x <= 255) v.
Proof.
  unfold normalize_band.
  destruct (np_nanmin band) as [lo|e]; cbn [mbind outcome_bind];
    [|discriminate].
  destruct (np_nanmax band) as [hi|e]; cbn [mbind outcome_bind];
    [|discriminate].
  destruct (ltb lo hi); intros [= <-].
  - apply Forall_map. apply Forall_forall. intros x _.
    apply astype_uint8_range.
  - generalize (size band). intros k. induction k; constructor; [lia|assumption].
Qed.

Lemma stack3_Forall {A : Type} (P : A -> Prop) (r g b : list A) :
  Forall P r -> Forall P g -> Forall P b -> Forall P (stack3 r g b).
Proof.
  unfold stack3. intros Hr. revert g b.
  induction Hr as [|x r Hx _ IH]; intros g b Hg Hb; [constructor|].
  destruct Hg as [|y g Hy Hg]; [constructor|].
  destruct Hb as [|z b Hz Hb]; [constructor|].
  cbn [zip_with concat fst snd app].
  repeat (constructor; [assumption|]). apply IH; assumption.
Qed.

(** X23. What a returned preview is: the file has one band or at least
    three (a two-band file gives [None]); without an output path the
    result is the image, of the shape of a band followed by an axis of
    length 3 and with every channel value in 0..255; with an output path
    the result is that path, and the image was saved. *)
Theorem extract_rgb_result
    (path_exists : string -> bool) (rasterio_open : string -> outcome Dataset)
    (save_image : string -> ndarray Z -> outcome unit)
    (file_path : string) (output_path : option string) (res : rgb_result) :
  extract_rgb_from_geotiff path_exists rasterio_open save_image file_path
    output_path = Ok (Some res) ->
  exists (data : ndarray float) (md : Metadata) (n : nat)
         (band_shape : list nat) (img : ndarray Z),
    read_geotiff path_exists rasterio_open file_path = Ok (Some (data, md)) /\
    shape data = n :: band_shape /\
    (n = 1%nat \/ (3 <= n)%nat) /\
    shape img = band_shape ++ [3%nat] /\
    Forall (fun x => 0 <= x <= 255) (elems img) /\
    match res with
    | RgbImage image =>
        image = img /\ (output_path = None \/ output_path = Some ""%string)
    | RgbPath p =>
        output_path = Some p /\ p <> ""%string /\ save_image p img = Ok tt
    end.
Proof.
  unfold extract_rgb_from_geotiff.
  destruct (read_geotiff path_exists rasterio_open file_path)
    as [[[data md]|]|e]; cbn [mbind outcome_bind try_except];
    try discriminate.
  destruct (shape data) as [|n band_shape] eqn:Es;
    cbn [try_except]; [discriminate|].
  set (rgb_data := if Nat.leb 3 n then Some (firstn 3 (bands_of data))
                   else if Nat.eqb n 1
                        then Some (flat_map (fun b => [b; b; b]) (bands_of data))
                        else None).
  assert (Hn : rgb_data <> None -> n = 1%nat \/ (3 <= n)%nat).
  { unfold rgb_data. destruct (Nat.leb 3 n) eqn:E3.
    - apply Nat.leb_le in E3. auto.
    - destruct (Nat.eqb n 1) eqn:E1; [|congruence].
      apply Nat.eqb_eq in E1. auto. }
  destruct rgb_data as [bands|]; cbn [try_except]; [|discriminate].
  specialize (Hn ltac:(discriminate)).
  destruct (collect normalize_band bands) as [vs|e] eqn:Ec;
    cbn [mbind outcome_bind try_except]; [|discriminate].
  destruct vs as [|r [|g [|b [|? ?]]]]; cbn [try_except]; try discriminate.
  apply collect_Forall2 in Ec.
  assert (Hrange : Forall (fun x => 0 <= x <= 255) (stack3 r g b)).
  { inversion Ec as [|? ? ? ? Hr Ec1]; subst.
    inversion Ec1 as [|? ? ? ? Hg Ec2]; subst.
    inversion Ec2 as [|? ? ? ? Hb _]; subst.
    apply stack3_Forall; eapply normalize_band_range; eassumption. }
  destruct output_path as [p|].
  - destruct (String.eqb p "") eqn:Ep.
    + apply String.eqb_eq in Ep. subst p. cbn [try_except].
      intros [= <-]. exists data, md, n, band_shape.
      exists (mk_array (band_shape ++ [3%nat]) (stack3 r g b)).
      split; [reflexivity|]. split; [exact Es|]. split; [exact Hn|].
      split; [reflexivity|]. split; [exact Hrange|]. split; auto.
    + apply String.eqb_neq in Ep.
      destruct (save_image p _) as [[]|e] eqn:Esave;
        cbn [mbind outcome_bind try_except]; [|discriminate].
      intros [= <-]. exists data, md, n, band_shape.
      exists (mk_array (band_shape ++ [3%nat]) (stack3 r g b)).
      split; [reflexivity|]. split; [exact Es|]. split; [exact Hn|].
      split; [reflexivity|]. split; [exact Hrange|].
      split; [reflexivity|]. split; [exact Ep | exact Esave].
  - cbn [try_except]. intros [= <-]. exists data, md, n, band_shape.
      exists (mk_array (band_shape ++ [3%nat]) (stack3 r g b)).
    split; [reflexivity|]. split; [exact Es|]. split; [exact Hn|].
    split; [reflexivity|]. split; [exact Hrange|]. split; auto.
Qed.

Lemma extract_rgb_result_witness :
  let data := mk_array [3%nat; 1%nat; 2%nat]
                       [of_Z 0; of_Z 4; of_Z 1; of_Z 1; nan; of_Z 9] in
  let src := mk_dataset None None None 2 1 3 [float64; float64; float64]
                        (Some data) in
  exists img : ndarray Z,
    extract_rgb_from_geotiff (fun _ => true) (fun _ => Ok src)
      (fun _ _ => Ok tt) "a.tif" None = Ok (Some (RgbImage img)) /\
    Forall (fun x => 0 <= x <= 255) (elems img).
Proof.
  intros data src.
  destruct (extract_rgb_from_geotiff (fun _ => true) (fun _ => Ok src)
      (fun _ _ => Ok tt) "a.tif" None) as [[[p|img]|]|e] eqn:E;
    try (vm_compute in E; discriminate E).
  exists img. split; [reflexivity|].
  destruct (extract_rgb_result _ _ _ _ _ _ E)
    as (d & md & n & bs & img' & _ & _ & _ & _ & Hr & <- & _).
  exact Hr.
Defined.

(** ** The vegetation analysis of a raster file *)

Lemma geotiff_analysis_some
    (get_cmap : string -> option (float -> list float))
    (path_exists : string -> bool) (rasterio_open : string -> outcome Dataset)
    (creatable : string -> GeoTIFF -> bool)
    (leftover : gmap string GeoTIFF -> string -> GeoTIFF -> gmap string GeoTIFF)
    (makedirs : string -> outcome unit)
    (stem : string -> string) (join : string -> string -> string)
    (save_image : string -> ndarray Z -> outcome unit)
    (files : gmap string GeoTIFF) (file_path algorithm : string)
    (output_dir : option string) (ga : GeoAnalysis) :
  fst (analyze_vegetation_from_geotiff get_cmap path_exists rasterio_open
         creatable leftover makedirs stem join save_image files file_path
         algorithm output_dir) = Some ga ->
  exists (data : ndarray float) (md : Metadata)
         (image_bands : gmap string (ndarray float)),
    read_geotiff path_exists rasterio_open file_path = Ok (Some (data, md)) /\
    band_roles data = Ok (Some image_bands) /\
    analyze_vegetation_comprehensive get_cmap image_bands algorithm "rdylgn"
    = Ok (Some (geo_analysis ga)).
Proof.
  unfold analyze_vegetation_from_geotiff.
  destruct (read_geotiff path_exists rasterio_open file_path)
    as [[[data md]|]|e] eqn:Er; cbn [fst]; try discriminate.
  destruct (band_roles data) as [[image_bands|]|e'] eqn:Eb; cbn [fst];
    try discriminate.
  destruct (analyze_vegetation_comprehensive get_cmap image_bands algorithm
              "rdylgn") as [[a|]|e'] eqn:Ea; cbn [fst]; try discriminate.
  intros H.
  assert (Ha : geo_analysis ga = a).
  { destruct output_dir as [dir|]; [|injection H as <-; reflexivity].
    destruct (String.eqb dir ""); [injection H as <-; reflexivity|].
    destruct (makedirs dir); [|discriminate H].
    match type of H with
    | context [match ?s with Ok _ => _ | Raise _ => _ end] => destruct s
    end; [injection H as <-; reflexivity | discriminate H]. }
  exists data, md, image_bands. rewrite Ha. repeat split; assumption.
Qed.

(** The value returned does not depend on what the writer does. *)
Lemma geotiff_analysis_ignores_writer
    (get_cmap : string -> option (float -> list float))
    (path_exists : string -> bool) (rasterio_open : string -> outcome Dataset)
    (creatable creatable' : string -> GeoTIFF -> bool)
    (leftover leftover' :
       gmap string GeoTIFF -> string -> GeoTIFF -> gmap string GeoTIFF)
    (makedirs : string -> outcome unit)
    (stem : string -> string) (join : string -> string -> string)
    (save_image : string -> ndarray Z -> outcome unit)
    (files : gmap string GeoTIFF) (file_path algorithm : string)
    (output_dir : option string) :
  fst (analyze_vegetation_from_geotiff get_cmap path_exists rasterio_open
         creatable' leftover' makedirs stem join save_image files file_path
         algorithm output_dir)
  = fst (analyze_vegetation_from_geotiff get_cmap path_exists rasterio_open
           creatable leftover makedirs stem join save_image files file_path
           algorithm output_dir).
Proof.
  unfold analyze_vegetation_from_geotiff.
  destruct (read_geotiff path_exists rasterio_open file_path)
    as [[[data md]|]|e]; try reflexivity.
  destruct (band_roles data) as [[image_bands|]|e]; try reflexivity.
  destruct (analyze_vegetation_comprehensive get_cmap image_bands algorithm
              "rdylgn") as [[a|]|e]; try reflexivity.
  destruct output_dir as [dir|]; [|reflexivity].
  destruct (String.eqb dir ""); [reflexivity|].
  destruct (makedirs dir); [|reflexivity].
  match goal with
  | |- context [match ?s with Ok _ => _ | Raise _ => _ end] => destruct s
  end; reflexivity.
Qed.

(** X24. The raster that the analysis of a float64 file leaves, when the
    analysis is returned for an output directory and rasterio creates
    every file it is asked for.  An index of two or three axes is written
    to [<dir>/<stem>_<algorithm>_analysis.tif]: a GTiff with LZW
    compression, the CRS and the transform read from the source file and
    64-bit floats, whose values are those of the returned index, a
    two-dimensional index as a single band; the other files are as
    before.  An index of any other rank is not written: the files are
    unchanged, and the path is reported all the same. *)
Theorem geotiff_analysis_files
    (get_cmap : string -> option (float -> list float))
    (path_exists : string -> bool) (rasterio_open : string -> outcome Dataset)
    (creatable : string -> GeoTIFF -> bool)
    (leftover : gmap string GeoTIFF -> string -> GeoTIFF -> gmap string GeoTIFF)
    (makedirs : string -> outcome unit)
    (stem : string -> string) (join : string -> string -> string)
    (save_image : string -> ndarray Z -> outcome unit)
    (files : gmap string GeoTIFF) (file_path algorithm dir : string)
    (ga : GeoAnalysis) (files' : gmap string GeoTIFF)
    (data : ndarray float) (md : Metadata) :
  analyze_vegetation_from_geotiff get_cmap path_exists rasterio_open
    creatable leftover makedirs stem join save_image files file_path
    algorithm (Some dir) = (Some ga, files') ->
  dir <> ""%string ->
  read_geotiff path_exists rasterio_open file_path = Ok (Some (data, md)) ->
  float64_file md ->
  (forall (f : string) (d : GeoTIFF), creatable f d = true) ->
  let index := analysis_data (geo_analysis ga) in
  let p := join dir (stem file_path ++ "_" ++ algorithm
                     ++ "_analysis.tif")%string in
  geotiff_path ga = Some p /\
  (length (shape index) = 2%nat \/ length (shape index) = 3%nat ->
   exists count height width : nat,
     promoted_shape (shape index) = [count; height; width] /\
     files'
     = <[p := mk_geotiff "GTiff" height width count float64
                (crs md) (transform md) "lzw"
                (mk_array (promoted_shape (shape index))
                          (map Float (elems index)))]> files) /\
  (length (shape index) <> 2%nat -> length (shape index) <> 3%nat ->
   files' = files).
Proof.
  intros H Hdir Hread _ Hc index p. subst index p.
  unfold analyze_vegetation_from_geotiff in H. rewrite Hread in H.
  destruct (band_roles data) as [[image_bands|]|e]; try discriminate H.
  destruct (analyze_vegetation_comprehensive get_cmap image_bands algorithm
              "rdylgn") as [[a|]|e]; try discriminate H.
  apply String.eqb_neq in Hdir. rewrite Hdir in H.
  destruct (makedirs dir); [|discriminate H].
  match type of H with
  | context [match ?s with Ok _ => _ | Raise _ => _ end] => destruct s
  end; [|discriminate H].
  injection H as <- <-. cbn [geo_analysis geotiff_path].
  split; [reflexivity|]. unfold write_geotiff. split.
  - intros Hrank.
    destruct (write_request_profile
                (mk_typed float64 (map_array Float (analysis_data a)))
                md "lzw" Hrank) as (c & h & w & Hshape & Hreq).
    exists c, h, w. split; [exact Hshape|].
    rewrite Hreq, Hc. reflexivity.
  - intros H2 H3.
    destruct (write_request_raises
                (mk_typed float64 (map_array Float (analysis_data a)))
                md "lzw" H2 H3) as [e ->].
    reflexivity.
Qed.

Lemma geotiff_analysis_files_witness :
  let src := mk_dataset (Some "EPSG:4326"%string) None None 1 1 3
               [float64; float64; float64]
               (Some (mk_array [3%nat; 1%nat; 1%nat]
                               [of_Z 10; of_Z 50; of_Z 20])) in
  exists (ga : GeoAnalysis) (x : float),
    analyze_vegetation_from_geotiff (fun _ => None) (fun _ => true)
      (fun _ => Ok src) (fun _ _ => true) (fun files _ _ => files)
      (fun _ => Ok tt) (fun p => p)
      (fun d p => (d ++ p)%string) (fun _ _ => Ok tt) ∅ "a" "ndvi"
      (Some "out/"%string)
    = (Some ga,
       {[ "out/a_ndvi_analysis.tif"%string :=
            mk_geotiff "GTiff" 1 1 1 float64 (Some "EPSG:4326"%string) None
              "lzw" (mk_array [1%nat; 1%nat; 1%nat] [Float x]) ]}) /\
    analysis_data (geo_analysis ga) = mk_array [1%nat; 1%nat] [x].
Proof.
  intros src.
  destruct (analyze_vegetation_from_geotiff (fun _ => None) (fun _ => true)
      (fun _ => Ok src) (fun _ _ => true) (fun files _ _ => files)
      (fun _ => Ok tt) (fun p => p)
      (fun d p => (d ++ p)%string) (fun _ _ => Ok tt) ∅ "a" "ndvi"
      (Some "out/"%string)) as [[ga|] files'] eqn:E;
    [|vm_compute in E; discriminate E].
  assert (Hx : exists x, analysis_data (geo_analysis ga)
                         = mk_array [1%nat; 1%nat] [x]).
  { vm_compute in E. injection E as <- _. eexists. reflexivity. }
  destruct Hx as [x Hx]. exists ga, x. split; [|exact Hx].
  destruct (geotiff_analysis_files _ _ _ _ _ _ _ _ _ _ _ _ _ _ _
              (mk_array [3%nat; 1%nat; 1%nat] [of_Z 10; of_Z 50; of_Z 20])
              (mk_metadata (Some "EPSG:4326"%string) None None (Some 1%nat)
                           (Some 1%nat) (Some 3%nat) (Some float64))
              E ltac:(discriminate) eq_refl eq_refl (fun _ _ => eq_refl))
    as (_ & Hw & _).
  rewrite Hx in Hw. destruct (Hw (or_introl eq_refl)) as (c & h & w & Hs & ->).
  cbn in Hs. injection Hs as <- <- <-. reflexivity.
Defined.

(** X25. What a returned analysis of a float64 raster file is: the bands
    of the file were taken by position and analysed with the fixed
    palette rdylgn.  Without an output directory no path is reported and
    no file is written.  With one, both paths are reported, and the
    outcome of the write is not looked at: whatever rasterio does with
    the raster, the same result is returned, with the GeoTIFF path. *)
Theorem geotiff_analysis_result
    (get_cmap : string -> option (float -> list float))
    (path_exists : string -> bool) (rasterio_open : string -> outcome Dataset)
    (creatable : string -> GeoTIFF -> bool)
    (leftover : gmap string GeoTIFF -> string -> GeoTIFF -> gmap string GeoTIFF)
    (makedirs : string -> outcome unit)
    (stem : string -> string) (join : string -> string -> string)
    (save_image : string -> ndarray Z -> outcome unit)
    (files : gmap string GeoTIFF) (file_path algorithm : string)
    (output_dir : option string) (ga : GeoAnalysis)
    (files' : gmap string GeoTIFF) (data : ndarray float) (md : Metadata) :
  analyze_vegetation_from_geotiff get_cmap path_exists rasterio_open
    creatable leftover makedirs stem join save_image files file_path
    algorithm output_dir = (Some ga, files') ->
  read_geotiff path_exists rasterio_open file_path = Ok (Some (data, md)) ->
  float64_file md ->
  (exists image_bands : gmap string (ndarray float),
     band_roles data = Ok (Some image_bands) /\
     analyze_vegetation_comprehensive get_cmap image_bands algorithm "rdylgn"
     = Ok (Some (geo_analysis ga))) /\
  (forall (creatable' : string -> GeoTIFF -> bool)
          (leftover' : gmap string GeoTIFF -> string -> GeoTIFF ->
                       gmap string GeoTIFF),
     fst (analyze_vegetation_from_geotiff get_cmap path_exists rasterio_open
            creatable' leftover' makedirs stem join save_image files
            file_path algorithm output_dir) = Some ga) /\
  match output_dir with
  | Some dir =>
      if String.eqb dir ""
      then geotiff_path ga = None /\ colored_path ga = None /\ files' = files
      else
        geotiff_path ga
        = Some (join dir (stem file_path ++ "_" ++ algorithm
                          ++ "_analysis.tif")%string) /\
        colored_path ga
        = Some (join dir (stem file_path ++ "_" ++ algorithm
                          ++ "_colored.png")%string)
  | None => geotiff_path ga = None /\ colored_path ga = None /\ files' = files
  end.
Proof.
  intros H Hread _. split; [|split].
  { destruct (geotiff_analysis_some get_cmap path_exists rasterio_open
                creatable leftover makedirs stem join save_image files
                file_path algorithm output_dir ga)
      as (data' & md' & image_bands & Hread' & Hb & Ha);
      [rewrite H; reflexivity|].
    rewrite Hread in Hread'. injection Hread' as <- <-.
    exists image_bands. split; assumption. }
  { intros creatable' leftover'.
    rewrite (geotiff_analysis_ignores_writer get_cmap path_exists
               rasterio_open creatable creatable' leftover leftover').
    rewrite H. reflexivity. }
  revert H. unfold analyze_vegetation_from_geotiff.
  destruct (read_geotiff path_exists rasterio_open file_path)
    as [[[data' md']|]|e]; try discriminate.
  destruct (band_roles data') as [[image_bands|]|e]; try discriminate.
  destruct (analyze_vegetation_comprehensive get_cmap image_bands algorithm
              "rdylgn") as [[a|]|e]; try discriminate.
  destruct output_dir as [dir|]; [|intros [= <- <-]; auto].
  destruct (String.eqb dir ""); [intros [= <- <-]; auto|].
  destruct (makedirs dir); [|discriminate].
  match goal with
  | |- context [match ?s with Ok _ => _ | Raise _ => _ end = _] => destruct s
  end; [|discriminate].
  intros [= <- <-]. cbn [geotiff_path colored_path].
  split; reflexivity.
Qed.

Lemma geotiff_analysis_result_witness :
  let data := mk_array [3%nat; 1%nat; 1%nat] [of_Z 10; of_Z 50; of_Z 20] in
  let src := mk_dataset (Some "EPSG:4326"%string) None None 1 1 3
               [float64; float64; float64] (Some data) in
  exists ga : GeoAnalysis,
    analyze_vegetation_from_geotiff (fun _ => None) (fun _ => true)
      (fun _ => Ok src) (fun _ _ => false) (fun files _ _ => files)
      (fun _ => Ok tt) (fun p => p)
      (fun d p => (d ++ p)%string) (fun _ _ => Ok tt) ∅ "a" "ndvi"
      (Some "out/"%string) = (Some ga, ∅) /\
    geotiff_path ga = Some "out/a_ndvi_analysis.tif"%string /\
    fst (analyze_vegetation_from_geotiff (fun _ => None) (fun _ => true)
           (fun _ => Ok src) (fun _ _ => true) (fun files _ _ => files)
           (fun _ => Ok tt) (fun p => p)
           (fun d p => (d ++ p)%string) (fun _ _ => Ok tt) ∅ "a" "ndvi"
           (Some "out/"%string)) = Some ga.
Proof.
  intros data src.
  destruct (analyze_vegetation_from_geotiff (fun _ => None) (fun _ => true)
      (fun _ => Ok src) (fun _ _ => false) (fun files _ _ => files)
      (fun _ => Ok tt) (fun p => p)
      (fun d p => (d ++ p)%string) (fun _ _ => Ok tt) ∅ "a" "ndvi"
      (Some "out/"%string)) as [[ga|] files'] eqn:E;
    [|vm_compute in E; discriminate E].
  assert (Hf : files' = ∅) by (vm_compute in E; injection E as _ <-; reflexivity).
  exists ga.
  destruct (geotiff_analysis_result _ _ _ _ _ _ _ _ _ _ _ _ _ _ _ data
              (mk_metadata (Some "EPSG:4326"%string) None None (Some 1%nat)
                           (Some 1%nat) (Some 3%nat) (Some float64))
              E eq_refl eq_refl)
    as (_ & Hw & Hp & _).
  rewrite Hf. split; [reflexivity|]. split; [exact Hp|].
  apply (Hw (fun _ _ => true) (fun files _ _ => files)).
Defined.

Lemma analyze_ndvi_data
    (get_cmap : string -> option (float -> list float))
    (image_bands : gmap string (ndarray float)) (colormap : string)
    (r n : ndarray float) (a : Analysis) :
  image_bands !! "red"%string = Some r ->
  image_bands !! "nir"%string = Some n ->
  analyze_vegetation_comprehensive get_cmap image_bands "ndvi" colormap
  = Ok (Some a) ->
  calculate_ndvi_advanced (Some r) (Some n) = Ok (analysis_data a).
Proof.
  intros Hr Hn. unfold analyze_vegetation_comprehensive, analyze_try.
  rewrite lookup_ndvi. eval_conditions. rewrite Hr, Hn. cbn [call2].
  destruct (calculate_ndvi_advanced (Some r) (Some n)) as [data|e];
    cbn [mbind outcome_bind try_except]; [|discriminate].
  destruct (apply_colormap get_cmap (Some data) colormap None None);
    cbn [mbind outcome_bind try_except]; [|discriminate].
  destruct (index_statistics data);
    cbn [mbind outcome_bind try_except]; [|discriminate].
  intros [= <-]. reflexivity.
Qed.

(** X26. NDVI of a three-band (red, green, blue) float64 raster file:
    there is no near-infrared band, the green band times 1.2 is used in
    its place, so a returned index is (1.2 g - r) / (1.2 g + r + 1e-10)
    at every pixel, cleaned and clamped as NDVI is. *)
Theorem geotiff_ndvi_of_three_band_file
    (get_cmap : string -> option (float -> list float))
    (path_exists : string -> bool) (rasterio_open : string -> outcome Dataset)
    (creatable : string -> GeoTIFF -> bool)
    (leftover : gmap string GeoTIFF -> string -> GeoTIFF -> gmap string GeoTIFF)
    (makedirs : string -> outcome unit)
    (stem : string -> string) (join : string -> string -> string)
    (save_image : string -> ndarray Z -> outcome unit)
    (files : gmap string GeoTIFF) (file_path : string)
    (output_dir : option string) (ga : GeoAnalysis)
    (data : ndarray float) (md : Metadata) (band_shape : list nat)
    (red green blue : ndarray float) :
  read_geotiff path_exists rasterio_open file_path = Ok (Some (data, md)) ->
  float64_file md ->
  wf data -> shape data = 3%nat :: band_shape ->
  bands_of data = [red; green; blue] ->
  fst (analyze_vegetation_from_geotiff get_cmap path_exists rasterio_open
         creatable leftover makedirs stem join save_image files file_path
         "ndvi" output_dir) = Some ga ->
  analysis_data (geo_analysis ga)
  = mk_array band_shape
      (zip_with (fun r g => ndvi_pixel r (g * decimal 12 1)%f64)
                (elems red) (elems green)).
Proof.
  intros Hread _ Hw Hs Hb H.
  apply geotiff_analysis_some in H.
  destruct H as (data' & md' & image_bands & Hread' & Hroles & Ha).
  rewrite Hread in Hread'. injection Hread' as <- <-.
  unfold band_roles in Hroles. rewrite Hs, Hb in Hroles.
  cbn [Nat.leb Nat.eqb] in Hroles. injection Hroles as <-.
  apply (analyze_ndvi_data _ _ _ red (mul_scalar green (decimal 12 1)))
    in Ha; [| reflexivity | reflexivity].
  destruct (bands_of_has_shape data 3 band_shape Hw Hs) as [_ HF].
  rewrite Hb in HF.
  inversion HF as [|? ? [Hsr Hlr] HF1]; subst.
  inversion HF1 as [|? ? [Hsg Hlg] _]; subst.
  unfold calculate_ndvi_advanced in Ha.
  rewrite ndvi_try_same_shape in Ha.
  - cbn [try_except] in Ha. injection Ha as <-.
    f_equal. unfold mul_scalar, map_array. cbn [elems].
    apply zip_with_fmap_r.
  - unfold wf, size. congruence.
  - unfold wf, size, mul_scalar, map_array. cbn [shape elems].
    rewrite length_map. congruence.
  - unfold mul_scalar, map_array. cbn [shape]. congruence.
Qed.

Lemma geotiff_ndvi_of_three_band_file_witness :
  let data := mk_array [3%nat; 1%nat; 1%nat] [of_Z 10; of_Z 50; of_Z 20] in
  let src := mk_dataset None None None 1 1 3 [float64; float64; float64]
                        (Some data) in
  exists ga : GeoAnalysis,
    fst (analyze_vegetation_from_geotiff (fun _ => None) (fun _ => true)
           (fun _ => Ok src) (fun _ _ => false) (fun files _ _ => files)
           (fun _ => Ok tt) (fun p => p)
           (fun d p => (d ++ p)%string) (fun _ _ => Ok tt) ∅ "a" "ndvi" None)
    = Some ga /\
    analysis_data (geo_analysis ga)
    = mk_array [1%nat; 1%nat]
               [ndvi_pixel (of_Z 10) (of_Z 50 * decimal 12 1)%f64].
Proof.
  intros data src.
  destruct (fst (analyze_vegetation_from_geotiff (fun _ => None)
      (fun _ => true) (fun _ => Ok src) (fun _ _ => false)
      (fun files _ _ => files) (fun _ => Ok tt)
      (fun p => p) (fun d p => (d ++ p)%string) (fun _ _ => Ok tt) ∅ "a"
      "ndvi" None)) as [ga|] eqn:E;
    [|vm_compute in E; discriminate E].
  exists ga. split; [reflexivity|].
  refine (geotiff_ndvi_of_three_band_file _ _ _ _ _ _ _ _ _ _ _ _ _ data
            (mk_metadata None None None (Some 1%nat) (Some 1%nat) (Some 3%nat)
                         (Some float64))
            [1%nat; 1%nat]
            (mk_array [1%nat; 1%nat] [of_Z 10])
            (mk_array [1%nat; 1%nat] [of_Z 50])
            (mk_array [1%nat; 1%nat] [of_Z 20])
            _ _ _ _ _ E); reflexivity.
Defined.

Lemma sub_nan_or_equal (x lo : float) :
  is_nan x = true \/ eqb x lo = true -> zero_or_nan (x - lo)%f64 = true.
Proof.
  intros [H|H]; [|apply sub_equal_zero_or_nan; exact H].
  rewrite (is_nan_eq x H). destruct lo; reflexivity.
Qed.

Lemma astype_uint8_zero_or_nan (q : float) :
  zero_or_nan q = true -> astype_uint8 (q * of_Z 255)%f64 = 0.
Proof. destruct q as [[]|[]| |]; try discriminate; intros _; reflexivity. Qed.

(** X27. In the preview of a band, a pixel that is NaN and a pixel that
    equals the minimum of the band are both rendered 0, whether the band
    is scaled or, being constant, set to zeros. *)
Theorem normalize_band_dark_pixels (band : ndarray float) (v : list Z)
    (lo : float) :
  wf band -> np_nanmin band = Ok lo -> normalize_band band = Ok v ->
  Forall2 (fun x y => is_nan x = true \/ eqb x lo = true -> y = 0)
          (elems band) v.
Proof.
  intros Hw Hlo. unfold normalize_band. rewrite Hlo.
  cbn [mbind outcome_bind].
  destruct (np_nanmax band) as [hi|e]; cbn [mbind outcome_bind];
    [|discriminate].
  destruct (ltb lo hi); intros [= <-].
  - apply Forall2_fmap_r, Forall_Forall2_diag, Forall_forall.
    intros x _ Hx.
    apply astype_uint8_zero_or_nan, div_zero_or_nan, sub_nan_or_equal, Hx.
  - unfold wf in Hw. rewrite <- Hw. clear.
    induction (elems band) as [|x l IH]; constructor; auto.
Qed.

Lemma normalize_band_dark_pixels_witness :
  normalize_band (mk_array [1%nat; 3%nat] [of_Z 4; nan; of_Z 8])
  = Ok [0; 0; 255] /\
  Forall2 (fun x y => is_nan x = true \/ eqb x (of_Z 4) = true -> y = 0)
          [of_Z 4; nan; of_Z 8] [0; 0; 255].
Proof.
  split; [reflexivity|].
  apply (normalize_band_dark_pixels
           (mk_array [1%nat; 3%nat] [of_Z 4; nan; of_Z 8]) [0; 0; 255]
           (of_Z 4)); reflexivity.
Defined.

(** X28. With a palette that matplotlib knows, on an array with at least
    one value that is not NaN, the image has one more axis, of length 4,
    and every pixel gets the colour the palette gives to its scaled
    value; a NaN pixel is scaled to 0 and gets the colour of 0, so it
    cannot be told from a pixel at the lower bound of the palette. *)
Theorem colormap_named_palette
    (get_cmap : string -> option (float -> list float))
    (data : ndarray float) (colormap : string) (cmap : float -> list float)
    (min_val max_val : option float) :
  wf data -> String.eqb colormap "rdylgn" = false ->
  get_cmap colormap = Some cmap ->
  Exists (fun x => is_nan x = false) (elems data) ->
  exists lo hi : float,
    display_range data min_val max_val = Ok (lo, hi) /\
    apply_colormap get_cmap (Some data) colormap min_val max_val
    = Ok (mk_array (shape data ++ [4%nat])
            (flat_map (fun x => cmap (normalize lo hi x)) (elems data))) /\
    (forall x : float,
       is_nan x = true -> cmap (normalize lo hi x) = cmap (of_Z 0)).
Proof.
  intros Hw Hname Hc Hv.
  assert (Hne : elems data <> []) by (intros E; rewrite E in Hv; inversion Hv).
  destruct (display_range_defined data min_val max_val Hne) as (lo & hi & Hr).
  exists lo, hi. split; [exact Hr|].
  exact (colormap_named_image get_cmap data colormap cmap min_val max_val
           lo hi Hw Hname Hc Hv Hr).
Qed.

Lemma colormap_named_palette_witness :
  let viridis (x : float) : list float := [x; x; x; of_Z 1] in
  apply_colormap (fun name => if String.eqb name "viridis" then Some viridis
                              else None)
    (Some (mk_array [1%nat; 3%nat] [of_Z 2; nan; of_Z 4])) "viridis" None None
  = Ok (mk_array [1%nat; 3%nat; 4%nat]
          [of_Z 0; of_Z 0; of_Z 0; of_Z 1;
           of_Z 0; of_Z 0; of_Z 0; of_Z 1;
           of_Z 1; of_Z 1; of_Z 1; of_Z 1]).
Proof.
  intros viridis.
  destruct (colormap_named_palette
              (fun name => if String.eqb name "viridis" then Some viridis
                           else None)
              (mk_array [1%nat; 3%nat] [of_Z 2; nan; of_Z 4]) "viridis"
              viridis None None eq_refl eq_refl eq_refl)
    as (lo & hi & Hr & H & _).
  - left. reflexivity.
  - injection Hr as <- <-. exact H.
Defined.
